(** * Client-side connectivity layer of the AINode

    A shallow embedding of [iotdb/ainode/client.py]: the paginated
    [DataNodeClient.fetch_timeseries], the leader-tracking
    [ConfigNodeClient] with its bounded retry loop, and the
    [ClientManager] factory.

    Python objects are modelled by records, mutation of [self] and the
    network by explicit state passing in a small state-and-exception
    monad.  The remote peers are an oracle indexed by a logical clock that
    ticks at every network interaction, so that any deterministic
    behaviour of the cluster over time can be scripted. *)

From Stdlib Require Import ZArith List String Bool Lia Arith.
Import ListNotations.

Local Open Scope string_scope.
Local Open Scope list_scope.
Local Open Scope Z_scope.

(** ** Endpoints, statuses, exceptions *)

(** [TEndPoint] of the thrift common types: the fields the client reads. *)
Record TEndPoint : Type := mkEndPoint { ip : string; port : Z }.

Definition TEndPoint_eqb (a b : TEndPoint) : bool :=
  String.eqb (ip a) (ip b) && Z.eqb (port a) (port b).

(** [TSStatus]: the client reads [code] and [redirectNode] only. *)
Record TSStatus : Type := mkStatus { code : Z; redirectNode : option TEndPoint }.

(** The exceptions that flow through the client.  [TTransportException] is
    a subclass of [TException]; the others are not thrift exceptions. *)
Inductive Exception : Type :=
| TException (message : string)
| TTransportException (message : string)
| RuntimeError (message : string)
| OperationFailure (status : TSStatus) (message : string)
| AttributeError (message : string)
| IndexError
| ZeroDivisionError
| OtherError (message : string).

(** [isinstance(e, TException)], the test of every [except TException]. *)
Definition is_TException (e : Exception) : bool :=
  match e with
  | TException _ | TTransportException _ => true
  | _ => false
  end.

(** What a remote call does: it replies, or the stub raises. *)
Inductive Outcome (A : Type) : Type :=
| Reply (a : A)
| Throw (e : Exception).
Arguments Reply {A} a.
Arguments Throw {A} e.

(** What a Python call does: it returns, or an exception propagates. *)
Inductive Result (A : Type) : Type :=
| Ok (a : A)
| Raise (e : Exception).
Arguments Ok {A} a.
Arguments Raise {A} e.

(** Python's [l[i]] on a list: negative indices count from the end, and an
    index out of range raises [IndexError]. *)
Definition py_index {A : Type} (l : list A) (i : Z) : option A :=
  let n := Z.of_nat (List.length l) in
  if (0 <=? i) && (i <? n) then nth_error l (Z.to_nat i)
  else if (- n <=? i) && (i <? 0) then nth_error l (Z.to_nat (i + n))
  else None.

(** Python's [a % b] on integers: the sign of the result follows [b], as
    [Z.modulo] does; [b = 0] raises [ZeroDivisionError]. *)
Definition py_mod (a b : Z) : option Z :=
  if b =? 0 then None else Some (a mod b).

(** ** The world outside the client *)

(** A transport the client opened: [tid] is the clock value at which it was
    opened, which makes transports distinct objects. *)
Record Transport : Type := mkTransport { tid : nat; peer : TEndPoint }.

Definition Transport_eqb (a b : Transport) : bool :=
  Nat.eqb (tid a) (tid b) && TEndPoint_eqb (peer a) (peer b).

Inductive Protocol : Type :=
| TCompactProtocol (t : Transport)
| TBinaryProtocol (t : Transport).

Definition protocol_transport (p : Protocol) : Transport :=
  match p with TCompactProtocol t | TBinaryProtocol t => t end.

Inductive Rpc : Type :=
| RegisterAINode | RestartAINode | RemoveAINode | GetAINodeConfiguration
| FetchTimeseries | FetchMoreData.

Inductive Event : Type :=
| EvOpen (target : TEndPoint) (accepted : bool)
| EvClose (t : Transport)
| EvCall (method : Rpc) (target : TEndPoint)
| EvSleep (seconds : Z).

(** [clock] counts the network interactions so far, [open_transports]
    lists the transports opened and not closed, [trace] is the history of
    what the client did, oldest first. *)
Record World : Type := mkWorld {
  clock : nat;
  open_transports : list Transport;
  trace : list Event
}.

Definition initial_world : World := mkWorld 0 [] [].

Definition is_call (ev : Event) : bool :=
  match ev with EvCall _ _ => true | _ => false end.

Definition is_open (ev : Event) : bool :=
  match ev with EvOpen _ _ => true | _ => false end.

(** Number of remote calls issued in a history. *)
Definition calls (l : list Event) : nat := List.length (filter is_call l).

(** The endpoints a history tried to connect to, in order. *)
Fixpoint opened (l : list Event) : list TEndPoint :=
  match l with
  | [] => []
  | EvOpen e _ :: l' => e :: opened l'
  | _ :: l' => opened l'
  end.

Lemma calls_app (l1 l2 : list Event) : calls (l1 ++ l2) = (calls l1 + calls l2)%nat.
Proof. unfold calls. rewrite filter_app, length_app. reflexivity. Qed.

Lemma opened_app (l1 l2 : list Event) : opened (l1 ++ l2) = opened l1 ++ opened l2.
Proof.
  induction l1 as [|ev l1 IH]; simpl; [reflexivity|].
  destruct ev; simpl; rewrite IH; reflexivity.
Qed.

(** ** The resolved configuration *)

(** What [descriptor.get_config()] gives the client: the data node to
    query, the config node to start from (the constructor of
    [ConfigNodeClient] receives it as [config_leader: TEndPoint] and reads
    its [ip] and [port]), and the flag that selects the wire encoding. *)
Record Config : Type := mkConfig {
  get_mn_target_data_node : TEndPoint;
  get_ain_target_config_node_list : TEndPoint;
  get_ain_thrift_compression_enabled : bool
}.

Section Client.

(** Payloads the client only passes along. *)
Context {TAINodeConfiguration TNodeVersionInfo TAINodeLocation
         ConfigurationMap TsBlock ColumnType Row : Type}.

(** ** Messages *)

Record TAINodeRegisterReq : Type := mkRegisterReq {
  reg_clusterName : string;
  reg_aiNodeConfiguration : TAINodeConfiguration;
  reg_versionInfo : TNodeVersionInfo
}.

Record TAINodeRegisterResp : Type := mkRegisterResp {
  reg_status : TSStatus;
  reg_configNodeList : list TEndPoint;
  aiNodeId : Z
}.

Record TAINodeRestartReq : Type := mkRestartReq {
  rst_clusterName : string;
  rst_aiNodeConfiguration : TAINodeConfiguration;
  rst_versionInfo : TNodeVersionInfo
}.

Record TAINodeRestartResp : Type := mkRestartResp {
  rst_status : TSStatus;
  rst_configNodeList : list TEndPoint
}.

Record TAINodeRemoveReq : Type := mkRemoveReq { aiNodeLocation : TAINodeLocation }.

Record TAINodeConfigurationResp : Type := mkConfigurationResp {
  cfg_status : TSStatus;
  aiNodeConfigurationMap : ConfigurationMap
}.

Record TFetchTimeseriesReq : Type := mkFetchReq {
  queryBody : string;
  fts_fetchSize : Z;
  timeout : Z
}.

Record TFetchTimeseriesResp : Type := mkFetchResp {
  fts_status : TSStatus;
  fts_queryId : Z;
  columnNameList : list string;
  columnTypeList : list ColumnType;
  columnNameIndexMap : list (string * Z);
  fts_tsDataset : list TsBlock;
  fts_hasMoreData : bool
}.

Record TFetchMoreDataReq : Type := mkMoreReq { fmd_queryId : Z; fmd_fetchSize : Z }.

Record TFetchMoreDataResp : Type := mkMoreResp {
  fmd_status : TSStatus;
  fmd_tsDataset : list TsBlock;
  fmd_hasMoreData : bool
}.

(** ** The cluster as an oracle

    [accepts t e] tells whether [transport.open()] to [e] succeeds at clock
    [t]; each remote procedure tells what the node [e] the stub is
    connected to does with a request sent at clock [t]. *)
Record Network : Type := mkNetwork {
  accepts : nat -> TEndPoint -> bool;
  registerAINode : nat -> TEndPoint -> TAINodeRegisterReq -> Outcome TAINodeRegisterResp;
  restartAINode : nat -> TEndPoint -> TAINodeRestartReq -> Outcome TAINodeRestartResp;
  removeAINode : nat -> TEndPoint -> TAINodeRemoveReq -> Outcome TSStatus;
  getAINodeConfiguration : nat -> TEndPoint -> Z -> Outcome TAINodeConfigurationResp;
  fetchTimeseries : nat -> TEndPoint -> TFetchTimeseriesReq -> Outcome TFetchTimeseriesResp;
  fetchMoreData : nat -> TEndPoint -> TFetchMoreDataReq -> Outcome TFetchMoreDataResp
}.

Variable net : Network.
Variable descriptor : Config.

(** The two status codes of [TSStatusCode] the client compares with. *)
Variable SUCCESS_STATUS : Z.
Variable REDIRECTION_RECOMMEND : Z.

(** [serde.convert_to_df]: decodes the binary blocks of one page into the
    rows of a data frame. *)
Definition DataFrame : Type := list Row.
Variable convert_to_df :
  list string -> list ColumnType -> list (string * Z) -> list TsBlock -> DataFrame.

(** [DataFrame.empty] and [DataFrame.append] of pandas, on rows. *)
Definition df_empty (d : DataFrame) : bool :=
  match d with [] => true | _ => false end.
Definition df_append (d more : DataFrame) : DataFrame := d ++ more.

(** Modelled from the spec: [verify_success] of [iotdb.ainode.util] is not
    part of the sources at hand.  A status that is not the success status
    fails the call with a failure that carries the status; a success
    status lets the call go on. *)
Definition verify_success (status : TSStatus) (err_msg : string) : option Exception :=
  if code status =? SUCCESS_STATUS then None
  else Some (OperationFailure status err_msg).

(** ** Effects on the world *)

Definition log (ev : Event) (w : World) : World :=
  mkWorld (clock w) (open_transports w) (trace w ++ [ev]).

Definition tick (w : World) : World :=
  mkWorld (S (clock w)) (open_transports w) (trace w).

(** [TFramedTransport(TSocket(ip, port))] is created closed, so
    [transport.isOpen()] is false and [transport.open()] always runs; a
    failure is a [TTransportException], which the caller sees re-raised. *)
Definition transport_open (target : TEndPoint) (w : World) : Result Transport * World :=
  if accepts net (clock w) target then
    let t := mkTransport (clock w) target in
    (Ok t, mkWorld (S (clock w)) (t :: open_transports w)
                   (trace w ++ [EvOpen target true]))
  else
    (Raise (TTransportException "Could not connect"),
     mkWorld (S (clock w)) (open_transports w) (trace w ++ [EvOpen target false])).

Definition transport_close (t : Transport) (w : World) : World :=
  mkWorld (clock w)
          (filter (fun t' => negb (Transport_eqb t t')) (open_transports w))
          (trace w ++ [EvClose t]).

(** A transport object that is no longer referenced: CPython's reference
    counting finalises its socket at once, which closes the connection.
    Exactly that object goes, so the first occurrence is removed. *)
Fixpoint remove_first (t : Transport) (l : list Transport) : list Transport :=
  match l with
  | [] => []
  | t' :: l' => if Transport_eqb t t' then l' else t' :: remove_first t l'
  end.

Definition transport_finalize (t : Transport) (w : World) : World :=
  mkWorld (clock w) (remove_first t (open_transports w)) (trace w).

Definition make_protocol (t : Transport) : Protocol :=
  if get_ain_thrift_compression_enabled descriptor
  then TCompactProtocol t else TBinaryProtocol t.

(** A remote call through the stub built on protocol [p]: the request goes
    to the node the transport of [p] was opened to. *)
Definition call {Req Resp : Type} (method : Rpc)
    (rpc : nat -> TEndPoint -> Req -> Outcome Resp)
    (p : Protocol) (req : Req) (w : World) : Outcome Resp * World :=
  let target := peer (protocol_transport p) in
  (rpc (clock w) target req,
   mkWorld (S (clock w)) (open_transports w) (trace w ++ [EvCall method target])).

(** ** DataNodeClient *)

Definition DEFAULT_FETCH_SIZE : Z := 10000.
Definition DEFAULT_TIMEOUT : Z := 60000.

Record DataNodeClient : Type := mkDataNodeClient {
  dn_host : string;
  dn_port : Z;
  dn_client : Protocol
}.

Definition DataNodeClient_init (host : string) (port : Z) (w : World)
  : Result DataNodeClient * World :=
  match transport_open (mkEndPoint host port) w with
  | (Ok transport, w') => (Ok (mkDataNodeClient host port (make_protocol transport)), w')
  | (Raise e, w') => (Raise e, w')
  end.

(** The [while has_more_data] loop of [fetch_timeseries].  The data node
    may announce more data for ever, so the loop takes [fuel]: [None] means
    the fuel ran out while [has_more_data] was still true. *)
Fixpoint fetch_more_loop (fuel : nat) (self : DataNodeClient)
    (query_id fetch_size : Z)
    (column_name_list : list string) (column_type_list : list ColumnType)
    (column_name_index_map : list (string * Z))
    (has_more_data : bool) (data : DataFrame) (w : World)
  : option (Result DataFrame * World) :=
  if has_more_data then
    match fuel with
    | O => None
    | S fuel' =>
        let req := mkMoreReq query_id fetch_size in
        match call FetchMoreData (fetchMoreData net) (dn_client self) req w with
        | (Throw e, w') => Some (Raise e, w')
        | (Reply resp, w') =>
            match verify_success (fmd_status resp)
                    "An error occurs when calling fetch_more_data()" with
            | Some e => Some (Raise e, w')
            | None =>
                let data' := df_append data
                               (convert_to_df column_name_list column_type_list
                                              column_name_index_map (fmd_tsDataset resp)) in
                fetch_more_loop fuel' self query_id fetch_size column_name_list
                                column_type_list column_name_index_map
                                (fmd_hasMoreData resp) data' w'
            end
        end
    end
  else Some (Ok data, w).

(** [fetch_timeseries]: every exception of the first block is logged and
    re-raised as it is, so it simply propagates. *)
Definition fetch_timeseries (fuel : nat) (self : DataNodeClient)
    (query_body : string) (fetch_size : Z) (timeout : Z) (w : World)
  : option (Result DataFrame * World) :=
  let req := mkFetchReq query_body fetch_size timeout in
  match call FetchTimeseries (fetchTimeseries net) (dn_client self) req w with
  | (Throw e, w') => Some (Raise e, w')
  | (Reply resp, w') =>
      match verify_success (fts_status resp)
              "An error occurs when calling fetch_timeseries()" with
      | Some e => Some (Raise e, w')
      | None =>
          if (Z.of_nat (List.length (fts_tsDataset resp)) =? 0) then
            Some (Raise (RuntimeError
                           (String.append "No data fetched with sql: " query_body)), w')
          else
            let data := convert_to_df (columnNameList resp) (columnTypeList resp)
                                      (columnNameIndexMap resp) (fts_tsDataset resp) in
            if df_empty data then
              Some (Raise (RuntimeError
                             (String.append "Fetched empty data with sql: " query_body)), w')
            else
              fetch_more_loop fuel self (fts_queryId resp) fetch_size
                              (columnNameList resp) (columnTypeList resp)
                              (columnNameIndexMap resp) (fts_hasMoreData resp) data w'
      end
  end.

(** ** ConfigNodeClient: state and monad *)

Record ConfigNodeClient : Type := mkConfigNodeClient {
  config_leader : option TEndPoint;
  config_nodes : list TEndPoint;
  cursor : Z;
  transport : option Transport;
  client : option Protocol
}.

Definition MSG_RECONNECTION_FAIL : string :=
  "Fail to connect to any config node. Please check status of ConfigNodes".
Definition RETRY_NUM : nat := 5.
Definition RETRY_INTERVAL_MS : Z := 1.

Record State : Type := mkState { self : ConfigNodeClient; world : World }.

(** A method of the client: it reads and writes [self] and the world, and
    returns or raises.  The state survives an exception. *)
Definition M (A : Type) : Type := State -> Result A * State.

Definition ret {A : Type} (a : A) : M A := fun s => (Ok a, s).
Definition raise {A : Type} (e : Exception) : M A := fun s => (Raise e, s).
Definition bind {A B : Type} (m : M A) (k : A -> M B) : M B :=
  fun s => match m s with
           | (Ok a, s') => k a s'
           | (Raise e, s') => (Raise e, s')
           end.

Notation "x <- m ;; k" := (bind m (fun x => k))
  (at level 61, m at next level, right associativity).
Notation "m ;;; k" := (bind m (fun _ => k))
  (at level 61, right associativity).

(** [try: body except C: handler], where [handles] is the class test. *)
Definition try_except {A : Type} (body : M A) (handles : Exception -> bool)
    (handler : M A) : M A :=
  fun s => match body s with
           | (Ok a, s') => (Ok a, s')
           | (Raise e, s') => if handles e then handler s' else (Raise e, s')
           end.

Definition get {A : Type} (field : ConfigNodeClient -> A) : M A :=
  fun s => (Ok (field (self s)), s).

Definition set_config_leader (v : option TEndPoint) : M unit :=
  fun s => let c := self s in
    (Ok tt, mkState (mkConfigNodeClient v (config_nodes c) (cursor c)
                                        (transport c) (client c)) (world s)).
Definition set_config_nodes (v : list TEndPoint) : M unit :=
  fun s => let c := self s in
    (Ok tt, mkState (mkConfigNodeClient (config_leader c) v (cursor c)
                                        (transport c) (client c)) (world s)).
Definition set_cursor (v : Z) : M unit :=
  fun s => let c := self s in
    (Ok tt, mkState (mkConfigNodeClient (config_leader c) (config_nodes c) v
                                        (transport c) (client c)) (world s)).
(** [self.__client = IConfigNodeRPCService.Client(protocol)]: the stub that
    was bound before, if any, is referenced by nothing else (the transport
    it was built on was a local of the [__connect] that made it, and
    [self.__transport] never holds it), so rebinding the field drops the
    last reference to its transport, which is finalised. *)
Definition rebind_client (p : Protocol) : M unit :=
  fun s => let c := self s in
    (Ok tt,
     mkState (mkConfigNodeClient (config_leader c) (config_nodes c) (cursor c)
                                 (transport c) (Some p))
             (match client c with
              | Some old => transport_finalize (protocol_transport old) (world s)
              | None => world s
              end)).

(** Lifting of the effects on the world. *)
Definition open (target : TEndPoint) : M Transport :=
  fun s => let (r, w) := transport_open target (world s) in (r, mkState (self s) w).
Definition close (t : Transport) : M unit :=
  fun s => (Ok tt, mkState (self s) (transport_close t (world s))).
Definition sleep (seconds : Z) : M unit :=
  fun s => (Ok tt, mkState (self s) (log (EvSleep seconds) (world s))).

(** [self.__client.method(req)]: without a stub the attribute access on
    [None] raises [AttributeError]. *)
Definition invoke {Req Resp : Type} (method : Rpc)
    (rpc : nat -> TEndPoint -> Req -> Outcome Resp) (req : Req) : M Resp :=
  fun s => match client (self s) with
           | None => (Raise (AttributeError "'NoneType' object has no attribute"), s)
           | Some p =>
               match call method rpc p req (world s) with
               | (Reply resp, w) => (Ok resp, mkState (self s) w)
               | (Throw e, w) => (Raise e, mkState (self s) w)
               end
           end.

Definition lift_option {A : Type} (o : option A) (e : Exception) : M A :=
  match o with Some a => ret a | None => raise e end.

Definition check (o : option Exception) : M unit :=
  match o with Some e => raise e | None => ret tt end.

(** ** ConfigNodeClient: methods *)

(** [__connect]: opens a fresh transport to the target and replaces the
    stub.  Nothing is stored in [self.__transport]. *)
Definition connect (target_config_node : TEndPoint) : M unit :=
  transport <- open target_config_node ;;
  rebind_client (make_protocol transport).

(** The [while try_host_num < len(self.__config_nodes)] loop of
    [__try_to_connect].  The list does not change while the loop runs, so
    the loop is written over the number of iterations left, which is
    [len(self.__config_nodes) - try_host_num]. *)
Fixpoint try_hosts (left : nat) : M unit :=
  match left with
  | O => raise (TException MSG_RECONNECTION_FAIL)
  | S left' =>
      cur <- get cursor ;;
      nodes <- get config_nodes ;;
      next <- lift_option (py_mod (cur + 1) (Z.of_nat (List.length nodes)))
                          ZeroDivisionError ;;
      set_cursor next ;;;
      nodes <- get config_nodes ;;
      cur <- get cursor ;;
      try_endpoint <- lift_option (py_index nodes cur) IndexError ;;
      connected <- try_except (connect try_endpoint ;;; ret true)
                              is_TException (ret false) ;;
      if connected then ret tt else try_hosts left'
  end.

(** [__try_to_connect]. *)
Definition try_to_connect : M unit :=
  leader <- get config_leader ;;
  done <- match leader with
          | Some l =>
              try_except (connect l ;;; ret true)
                         is_TException (set_config_leader None ;;; ret false)
          | None => ret false
          end ;;
  if done then ret tt
  else
    tr <- get transport ;;
    match tr with Some t => close t | None => ret tt end ;;;
    nodes <- get config_nodes ;;
    try_hosts (List.length nodes).

(** [__sync_latest_config_node_list]: a placeholder that does nothing. *)
Definition sync_latest_config_node_list : M unit := ret tt.

(** [__wait_and_reconnect]. *)
Definition wait_and_reconnect : M unit :=
  sleep RETRY_INTERVAL_MS ;;;
  try_except try_to_connect is_TException
             (sync_latest_config_node_list ;;; try_to_connect).

(** [__update_config_node_leader]. *)
Definition update_config_node_leader (status : TSStatus) : M bool :=
  if code status =? REDIRECTION_RECOMMEND then
    match redirectNode status with
    | Some node => set_config_leader (Some node)
    | None => set_config_leader None
    end ;;;
    ret true
  else ret false.

(** One turn of a [for] body: the function returned a value, or the body
    ran to its end and the loop goes on. *)
Inductive Flow (A : Type) : Type :=
| Return (a : A)
| Next.
Arguments Return {A} a.
Arguments Next {A}.

(** [for _ in range(0, n): body] followed by [after]. *)
Fixpoint for_range {A : Type} (n : nat) (body : M (Flow A)) (after : M A) : M A :=
  match n with
  | O => after
  | S n' =>
      r <- body ;;
      match r with
      | Return a => ret a
      | Next => for_range n' body after
      end
  end.

(** The body of the retry loop of [node_register]. *)
Definition node_register_attempt (req : TAINodeRegisterReq) : M (Flow Z) :=
  r <- try_except
         (resp <- invoke RegisterAINode (registerAINode net) req ;;
          redirected <- update_config_node_leader (reg_status resp) ;;
          if negb redirected then
            check (verify_success (reg_status resp)
                     "An error occurs when calling node_register()") ;;;
            set_config_nodes (reg_configNodeList resp) ;;;
            ret (Return (aiNodeId resp))
          else ret Next)
         is_TException
         (set_config_leader None ;;; ret Next) ;;
  match r with
  | Return a => ret (Return a)
  | Next => wait_and_reconnect ;;; ret Next
  end.

Definition node_register (cluster_name : string)
    (configuration : TAINodeConfiguration) (version_info : TNodeVersionInfo) : M Z :=
  let req := mkRegisterReq cluster_name configuration version_info in
  for_range RETRY_NUM (node_register_attempt req)
            (raise (TException MSG_RECONNECTION_FAIL)).

(** The body of the retry loop of [node_restart]. *)
Definition node_restart_attempt (req : TAINodeRestartReq) : M (Flow TSStatus) :=
  r <- try_except
         (resp <- invoke RestartAINode (restartAINode net) req ;;
          redirected <- update_config_node_leader (rst_status resp) ;;
          if negb redirected then
            check (verify_success (rst_status resp)
                     "An error occurs when calling node_restart()") ;;;
            set_config_nodes (rst_configNodeList resp) ;;;
            ret (Return (rst_status resp))
          else ret Next)
         is_TException
         (set_config_leader None ;;; ret Next) ;;
  match r with
  | Return a => ret (Return a)
  | Next => wait_and_reconnect ;;; ret Next
  end.

Definition node_restart (cluster_name : string)
    (configuration : TAINodeConfiguration) (version_info : TNodeVersionInfo)
  : M TSStatus :=
  let req := mkRestartReq cluster_name configuration version_info in
  for_range RETRY_NUM (node_restart_attempt req)
            (raise (TException MSG_RECONNECTION_FAIL)).

(** The body of the retry loop of [node_remove]. *)
Definition node_remove_attempt (req : TAINodeRemoveReq) : M (Flow TSStatus) :=
  r <- try_except
         (status <- invoke RemoveAINode (removeAINode net) req ;;
          redirected <- update_config_node_leader status ;;
          if negb redirected then
            check (verify_success status
                     "An error occurs when calling node_restart()") ;;;
            ret (Return status)
          else ret Next)
         is_TException
         (set_config_leader None ;;; ret Next) ;;
  match r with
  | Return a => ret (Return a)
  | Next => wait_and_reconnect ;;; ret Next
  end.

Definition node_remove (location : TAINodeLocation) : M TSStatus :=
  let req := mkRemoveReq location in
  for_range RETRY_NUM (node_remove_attempt req)
            (raise (TException MSG_RECONNECTION_FAIL)).

(** The body of the retry loop of [get_ainode_configuration]. *)
Definition get_ainode_configuration_attempt (node_id : Z)
  : M (Flow ConfigurationMap) :=
  r <- try_except
         (resp <- invoke GetAINodeConfiguration (getAINodeConfiguration net) node_id ;;
          redirected <- update_config_node_leader (cfg_status resp) ;;
          if negb redirected then
            check (verify_success (cfg_status resp)
                     "An error occurs when calling get_ainode_configuration()") ;;;
            ret (Return (aiNodeConfigurationMap resp))
          else ret Next)
         is_TException
         (set_config_leader None ;;; ret Next) ;;
  match r with
  | Return a => ret (Return a)
  | Next => wait_and_reconnect ;;; ret Next
  end.

Definition get_ainode_configuration (node_id : Z) : M ConfigurationMap :=
  for_range RETRY_NUM (get_ainode_configuration_attempt node_id)
            (raise (TException MSG_RECONNECTION_FAIL)).

(** [ConfigNodeClient.__init__]: the fields are initialised, then the
    constructor connects; when that raises, no object is returned. *)
Definition ConfigNodeClient_init (leader : option TEndPoint) (w : World)
  : Result ConfigNodeClient * World :=
  let fresh := mkConfigNodeClient leader [] 0 None None in
  match try_to_connect (mkState fresh w) with
  | (Ok _, s) => (Ok (self s), world s)
  | (Raise e, s) => (Raise e, world s)
  end.

(** ** ClientManager *)

Record ClientManager : Type := mkClientManager {
  data_node_endpoint : TEndPoint;
  config_node_endpoint : TEndPoint
}.

Definition ClientManager_init : ClientManager :=
  mkClientManager (get_mn_target_data_node descriptor)
                  (get_ain_target_config_node_list descriptor).

Definition borrow_data_node_client (m : ClientManager) (w : World)
  : Result DataNodeClient * World :=
  DataNodeClient_init (ip (data_node_endpoint m)) (port (data_node_endpoint m)) w.

Definition borrow_config_node_client (m : ClientManager) (w : World)
  : Result ConfigNodeClient * World :=
  ConfigNodeClient_init (Some (config_node_endpoint m)) w.

(** ** Properties of [DataNodeClient.fetch_timeseries] *)

(** The node the stub of a data-node client talks to. *)
Definition dn_target (self : DataNodeClient) : TEndPoint :=
  peer (protocol_transport (dn_client self)).

(** The rows of one later page, decoded with the columns of the first. *)
Definition page_rows (first : TFetchTimeseriesResp) (p : TFetchMoreDataResp) : DataFrame :=
  convert_to_df (columnNameList first) (columnTypeList first)
                (columnNameIndexMap first) (fmd_tsDataset p).

Definition first_rows (first : TFetchTimeseriesResp) : DataFrame :=
  convert_to_df (columnNameList first) (columnTypeList first)
                (columnNameIndexMap first) (fts_tsDataset first).

Lemma world_eta (w : World) : mkWorld (clock w) (open_transports w) (trace w) = w.
Proof. destruct w; reflexivity. Qed.

Lemma verify_success_ok (st : TSStatus) (msg : string) :
  code st = SUCCESS_STATUS -> verify_success st msg = None.
Proof. intros H. unfold verify_success. rewrite H, Z.eqb_refl. reflexivity. Qed.

Lemma verify_success_raises (st : TSStatus) (msg : string) (e : Exception) :
  verify_success st msg = Some e -> e = OperationFailure st msg /\ code st <> SUCCESS_STATUS.
Proof.
  unfold verify_success. destruct (code st =? SUCCESS_STATUS) eqn:E; [discriminate|].
  intros H. injection H as <-. split; [reflexivity|]. now apply Z.eqb_neq.
Qed.

(** The loop over a script of successful pages: it asks for exactly the
    pages of the script when every flag but the last announces more. *)
Lemma fetch_more_loop_pages (self : DataNodeClient) (qid fs : Z)
    (cn : list string) (ct : list ColumnType) (cm : list (string * Z)) :
  forall (pages : list TFetchMoreDataResp) (fuel : nat) (more : bool)
         (data : DataFrame) (w : World),
    (List.length pages <= fuel)%nat ->
    (forall k p, nth_error pages k = Some p ->
       fetchMoreData net (clock w + k)%nat (dn_target self) (mkMoreReq qid fs) = Reply p
       /\ code (fmd_status p) = SUCCESS_STATUS) ->
    more :: map fmd_hasMoreData pages = repeat true (List.length pages) ++ [false] ->
    fetch_more_loop fuel self qid fs cn ct cm more data w =
      Some (Ok (data ++ flat_map (fun p => convert_to_df cn ct cm (fmd_tsDataset p)) pages),
            mkWorld (clock w + List.length pages)%nat (open_transports w)
                    (trace w ++ repeat (EvCall FetchMoreData (dn_target self))
                                       (List.length pages))).
Proof.
  induction pages as [|p ps IH]; intros fuel more data w Hfuel Hnet Hflags.
  - simpl in Hflags. injection Hflags as ->.
    destruct fuel; simpl; rewrite !app_nil_r, Nat.add_0_r, world_eta; reflexivity.
  - simpl in Hflags. injection Hflags as -> Hrest.
    destruct fuel as [|fuel]; [simpl in Hfuel; lia|].
    destruct (Hnet 0%nat p eq_refl) as [Hp Hst].
    rewrite Nat.add_0_r in Hp.
    cbn [fetch_more_loop]. unfold call. fold (dn_target self).
    rewrite Hp. rewrite (verify_success_ok _ _ Hst).
    rewrite (IH fuel (fmd_hasMoreData p)).
    + cbn [clock open_transports trace List.length flat_map repeat].
      unfold df_append.
      rewrite <- !app_assoc. cbn [app].
      replace (S (clock w) + List.length ps)%nat
        with (clock w + S (List.length ps))%nat by lia.
      reflexivity.
    + simpl in Hfuel. lia.
    + intros k q Hk. cbn [clock].
      replace (S (clock w) + k)%nat with (clock w + S k)%nat by lia.
      apply Hnet. exact Hk.
    + exact Hrest.
Qed.

(** C4 (as amended): for every first page that is not empty and every
    script of successful later pages in which each page but the last
    announces more data, [fetch_timeseries] asks for exactly the pages of
    the script (one fetch-more request per announced page, none after the
    flag became false) and returns the rows of all pages concatenated in
    arrival order. *)
Theorem fetch_timeseries_concatenates_pages :
  forall (self : DataNodeClient) (query_body : string) (fetch_size timeout : Z)
         (w : World) (first : TFetchTimeseriesResp)
         (pages : list TFetchMoreDataResp) (fuel : nat),
    fetchTimeseries net (clock w) (dn_target self)
                    (mkFetchReq query_body fetch_size timeout) = Reply first ->
    code (fts_status first) = SUCCESS_STATUS ->
    fts_tsDataset first <> [] ->
    first_rows first <> [] ->
    (forall k p, nth_error pages k = Some p ->
       fetchMoreData net (S (clock w) + k)%nat (dn_target self)
                     (mkMoreReq (fts_queryId first) fetch_size) = Reply p
       /\ code (fmd_status p) = SUCCESS_STATUS) ->
    fts_hasMoreData first :: map fmd_hasMoreData pages
      = repeat true (List.length pages) ++ [false] ->
    (List.length pages <= fuel)%nat ->
    exists w',
      fetch_timeseries fuel self query_body fetch_size timeout w
        = Some (Ok (first_rows first ++ flat_map (page_rows first) pages), w')
      /\ trace w' = trace w ++ EvCall FetchTimeseries (dn_target self)
                            :: repeat (EvCall FetchMoreData (dn_target self))
                                      (List.length pages)
      /\ List.length (filter (fun ev => match ev with
                                        | EvCall FetchMoreData _ => true
                                        | _ => false
                                        end) (trace w'))
         = (List.length (filter (fun ev => match ev with
                                           | EvCall FetchMoreData _ => true
                                           | _ => false
                                           end) (trace w))
            + List.length pages)%nat.
Proof.
  intros self q fs to w first pages fuel Hfirst Hst Hblocks Hrows Hnet Hflags Hfuel.
  unfold fetch_timeseries, call. fold (dn_target self).
  rewrite Hfirst, (verify_success_ok _ _ Hst).
  destruct (fts_tsDataset first) as [|b bs] eqn:Eb; [congruence|].
  cbn [List.length]. rewrite Nat2Z.inj_succ.
  destruct (Z.succ (Z.of_nat (List.length bs)) =? 0) eqn:E0; [apply Z.eqb_eq in E0; lia|].
  rewrite <- Eb. fold (first_rows first).
  destruct (first_rows first) as [|r rs] eqn:Er; [congruence|].
  cbn [df_empty]. rewrite <- Er.
  unfold first_rows. 
  erewrite fetch_more_loop_pages; [| exact Hfuel | exact Hnet | exact Hflags].
  eexists. split; [reflexivity|].
  cbn [trace]. rewrite <- app_assoc. cbn [app].
  split; [reflexivity|].
  rewrite filter_app, length_app. f_equal.
  cbn [filter].
  clear. induction (List.length pages) as [|n IH]; [reflexivity|].
  cbn [repeat filter List.length]. f_equal. exact IH.
Qed.

(** C5: when the open-query call succeeds but its first page has no rows
    (no block at all, or blocks that decode to an empty frame),
    [fetch_timeseries] raises the [RuntimeError] of the empty result,
    which is never what [verify_success] raises for a failed status, and
    the only remote call issued is the open-query call. *)
Theorem fetch_timeseries_empty_first_page :
  forall (self : DataNodeClient) (query_body : string) (fetch_size timeout : Z)
         (w : World) (first : TFetchTimeseriesResp) (fuel : nat),
    fetchTimeseries net (clock w) (dn_target self)
                    (mkFetchReq query_body fetch_size timeout) = Reply first ->
    code (fts_status first) = SUCCESS_STATUS ->
    fts_tsDataset first = [] \/ first_rows first = [] ->
    exists msg w',
      fetch_timeseries fuel self query_body fetch_size timeout w
        = Some (Raise (RuntimeError msg), w')
      /\ (msg = String.append "No data fetched with sql: " query_body
          \/ msg = String.append "Fetched empty data with sql: " query_body)
      /\ (forall st m, verify_success st m <> Some (RuntimeError msg))
      /\ trace w' = trace w ++ [EvCall FetchTimeseries (dn_target self)].
Proof.
  intros self q fs to w first fuel Hfirst Hst Hempty.
  assert (Hdistinct : forall msg st m, verify_success st m <> Some (RuntimeError msg)).
  { intros msg st m H. apply verify_success_raises in H. destruct H as [H _]. discriminate. }
  unfold fetch_timeseries, call. fold (dn_target self).
  rewrite Hfirst, (verify_success_ok _ _ Hst).
  destruct (Z.of_nat (List.length (fts_tsDataset first)) =? 0) eqn:E0.
  - eexists. eexists. split; [reflexivity|]. split; [left; reflexivity|].
    split; [apply Hdistinct | reflexivity].
  - destruct Hempty as [Hb | Hr].
    + rewrite Hb in E0. discriminate.
    + fold (first_rows first). rewrite Hr. cbn [df_empty].
      eexists. eexists. split; [reflexivity|]. split; [right; reflexivity|].
      split; [apply Hdistinct | reflexivity].
Qed.

(** ** The resolution step of [ConfigNodeClient], equation by equation *)

(** States the methods pass through, written out. *)
(** The open transports once the stub of [s] is replaced by one on [t]:
    [t] was opened, then the transport of the old stub went. *)
Definition replaced (t : Transport) (s : State) : list Transport :=
  match client (self s) with
  | Some old => remove_first (protocol_transport old) (t :: open_transports (world s))
  | None => t :: open_transports (world s)
  end.

Definition accepted (target : TEndPoint) (s : State) : State :=
  mkState
    (mkConfigNodeClient (config_leader (self s)) (config_nodes (self s))
       (cursor (self s)) (transport (self s))
       (Some (make_protocol (mkTransport (clock (world s)) target))))
    (mkWorld (S (clock (world s)))
       (replaced (mkTransport (clock (world s)) target) s)
       (trace (world s) ++ [EvOpen target true])).

Definition refused (target : TEndPoint) (s : State) : State :=
  mkState (self s)
    (mkWorld (S (clock (world s))) (open_transports (world s))
       (trace (world s) ++ [EvOpen target false])).

Definition lead (v : option TEndPoint) (s : State) : State :=
  mkState
    (mkConfigNodeClient v (config_nodes (self s)) (cursor (self s))
       (transport (self s)) (client (self s)))
    (world s).

Definition release (s : State) : State :=
  match transport (self s) with
  | Some t => mkState (self s) (transport_close t (world s))
  | None => s
  end.

Definition advance (s : State) : State :=
  mkState
    (mkConfigNodeClient (config_leader (self s)) (config_nodes (self s))
       ((cursor (self s) + 1) mod Z.of_nat (List.length (config_nodes (self s))))
       (transport (self s)) (client (self s)))
    (world s).

Definition slept (s : State) : State :=
  mkState (self s) (log (EvSleep RETRY_INTERVAL_MS) (world s)).

Definition no_endpoint : TEndPoint := mkEndPoint "" 0.

(** The member the cursor points at. *)
Definition current (s : State) : TEndPoint :=
  nth (Z.to_nat (cursor (self s))) (config_nodes (self s)) no_endpoint.

(** The index of the [j]-th candidate of a round-robin that starts with
    cursor [cur], counting from 0, and the member at that index. *)
Definition candidate (cur : Z) (nodes : list TEndPoint) (j : nat) : Z :=
  (cur + 1 + Z.of_nat j) mod Z.of_nat (List.length nodes).

Definition candidate_endpoint (cur : Z) (nodes : list TEndPoint) (j : nat) : TEndPoint :=
  nth (Z.to_nat (candidate cur nodes j)) nodes no_endpoint.

Lemma length_pos (nodes : list TEndPoint) :
  nodes <> [] -> 0 < Z.of_nat (List.length nodes).
Proof. destruct nodes; [congruence|]. intros _. cbn [List.length]. lia. Qed.

Lemma candidate_valid (cur : Z) (nodes : list TEndPoint) (j : nat) :
  nodes <> [] -> 0 <= candidate cur nodes j < Z.of_nat (List.length nodes).
Proof. intros H. unfold candidate. apply Z.mod_pos_bound. now apply length_pos. Qed.

Lemma py_index_valid (nodes : list TEndPoint) (i : Z) :
  0 <= i < Z.of_nat (List.length nodes) ->
  py_index nodes i = Some (nth (Z.to_nat i) nodes no_endpoint).
Proof.
  intros H. unfold py_index.
  destruct (0 <=? i) eqn:E1; [|apply Z.leb_gt in E1; lia].
  destruct (i <? Z.of_nat (List.length nodes)) eqn:E2; [|apply Z.ltb_ge in E2; lia].
  cbn [andb]. apply nth_error_nth'. lia.
Qed.

Lemma candidate_shift (cur : Z) (nodes : list TEndPoint) (j : nat) :
  nodes <> [] ->
  candidate ((cur + 1) mod Z.of_nat (List.length nodes)) nodes j
  = candidate cur nodes (S j).
Proof.
  intros H. unfold candidate. pose proof (length_pos nodes H) as Hn.
  rewrite Nat2Z.inj_succ.
  rewrite <- Z.add_assoc, Z.add_mod_idemp_l by lia.
  f_equal. lia.
Qed.

Lemma candidate_zero (cur : Z) (nodes : list TEndPoint) :
  candidate cur nodes 0 = (cur + 1) mod Z.of_nat (List.length nodes).
Proof. unfold candidate. f_equal. lia. Qed.

Lemma connect_run (target : TEndPoint) (s : State) :
  connect target s =
    if accepts net (clock (world s)) target
    then (Ok tt, accepted target s)
    else (Raise (TTransportException "Could not connect"), refused target s).
Proof.
  unfold connect, bind, open, transport_open, rebind_client, accepted, refused,
    replaced, transport_finalize.
  destruct (accepts net (clock (world s)) target); [|reflexivity].
  cbn [self world clock open_transports trace client].
  destruct (client (self s)); reflexivity.
Qed.

(** One turn of the round-robin loop over a list that is not empty. *)
Lemma try_hosts_step (left : nat) (s : State) :
  config_nodes (self s) <> [] ->
  try_hosts (S left) s =
    if accepts net (clock (world s)) (current (advance s))
    then (Ok tt, accepted (current (advance s)) (advance s))
    else try_hosts left (refused (current (advance s)) (advance s)).
Proof.
  intros Hne. pose proof (length_pos _ Hne) as Hn.
  cbn [try_hosts]. unfold bind at 1. unfold get at 1. 
  unfold bind at 1. unfold get at 1.
  unfold bind at 1. unfold py_mod.
  destruct (Z.of_nat (List.length (config_nodes (self s))) =? 0) eqn:E;
    [apply Z.eqb_eq in E; lia|].
  cbn [lift_option]. unfold ret at 1.
  unfold bind at 1. unfold set_cursor at 1.
  unfold bind at 1. unfold get at 1. cbn [self config_nodes].
  unfold bind at 1. unfold get at 1. cbn [self cursor].
  unfold bind at 1.
  rewrite py_index_valid by (apply Z.mod_pos_bound; lia).
  cbn [lift_option]. unfold ret at 1.
  unfold bind at 1. unfold try_except. unfold bind at 1.
  rewrite connect_run.
  fold (advance s).
  change (nth _ (config_nodes (self s)) no_endpoint) with (current (advance s)).
  destruct (accepts net (clock (world (advance s))) (current (advance s))) eqn:Ea;
    cbn [world advance] in Ea; rewrite Ea.
  - reflexivity.
  - cbn [is_TException]. reflexivity.
Qed.

Lemma try_to_connect_run (s : State) :
  try_to_connect s =
    match config_leader (self s) with
    | Some l =>
        if accepts net (clock (world s)) l
        then (Ok tt, accepted l s)
        else try_hosts (List.length (config_nodes (self s)))
                       (release (lead None (refused l s)))
    | None => try_hosts (List.length (config_nodes (self s))) (release s)
    end.
Proof.
  unfold try_to_connect. unfold bind at 1. unfold get at 1.
  destruct (config_leader (self s)) as [l|] eqn:El.
  - unfold bind at 1. unfold try_except. unfold bind at 1. rewrite connect_run.
    destruct (accepts net (clock (world s)) l).
    + reflexivity.
    + cbn [is_TException]. unfold bind at 1. unfold set_config_leader at 1.
      unfold ret at 1. fold (lead None (refused l s)).
      unfold bind at 1. unfold get at 1.
      unfold release.
      destruct (transport (self (lead None (refused l s)))) as [t|] eqn:Et.
      * unfold bind at 1. unfold close at 1. unfold bind at 1. unfold get at 1.
        reflexivity.
      * unfold bind at 1. unfold ret at 1. unfold bind at 1. unfold get at 1.
        reflexivity.
  - unfold bind at 1. unfold ret at 1. unfold bind at 1. unfold get at 1.
    unfold release.
    destruct (transport (self s)) as [t|] eqn:Et.
    + unfold bind at 1. unfold close at 1. unfold bind at 1. unfold get at 1.
      reflexivity.
    + unfold bind at 1. unfold ret at 1. unfold bind at 1. unfold get at 1.
      reflexivity.
Qed.

Lemma wait_and_reconnect_run (s : State) :
  wait_and_reconnect s =
    match try_to_connect (slept s) with
    | (Ok a, s') => (Ok a, s')
    | (Raise e, s') => if is_TException e then try_to_connect s' else (Raise e, s')
    end.
Proof.
  unfold wait_and_reconnect. unfold bind at 1. unfold sleep at 1.
  fold (slept s). unfold try_except.
  destruct (try_to_connect (slept s)) as [[a|e] s']; [reflexivity|].
  destruct (is_TException e); reflexivity.
Qed.

(** ** What a resolution step leaves alone *)

(** [Frame s s']: between [s] and [s'] the client only tried to connect.
    The member list and the [transport] field are the same, no remote call
    was issued, a stub that was there is still there, and a cursor that was
    not negative is not negative. *)
Record Frame (s s' : State) : Prop := mkFrame {
  frame_nodes : config_nodes (self s') = config_nodes (self s);
  frame_transport : transport (self s') = transport (self s);
  frame_trace : exists evs, trace (world s') = trace (world s) ++ evs
                            /\ calls evs = 0%nat;
  frame_clock : (clock (world s) <= clock (world s'))%nat;
  frame_client : client (self s) <> None -> client (self s') <> None;
  frame_cursor : 0 <= cursor (self s) -> 0 <= cursor (self s')
}.

Lemma Frame_refl (s : State) : Frame s s.
Proof.
  constructor; auto using incl_refl.
  exists []. rewrite app_nil_r. auto.
Qed.

Lemma Frame_trans (s1 s2 s3 : State) : Frame s1 s2 -> Frame s2 s3 -> Frame s1 s3.
Proof.
  intros [n1 t1 [e1 [tr1 c1]] k1 cl1 cu1] [n2 t2 [e2 [tr2 c2]] k2 cl2 cu2].
  constructor.
  - congruence.
  - congruence.
  - exists (e1 ++ e2). rewrite tr2, tr1, app_assoc, calls_app, c1, c2. auto.
  - lia.
  - auto.
  - auto.
Qed.

Lemma Frame_accepted (target : TEndPoint) (s : State) : Frame s (accepted target s).
Proof.
  constructor; cbn [accepted self world config_nodes transport cursor client
                      clock trace]; auto; try discriminate.
  exists [EvOpen target true]. auto.
Qed.

Lemma Frame_refused (target : TEndPoint) (s : State) : Frame s (refused target s).
Proof.
  constructor; cbn; auto using incl_refl.
  exists [EvOpen target false]. auto.
Qed.

Lemma Frame_lead (v : option TEndPoint) (s : State) : Frame s (lead v s).
Proof.
  constructor; cbn; auto using incl_refl.
  exists []. rewrite app_nil_r. auto.
Qed.

Lemma Frame_slept (s : State) : Frame s (slept s).
Proof.
  constructor; cbn; auto using incl_refl.
  exists [EvSleep RETRY_INTERVAL_MS]. auto.
Qed.

Lemma Frame_release (s : State) : Frame s (release s).
Proof.
  unfold release. destruct (transport (self s)) as [t|] eqn:Et.
  - constructor; cbn; auto; try congruence.
    exists [EvClose t]. auto.
  - apply Frame_refl.
Qed.

Lemma Frame_advance (s : State) :
  config_nodes (self s) <> [] -> Frame s (advance s).
Proof.
  intros Hne. constructor; cbn; auto using incl_refl.
  - exists []. rewrite app_nil_r. auto.
  - intros _. apply Z.mod_pos_bound. now apply length_pos.
Qed.

(** A resolution step ends in one of two ways. *)
Definition resolved (r : Result unit) : Prop :=
  r = Ok tt \/ r = Raise (TException MSG_RECONNECTION_FAIL).

Lemma try_hosts_frame :
  forall (left : nat) (s : State),
    (left = 0%nat \/ config_nodes (self s) <> []) ->
    Frame s (snd (try_hosts left s))
    /\ resolved (fst (try_hosts left s))
    /\ (fst (try_hosts left s) = Ok tt -> client (self (snd (try_hosts left s))) <> None).
Proof.
  induction left as [|left IH]; intros s Hne.
  - cbn. split; [apply Frame_refl|]. split; [right; reflexivity | discriminate].
  - destruct Hne as [Hne|Hne]; [discriminate|].
    rewrite try_hosts_step by exact Hne.
    destruct (accepts net (clock (world s)) (current (advance s))).
    + cbn [fst snd]. split.
      * eapply Frame_trans; [apply Frame_advance; exact Hne | apply Frame_accepted].
      * split; [left; reflexivity|]. intros _. cbn. discriminate.
    + destruct (IH (refused (current (advance s)) (advance s))) as [F [R C]].
      { right. exact Hne. }
      split; [|split; assumption].
      eapply Frame_trans; [apply Frame_advance; exact Hne|].
      eapply Frame_trans; [apply Frame_refused | exact F].
Qed.

Lemma nodes_empty_or_not (s : State) :
  List.length (config_nodes (self s)) = 0%nat \/ config_nodes (self s) <> [].
Proof. destruct (config_nodes (self s)); [left; reflexivity | right; discriminate]. Qed.

Lemma try_to_connect_frame (s : State) :
  Frame s (snd (try_to_connect s))
  /\ resolved (fst (try_to_connect s))
  /\ (fst (try_to_connect s) = Ok tt -> client (self (snd (try_to_connect s))) <> None).
Proof.
  rewrite try_to_connect_run.
  destruct (config_leader (self s)) as [l|].
  - destruct (accepts net (clock (world s)) l).
    + cbn [fst snd]. split; [apply Frame_accepted|].
      split; [left; reflexivity|]. intros _. cbn. discriminate.
    + pose proof (Frame_release (lead None (refused l s))) as Fr.
      assert (Hn : config_nodes (self (release (lead None (refused l s))))
                   = config_nodes (self s)).
      { rewrite (frame_nodes _ _ Fr). reflexivity. }
      rewrite <- Hn.
      destruct (try_hosts_frame _ _ (nodes_empty_or_not (release (lead None (refused l s)))))
        as [F [R C]].
      split; [|split; assumption].
      eapply Frame_trans; [apply Frame_refused|].
      eapply Frame_trans; [apply (Frame_lead None)|].
      eapply Frame_trans; [exact Fr | exact F].
  - pose proof (Frame_release s) as Fr.
    assert (Hn : config_nodes (self (release s)) = config_nodes (self s))
      by apply (frame_nodes _ _ Fr).
    rewrite <- Hn.
    destruct (try_hosts_frame _ _ (nodes_empty_or_not (release s))) as [F [R C]].
    split; [|split; assumption].
    eapply Frame_trans; [exact Fr | exact F].
Qed.

Lemma wait_and_reconnect_frame (s : State) :
  Frame s (snd (wait_and_reconnect s))
  /\ resolved (fst (wait_and_reconnect s))
  /\ (fst (wait_and_reconnect s) = Ok tt
      -> client (self (snd (wait_and_reconnect s))) <> None).
Proof.
  rewrite wait_and_reconnect_run.
  destruct (try_to_connect_frame (slept s)) as [F [R C]].
  destruct (try_to_connect (slept s)) as [[a|e] s'] eqn:E; cbn [fst snd] in *.
  - split; [|split; assumption].
    eapply Frame_trans; [apply Frame_slept | exact F].
  - destruct R as [R|R]; [discriminate|]. injection R as ->.
    cbn [is_TException].
    destruct (try_to_connect_frame s') as [F' [R' C']].
    split; [|split; assumption].
    eapply Frame_trans; [apply Frame_slept|].
    eapply Frame_trans; [exact F | exact F'].
Qed.

(** ** The round-robin scan, candidate by candidate *)

(** The refusals of the first [k] candidates, as they appear in the
    history. *)
Definition refusals (cur : Z) (nodes : list TEndPoint) (k : nat) : list Event :=
  map (fun j => EvOpen (candidate_endpoint cur nodes j) false) (seq 0 k).

(** The cursor after [k] candidates were tried. *)
Definition cursor_after (cur : Z) (nodes : list TEndPoint) (k : nat) : Z :=
  match k with
  | O => cur
  | S j => candidate cur nodes j
  end.

(** Where the scan ends when candidate [k] accepts at clock [t + k]. *)
Definition scan_found (s : State) (k : nat) : State :=
  let cur := cursor (self s) in
  let nodes := config_nodes (self s) in
  let t := (clock (world s) + k)%nat in
  mkState
    (mkConfigNodeClient (config_leader (self s)) nodes (candidate cur nodes k)
       (transport (self s))
       (Some (make_protocol (mkTransport t (candidate_endpoint cur nodes k)))))
    (mkWorld (S t)
       (replaced (mkTransport t (candidate_endpoint cur nodes k)) s)
       (trace (world s) ++ refusals cur nodes k
                        ++ [EvOpen (candidate_endpoint cur nodes k) true])).

(** Where the scan ends when the first [k] candidates all refused. *)
Definition scan_failed (s : State) (k : nat) : State :=
  let cur := cursor (self s) in
  let nodes := config_nodes (self s) in
  mkState
    (mkConfigNodeClient (config_leader (self s)) nodes (cursor_after cur nodes k)
       (transport (self s)) (client (self s)))
    (mkWorld (clock (world s) + k)%nat (open_transports (world s))
       (trace (world s) ++ refusals cur nodes k)).

Lemma candidate_endpoint_shift (cur : Z) (nodes : list TEndPoint) (j : nat) :
  nodes <> [] ->
  candidate_endpoint ((cur + 1) mod Z.of_nat (List.length nodes)) nodes j
  = candidate_endpoint cur nodes (S j).
Proof. intros H. unfold candidate_endpoint. now rewrite candidate_shift. Qed.

Lemma refusals_S (cur : Z) (nodes : list TEndPoint) (k : nat) :
  nodes <> [] ->
  refusals cur nodes (S k)
  = EvOpen (candidate_endpoint cur nodes 0) false
      :: refusals ((cur + 1) mod Z.of_nat (List.length nodes)) nodes k.
Proof.
  intros H. unfold refusals. cbn [seq map]. f_equal.
  rewrite <- seq_shift, map_map. apply map_ext. intros j.
  now rewrite candidate_endpoint_shift.
Qed.

Lemma current_advance (s : State) :
  current (advance s)
  = candidate_endpoint (cursor (self s)) (config_nodes (self s)) 0.
Proof.
  unfold current, advance, candidate_endpoint. cbn [self cursor config_nodes].
  now rewrite candidate_zero.
Qed.

Lemma state_eta (s : State) : mkState (self s) (world s) = s.
Proof. destruct s; reflexivity. Qed.

Lemma client_eta (c : ConfigNodeClient) :
  mkConfigNodeClient (config_leader c) (config_nodes c) (cursor c)
                     (transport c) (client c) = c.
Proof. destruct c; reflexivity. Qed.

Lemma try_hosts_found :
  forall (k left : nat) (s : State),
    config_nodes (self s) <> [] ->
    (k < left)%nat ->
    (forall j, (j < k)%nat ->
       accepts net (clock (world s) + j)%nat
         (candidate_endpoint (cursor (self s)) (config_nodes (self s)) j) = false) ->
    accepts net (clock (world s) + k)%nat
      (candidate_endpoint (cursor (self s)) (config_nodes (self s)) k) = true ->
    try_hosts left s = (Ok tt, scan_found s k).
Proof.
  induction k as [|k IH]; intros left s Hne Hlt Hrej Hacc.
  - destruct left as [|left]; [lia|].
    rewrite try_hosts_step by exact Hne.
    rewrite current_advance. rewrite Nat.add_0_r in Hacc. rewrite Hacc.
    unfold scan_found, accepted, advance, refusals.
    cbn [self world config_leader config_nodes cursor transport client clock
         open_transports trace seq map app].
    rewrite Nat.add_0_r, candidate_zero. reflexivity.
  - destruct left as [|left]; [lia|].
    rewrite try_hosts_step by exact Hne.
    rewrite current_advance.
    pose proof (Hrej 0%nat ltac:(lia)) as H0. rewrite Nat.add_0_r in H0. rewrite H0.
    set (e0 := candidate_endpoint (cursor (self s)) (config_nodes (self s)) 0).
    rewrite (IH left (refused e0 (advance s))).
    + unfold scan_found, refused, advance.
      cbn [self world config_leader config_nodes cursor transport client clock
           open_transports trace].
      rewrite candidate_shift, candidate_endpoint_shift by exact Hne.
      rewrite (refusals_S _ _ k Hne). fold e0.
      rewrite <- !app_assoc. cbn [app].
      replace (S (clock (world s)) + k)%nat with (clock (world s) + S k)%nat by lia.
      reflexivity.
    + exact Hne.
    + lia.
    + intros j Hj. cbn [refused advance self world clock cursor config_nodes].
      rewrite candidate_endpoint_shift by exact Hne.
      replace (S (clock (world s)) + j)%nat with (clock (world s) + S j)%nat by lia.
      apply Hrej. lia.
    + cbn [refused advance self world clock cursor config_nodes].
      rewrite candidate_endpoint_shift by exact Hne.
      replace (S (clock (world s)) + k)%nat with (clock (world s) + S k)%nat by lia.
      exact Hacc.
Qed.

Lemma try_hosts_none :
  forall (left : nat) (s : State),
    (left = 0%nat \/ config_nodes (self s) <> []) ->
    (forall j, (j < left)%nat ->
       accepts net (clock (world s) + j)%nat
         (candidate_endpoint (cursor (self s)) (config_nodes (self s)) j) = false) ->
    try_hosts left s = (Raise (TException MSG_RECONNECTION_FAIL), scan_failed s left).
Proof.
  induction left as [|left IH]; intros s Hne Hrej.
  - cbn [try_hosts]. unfold raise, scan_failed, refusals.
    cbn [cursor_after seq map]. rewrite app_nil_r, Nat.add_0_r.
    rewrite client_eta, world_eta, state_eta. reflexivity.
  - destruct Hne as [Hne|Hne]; [discriminate|].
    rewrite try_hosts_step by exact Hne.
    rewrite current_advance.
    pose proof (Hrej 0%nat ltac:(lia)) as H0. rewrite Nat.add_0_r in H0. rewrite H0.
    set (e0 := candidate_endpoint (cursor (self s)) (config_nodes (self s)) 0).
    rewrite (IH (refused e0 (advance s))).
    + unfold scan_failed, refused, advance.
      cbn [self world config_leader config_nodes cursor transport client clock
           open_transports trace].
      rewrite (refusals_S _ _ left Hne). fold e0.
      rewrite <- !app_assoc. cbn [app].
      replace (S (clock (world s)) + left)%nat
        with (clock (world s) + S left)%nat by lia.
      f_equal. f_equal. f_equal.
      destruct left as [|left].
      * cbn [cursor_after]. now rewrite candidate_zero.
      * cbn [cursor_after]. now rewrite candidate_shift.
    + right. exact Hne.
    + intros j Hj. cbn [refused advance self world clock cursor config_nodes].
      rewrite candidate_endpoint_shift by exact Hne.
      replace (S (clock (world s)) + j)%nat with (clock (world s) + S j)%nat by lia.
      apply Hrej. lia.
Qed.

(** ** The four operations as instances of one retry loop *)

(** What distinguishes the operations: the remote procedure, where the
    status sits in the response, the message given to [verify_success],
    the member list the success path stores (when it stores one), and the
    value returned. *)
Record Operation (Req Resp A : Type) : Type := mkOperation {
  op_method : Rpc;
  op_rpc : nat -> TEndPoint -> Req -> Outcome Resp;
  op_status : Resp -> TSStatus;
  op_err_msg : string;
  op_members : option (Resp -> list TEndPoint);
  op_payload : Resp -> A
}.
Arguments mkOperation {Req Resp A}.
Arguments op_method {Req Resp A} o.
Arguments op_rpc {Req Resp A} o.
Arguments op_status {Req Resp A} o.
Arguments op_err_msg {Req Resp A} o.
Arguments op_members {Req Resp A} o.
Arguments op_payload {Req Resp A} o.

Definition op_attempt {Req Resp A : Type} (o : Operation Req Resp A) (req : Req)
  : M (Flow A) :=
  r <- try_except
         (resp <- invoke (op_method o) (op_rpc o) req ;;
          redirected <- update_config_node_leader (op_status o resp) ;;
          if negb redirected then
            check (verify_success (op_status o resp) (op_err_msg o)) ;;;
            match op_members o with
            | Some members => set_config_nodes (members resp)
            | None => ret tt
            end ;;;
            ret (Return (op_payload o resp))
          else ret Next)
         is_TException
         (set_config_leader None ;;; ret Next) ;;
  match r with
  | Return a => ret (Return a)
  | Next => wait_and_reconnect ;;; ret Next
  end.

Definition op_run {Req Resp A : Type} (budget : nat) (o : Operation Req Resp A)
    (req : Req) : M A :=
  for_range budget (op_attempt o req) (raise (TException MSG_RECONNECTION_FAIL)).

Definition register_op : Operation TAINodeRegisterReq TAINodeRegisterResp Z :=
  mkOperation RegisterAINode (registerAINode net) reg_status
    "An error occurs when calling node_register()"
    (Some reg_configNodeList) aiNodeId.

Definition restart_op : Operation TAINodeRestartReq TAINodeRestartResp TSStatus :=
  mkOperation RestartAINode (restartAINode net) rst_status
    "An error occurs when calling node_restart()"
    (Some rst_configNodeList) rst_status.

Definition remove_op : Operation TAINodeRemoveReq TSStatus TSStatus :=
  mkOperation RemoveAINode (removeAINode net) (fun status => status)
    "An error occurs when calling node_restart()"
    None (fun status => status).

Definition configuration_op : Operation Z TAINodeConfigurationResp ConfigurationMap :=
  mkOperation GetAINodeConfiguration (getAINodeConfiguration net) cfg_status
    "An error occurs when calling get_ainode_configuration()"
    None aiNodeConfigurationMap.

Lemma node_register_as_op (cluster_name : string)
    (configuration : TAINodeConfiguration) (version_info : TNodeVersionInfo) :
  node_register cluster_name configuration version_info
  = op_run RETRY_NUM register_op (mkRegisterReq cluster_name configuration version_info).
Proof. reflexivity. Qed.

Lemma node_restart_as_op (cluster_name : string)
    (configuration : TAINodeConfiguration) (version_info : TNodeVersionInfo) :
  node_restart cluster_name configuration version_info
  = op_run RETRY_NUM restart_op (mkRestartReq cluster_name configuration version_info).
Proof. reflexivity. Qed.

Lemma node_remove_as_op (location : TAINodeLocation) :
  node_remove location = op_run RETRY_NUM remove_op (mkRemoveReq location).
Proof. reflexivity. Qed.

Lemma get_ainode_configuration_as_op (node_id : Z) :
  get_ainode_configuration node_id = op_run RETRY_NUM configuration_op node_id.
Proof. reflexivity. Qed.

(** The state right after the request went out. *)
Definition called (method : Rpc) (p : Protocol) (s : State) : State :=
  mkState (self s)
    (mkWorld (S (clock (world s))) (open_transports (world s))
       (trace (world s) ++ [EvCall method (peer (protocol_transport p))])).

(** The state after the success path stored the member list. *)
Definition refreshed {Resp : Type} (members : option (Resp -> list TEndPoint))
    (resp : Resp) (s : State) : State :=
  match members with
  | Some f =>
      mkState
        (mkConfigNodeClient (config_leader (self s)) (f resp) (cursor (self s))
           (transport (self s)) (client (self s)))
        (world s)
  | None => s
  end.

(** The end of an attempt that did not return. *)
Definition reconnect_then_next {A : Type} (s : State) : Result (Flow A) * State :=
  match wait_and_reconnect s with
  | (Ok _, s') => (Ok Next, s')
  | (Raise e, s') => (Raise e, s')
  end.

(** One attempt, case by case on what the remote node does. *)
Lemma op_attempt_run {Req Resp A : Type} (o : Operation Req Resp A) (req : Req)
    (s : State) (p : Protocol) :
  client (self s) = Some p ->
  op_attempt o req s =
    let s1 := called (op_method o) p s in
    match op_rpc o (clock (world s)) (peer (protocol_transport p)) req with
    | Throw e =>
        if is_TException e then reconnect_then_next (lead None s1)
        else (Raise e, s1)
    | Reply resp =>
        if code (op_status o resp) =? REDIRECTION_RECOMMEND then
          reconnect_then_next (lead (redirectNode (op_status o resp)) s1)
        else if code (op_status o resp) =? SUCCESS_STATUS then
          (Ok (Return (op_payload o resp)), refreshed (op_members o) resp s1)
        else
          (Raise (OperationFailure (op_status o resp) (op_err_msg o)), s1)
    end.
Proof.
  intros Hp. unfold op_attempt.
  unfold bind at 1. unfold try_except. unfold bind at 1.
  unfold invoke at 1. rewrite Hp. unfold call. fold (called (op_method o) p s).
  cbv zeta.
  destruct (op_rpc o (clock (world s)) (peer (protocol_transport p)) req) as [resp|e].
  - unfold bind at 1. unfold update_config_node_leader.
    destruct (code (op_status o resp) =? REDIRECTION_RECOMMEND).
    + assert (Hlead : forall s0,
                (match redirectNode (op_status o resp) with
                 | Some node => set_config_leader (Some node)
                 | None => set_config_leader None
                 end) s0 = (Ok tt, lead (redirectNode (op_status o resp)) s0)).
      { intros s0. destruct (redirectNode (op_status o resp)); reflexivity. }
      unfold bind at 1. rewrite Hlead. unfold ret at 1. cbn [negb]. unfold ret at 1.
      unfold reconnect_then_next, bind.
      destruct (wait_and_reconnect _) as [[a|e] s']; reflexivity.
    + unfold ret at 1. cbn [negb]. unfold verify_success.
      destruct (code (op_status o resp) =? SUCCESS_STATUS).
      * cbn [check]. unfold bind at 1. unfold ret at 1.
        unfold refreshed. destruct (op_members o) as [f|]; reflexivity.
      * cbn [check]. unfold bind at 1. unfold raise at 1. cbn [is_TException].
        reflexivity.
  - destruct (is_TException e) eqn:Ee.
    + unfold bind at 1. unfold set_config_leader at 1. unfold ret at 1.
      fold (lead None (called (op_method o) p s)).
      unfold reconnect_then_next, bind.
      destruct (wait_and_reconnect _) as [[a|e'] s']; reflexivity.
    + reflexivity.
Qed.

Lemma op_run_S {Req Resp A : Type} (o : Operation Req Resp A) (req : Req)
    (n : nat) (s : State) :
  op_run (S n) o req s =
    match op_attempt o req s with
    | (Ok (Return a), s') => (Ok a, s')
    | (Ok Next, s') => op_run n o req s'
    | (Raise e, s') => (Raise e, s')
    end.
Proof.
  unfold op_run. cbn [for_range]. unfold bind.
  destruct (op_attempt o req s) as [[[a|]|e] s']; reflexivity.
Qed.

Lemma op_run_0 {Req Resp A : Type} (o : Operation Req Resp A) (req : Req) (s : State) :
  op_run 0 o req s = (Raise (TException MSG_RECONNECTION_FAIL), s).
Proof. reflexivity. Qed.

(** ** What an operation leaves alone *)

(** [Progress n s s']: between [s] and [s'] at most [n] remote calls were
    issued; the [transport] field is the same, a stub that was there is
    still there, a cursor that was not negative is not negative. *)
Record Progress (n : nat) (s s' : State) : Prop := mkProgress {
  prog_transport : transport (self s') = transport (self s);
  prog_clock : (clock (world s) <= clock (world s'))%nat;
  prog_client : client (self s) <> None -> client (self s') <> None;
  prog_cursor : 0 <= cursor (self s) -> 0 <= cursor (self s');
  prog_calls : (calls (trace (world s')) <= calls (trace (world s)) + n)%nat
}.

Lemma Frame_Progress (s s' : State) : Frame s s' -> Progress 0 s s'.
Proof.
  intros [n t [evs [tr c]] k cl cu]. constructor; auto.
  rewrite tr, calls_app, c. lia.
Qed.

Lemma Progress_trans (n m : nat) (s1 s2 s3 : State) :
  Progress n s1 s2 -> Progress m s2 s3 -> Progress (n + m) s1 s3.
Proof.
  intros [t1 k1 cl1 cu1 ca1] [t2 k2 cl2 cu2 ca2]. constructor.
  - congruence.
  - lia.
  - auto.
  - auto.
  - lia.
Qed.

Lemma Progress_weaken (n m : nat) (s s' : State) :
  (n <= m)%nat -> Progress n s s' -> Progress m s s'.
Proof. intros H [t k cl cu ca]. constructor; auto. lia. Qed.

Lemma Progress_called (method : Rpc) (p : Protocol) (s : State) :
  Progress 1 s (called method p s).
Proof.
  constructor; cbn [called self world clock trace open_transports];
    auto using incl_refl.
  rewrite calls_app. cbn. lia.
Qed.

Lemma Progress_refreshed {Resp : Type} (members : option (Resp -> list TEndPoint))
    (resp : Resp) (s : State) :
  Progress 0 s (refreshed members resp s).
Proof.
  unfold refreshed. destruct members; constructor; cbn; auto using incl_refl; lia.
Qed.

Lemma reconnect_then_next_spec {A : Type} (s : State) :
  Frame s (snd (@reconnect_then_next A s))
  /\ ((fst (@reconnect_then_next A s) = Ok Next
       /\ client (self (snd (@reconnect_then_next A s))) <> None)
      \/ fst (@reconnect_then_next A s) = Raise (TException MSG_RECONNECTION_FAIL)).
Proof.
  unfold reconnect_then_next.
  destruct (wait_and_reconnect_frame s) as [F [R C]].
  destruct (wait_and_reconnect s) as [[[]|e] s']; cbn [fst snd] in *.
  - split; [exact F|]. left. split; [reflexivity|]. now apply C.
  - split; [exact F|]. right. destruct R as [R|R]; [discriminate|].
    injection R as ->. reflexivity.
Qed.

Lemma op_attempt_no_client {Req Resp A : Type} (o : Operation Req Resp A)
    (req : Req) (s : State) :
  client (self s) = None ->
  op_attempt o req s
  = (Raise (AttributeError "'NoneType' object has no attribute"), s).
Proof.
  intros H. unfold op_attempt. unfold bind at 1. unfold try_except.
  unfold bind at 1. unfold invoke at 1. rewrite H. reflexivity.
Qed.

Lemma op_attempt_progress {Req Resp A : Type} (o : Operation Req Resp A)
    (req : Req) (s : State) :
  Progress 1 s (snd (op_attempt o req s)).
Proof.
  destruct (client (self s)) as [p|] eqn:Hp.
  - rewrite (op_attempt_run o req s p Hp). cbv zeta.
    pose proof (Progress_called (op_method o) p s) as P1.
    set (s1 := called (op_method o) p s) in *.
    assert (Hrec : forall v, Progress 1 s (snd (@reconnect_then_next A (lead v s1)))).
    { intros v. destruct (@reconnect_then_next_spec A (lead v s1)) as [F _].
      apply (Progress_trans 1 0 s s1 _ P1). apply Frame_Progress.
      eapply Frame_trans; [apply (Frame_lead v) | exact F]. }
    destruct (op_rpc o (clock (world s)) (peer (protocol_transport p)) req) as [resp|e].
    + destruct (code (op_status o resp) =? REDIRECTION_RECOMMEND); [apply Hrec|].
      destruct (code (op_status o resp) =? SUCCESS_STATUS); cbn [snd].
      * apply (Progress_trans 1 0 s s1); [exact P1 | apply Progress_refreshed].
      * exact P1.
    + destruct (is_TException e); [apply Hrec | exact P1].
  - rewrite (op_attempt_no_client o req s Hp). cbn [snd].
    apply (Progress_weaken 0 1); [lia|]. apply Frame_Progress, Frame_refl.
Qed.

Lemma op_run_progress {Req Resp A : Type} (o : Operation Req Resp A) (req : Req) :
  forall (n : nat) (s : State), Progress n s (snd (op_run n o req s)).
Proof.
  induction n as [|n IH]; intros s.
  - rewrite op_run_0. cbn [snd]. apply Frame_Progress, Frame_refl.
  - rewrite op_run_S.
    pose proof (op_attempt_progress o req s) as P1.
    destruct (op_attempt o req s) as [[[a|]|e] s']; cbn [snd] in *.
    + apply (Progress_weaken 1); [lia | exact P1].
    + apply (Progress_trans 1 n s s' _ P1 (IH s')).
    + apply (Progress_weaken 1); [lia | exact P1].
Qed.

(** An attempt counts as failed when the stub raised a thrift exception
    or the node answered with the redirect status. *)
Definition attempt_fails {Resp : Type} (status_of : Resp -> TSStatus)
    (o : Outcome Resp) : Prop :=
  match o with
  | Throw e => is_TException e = true
  | Reply resp => code (status_of resp) = REDIRECTION_RECOMMEND
  end.

(** A response is a definitive success when its status is the success
    status and not the redirect status. *)
Definition definitive_success (status : TSStatus) : Prop :=
  code status = SUCCESS_STATUS /\ code status <> REDIRECTION_RECOMMEND.

Lemma op_run_all_fail {Req Resp A : Type} (o : Operation Req Resp A) (req : Req) :
  (forall t e, attempt_fails (op_status o) (op_rpc o t e req)) ->
  forall (n : nat) (s : State),
    client (self s) <> None ->
    fst (op_run n o req s) = Raise (TException MSG_RECONNECTION_FAIL).
Proof.
  intros Hfail. induction n as [|n IH]; intros s Hc.
  - reflexivity.
  - rewrite op_run_S.
    destruct (client (self s)) as [p|] eqn:Hp; [clear Hc | congruence].
    rewrite (op_attempt_run o req s p Hp). cbv zeta.
    set (s1 := called (op_method o) p s).
    assert (Hrec : forall v,
              fst (match @reconnect_then_next A (lead v s1) with
                   | (Ok (Return a), s') => (Ok a, s')
                   | (Ok Next, s') => op_run n o req s'
                   | (Raise e, s') => (Raise e, s')
                   end) = Raise (TException MSG_RECONNECTION_FAIL)).
    { intros v. destruct (@reconnect_then_next_spec A (lead v s1)) as [_ H].
      destruct (@reconnect_then_next A (lead v s1)) as [[[a|]|e] s']; cbn [fst snd] in *.
      - destruct H as [[H _]|H]; discriminate.
      - destruct H as [[_ H]|H]; [apply IH; exact H | discriminate].
      - destruct H as [[H _]|H]; [discriminate|]. injection H as ->. reflexivity. }
    pose proof (Hfail (clock (world s)) (peer (protocol_transport p))) as Hf.
    destruct (op_rpc o (clock (world s)) (peer (protocol_transport p)) req) as [resp|e];
      cbn [attempt_fails] in Hf.
    + rewrite Hf, Z.eqb_refl. apply Hrec.
    + rewrite Hf. apply Hrec.
Qed.

(** Where a returned value comes from: some attempt of the call got a
    definitive success, the value is the payload of that response, and the
    member list is the one of that response when the operation stores it
    and the old one when it does not. *)
Lemma op_run_success_origin {Req Resp A : Type} (o : Operation Req Resp A) (req : Req) :
  forall (n : nat) (s : State) (v : A),
    fst (op_run n o req s) = Ok v ->
    exists t e resp,
      (clock (world s) <= t < clock (world (snd (op_run n o req s))))%nat
      /\ op_rpc o t e req = Reply resp
      /\ definitive_success (op_status o resp)
      /\ v = op_payload o resp
      /\ config_nodes (self (snd (op_run n o req s)))
         = match op_members o with
           | Some members => members resp
           | None => config_nodes (self s)
           end.
Proof.
  induction n as [|n IH]; intros s v Hok.
  - rewrite op_run_0 in Hok. discriminate.
  - rewrite op_run_S in Hok |- *.
    destruct (client (self s)) as [p|] eqn:Hp.
    2:{ rewrite (op_attempt_no_client o req s Hp) in Hok. discriminate. }
    rewrite (op_attempt_run o req s p Hp) in Hok |- *. cbv zeta in Hok |- *.
    set (s1 := called (op_method o) p s) in *.
    assert (Hrec : forall w,
              fst (match @reconnect_then_next A (lead w s1) with
                   | (Ok (Return a), s') => (Ok a, s')
                   | (Ok Next, s') => op_run n o req s'
                   | (Raise e, s') => (Raise e, s')
                   end) = Ok v ->
              exists t e resp,
                (clock (world s) <= t
                 < clock (world (snd (match @reconnect_then_next A (lead w s1) with
                                      | (Ok (Return a), s') => (Ok a, s')
                                      | (Ok Next, s') => op_run n o req s'
                                      | (Raise e, s') => (Raise e, s')
                                      end))))%nat
                /\ op_rpc o t e req = Reply resp
                /\ definitive_success (op_status o resp)
                /\ v = op_payload o resp
                /\ config_nodes (self (snd (match @reconnect_then_next A (lead w s1) with
                                            | (Ok (Return a), s') => (Ok a, s')
                                            | (Ok Next, s') => op_run n o req s'
                                            | (Raise e, s') => (Raise e, s')
                                            end)))
                   = match op_members o with
                     | Some members => members resp
                     | None => config_nodes (self s)
                     end).
    { intros w H. destruct (@reconnect_then_next_spec A (lead w s1)) as [F HS].
      destruct (@reconnect_then_next A (lead w s1)) as [[[a|]|e] s']; cbn [fst snd] in *.
      - destruct HS as [[HS _]|HS]; discriminate.
      - destruct (IH s' v H) as (t & e & resp & Ht & Hr & Hd & Hv & Hn).
        exists t, e, resp. pose proof (frame_clock _ _ F) as Hk.
        unfold s1 in Hk. cbn [lead called world clock] in Hk.
        split; [lia|]. split; [exact Hr|]. split; [exact Hd|]. split; [exact Hv|].
        rewrite Hn. destruct (op_members o); [reflexivity|].
        rewrite (frame_nodes _ _ F). reflexivity.
      - discriminate. }
    destruct (op_rpc o (clock (world s)) (peer (protocol_transport p)) req)
      as [resp|e] eqn:Hrpc.
    + destruct (code (op_status o resp) =? REDIRECTION_RECOMMEND) eqn:Er;
        [apply Hrec; exact Hok|].
      destruct (code (op_status o resp) =? SUCCESS_STATUS) eqn:Es;
        cbn [fst snd] in *; [|discriminate].
      injection Hok as <-.
      exists (clock (world s)), (peer (protocol_transport p)), resp.
      repeat split.
      * lia.
      * unfold refreshed. destruct (op_members o); cbn; lia.
      * exact Hrpc.
      * now apply Z.eqb_eq.
      * now apply Z.eqb_neq.
      * unfold refreshed. destruct (op_members o); reflexivity.
    + destruct (is_TException e); [apply Hrec; exact Hok | discriminate].
Qed.

(** An operation that stores no member list leaves the list as it was. *)
Lemma op_attempt_nodes_kept {Req Resp A : Type} (o : Operation Req Resp A)
    (req : Req) (s : State) :
  op_members o = None ->
  config_nodes (self (snd (op_attempt o req s))) = config_nodes (self s).
Proof.
  intros Hm. destruct (client (self s)) as [p|] eqn:Hp.
  - rewrite (op_attempt_run o req s p Hp). cbv zeta.
    assert (Hrec : forall v,
              config_nodes (self (snd (@reconnect_then_next A
                                         (lead v (called (op_method o) p s)))))
              = config_nodes (self s)).
    { intros v.
      destruct (@reconnect_then_next_spec A (lead v (called (op_method o) p s)))
        as [F _].
      rewrite (frame_nodes _ _ F). reflexivity. }
    destruct (op_rpc o (clock (world s)) (peer (protocol_transport p)) req) as [resp|e].
    + destruct (code (op_status o resp) =? REDIRECTION_RECOMMEND); [apply Hrec|].
      destruct (code (op_status o resp) =? SUCCESS_STATUS); cbn [snd].
      * rewrite Hm. reflexivity.
      * reflexivity.
    + destruct (is_TException e); [apply Hrec | reflexivity].
  - rewrite (op_attempt_no_client o req s Hp). reflexivity.
Qed.

Lemma op_run_nodes_kept {Req Resp A : Type} (o : Operation Req Resp A) (req : Req) :
  op_members o = None ->
  forall (n : nat) (s : State),
    config_nodes (self (snd (op_run n o req s))) = config_nodes (self s).
Proof.
  intros Hm. induction n as [|n IH]; intros s.
  - reflexivity.
  - rewrite op_run_S.
    pose proof (op_attempt_nodes_kept o req s Hm) as H1.
    destruct (op_attempt o req s) as [[[a|]|e] s']; cbn [snd] in *.
    + exact H1.
    + rewrite IH. exact H1.
    + exact H1.
Qed.

(** ** The attempts of a call *)

(** [reaches body n s k s']: a loop of [n] turns of [body] started in [s]
    gets to the point where [k] turns are left, in state [s']; every turn
    before that ran to its end without returning or raising. *)
Inductive reaches {A : Type} (body : M (Flow A)) (n : nat) (s : State)
  : nat -> State -> Prop :=
| reaches_start : reaches body n s n s
| reaches_next (k : nat) (s1 s2 : State) :
    reaches body n s (S k) s1 ->
    body s1 = (Ok Next, s2) ->
    reaches body n s k s2.

Lemma for_range_reaches {A : Type} (body : M (Flow A)) (after : M A)
    (n : nat) (s : State) (k : nat) (s' : State) :
  reaches body n s k s' ->
  for_range n body after s = for_range k body after s'.
Proof.
  induction 1 as [|k s1 s2 _ IH Hbody]; [reflexivity|].
  rewrite IH. cbn [for_range]. unfold bind. rewrite Hbody. reflexivity.
Qed.

Lemma op_run_reaches {Req Resp A : Type} (o : Operation Req Resp A) (req : Req)
    (n : nat) (s : State) (k : nat) (s' : State) :
  reaches (op_attempt o req) n s k s' ->
  op_run n o req s = op_run k o req s'.
Proof. apply for_range_reaches. Qed.

(** An attempt of a client that has a stub starts with the remote call. *)
Lemma op_attempt_first_call {Req Resp A : Type} (o : Operation Req Resp A)
    (req : Req) (s : State) (p : Protocol) :
  client (self s) = Some p ->
  exists rest,
    trace (world (snd (op_attempt o req s)))
    = trace (world s) ++ EvCall (op_method o) (peer (protocol_transport p)) :: rest.
Proof.
  intros Hp. rewrite (op_attempt_run o req s p Hp). cbv zeta.
  assert (Hrec : forall v,
            exists rest,
              trace (world (snd (@reconnect_then_next A
                                   (lead v (called (op_method o) p s)))))
              = trace (world s)
                ++ EvCall (op_method o) (peer (protocol_transport p)) :: rest).
  { intros v.
    destruct (@reconnect_then_next_spec A (lead v (called (op_method o) p s)))
      as [F _].
    destruct (frame_trace _ _ F) as [evs [Ht _]]. exists evs.
    rewrite Ht. cbn [lead called world trace]. rewrite <- app_assoc. reflexivity. }
  assert (Hone : trace (world (called (op_method o) p s))
                 = trace (world s)
                   ++ EvCall (op_method o) (peer (protocol_transport p)) :: [])
    by reflexivity.
  destruct (op_rpc o (clock (world s)) (peer (protocol_transport p)) req) as [resp|e].
  - destruct (code (op_status o resp) =? REDIRECTION_RECOMMEND); [apply Hrec|].
    destruct (code (op_status o resp) =? SUCCESS_STATUS); cbn [snd].
    + exists []. unfold refreshed. destruct (op_members o); exact Hone.
    + exists []. exact Hone.
  - destruct (is_TException e); [apply Hrec|]. exists []. exact Hone.
Qed.

(** Where a redirect leads: the loop is at an attempt with [S k] turns
    left, and the call of that attempt is answered by a redirect.  The
    leader is set, then the client waits and resolves again.  When that
    returns, the loop is at the next attempt, with [k] turns left and a
    stub, and that attempt starts with a call through the new stub.  When
    it does not, the call as a whole raises the reconnection failure
    there and then, after the one remote call of this attempt. *)
Definition redirect_then_next_attempt {Req Resp A : Type} (o : Operation Req Resp A)
    (req : Req) (body : M (Flow A)) (run : M A) : Prop :=
  forall (s si : State) (k : nat) (p : Protocol) (resp : Resp),
    reaches body RETRY_NUM s (S k) si ->
    client (self si) = Some p ->
    op_rpc o (clock (world si)) (peer (protocol_transport p)) req = Reply resp ->
    code (op_status o resp) = REDIRECTION_RECOMMEND ->
    let s1 := lead (redirectNode (op_status o resp)) (called (op_method o) p si) in
    let s2 := snd (wait_and_reconnect s1) in
    (fst (wait_and_reconnect s1) = Ok tt ->
     reaches body RETRY_NUM s k s2
     /\ exists p',
          client (self s2) = Some p'
          /\ exists rest,
               trace (world (snd (body s2)))
               = trace (world s2)
                 ++ EvCall (op_method o) (peer (protocol_transport p')) :: rest)
    /\ (fst (wait_and_reconnect s1) <> Ok tt ->
        run s = (Raise (TException MSG_RECONNECTION_FAIL), s2)
        /\ calls (trace (world s2)) = S (calls (trace (world si)))).

Lemma op_redirect_then_next_attempt {Req Resp A : Type} (o : Operation Req Resp A)
    (req : Req) :
  redirect_then_next_attempt o req (op_attempt o req) (op_run RETRY_NUM o req).
Proof.
  intros s si k p resp Hreach Hp Hr Hc s1 s2.
  assert (E : op_attempt o req si = reconnect_then_next s1).
  { rewrite (op_attempt_run o req si p Hp). cbv zeta. rewrite Hr, Hc, Z.eqb_refl.
    reflexivity. }
  destruct (wait_and_reconnect_frame s1) as [F [R C]]. fold s2 in F, C.
  split.
  - intros Hok. specialize (C Hok).
    assert (Hbody : op_attempt o req si = (Ok Next, s2)).
    { rewrite E. unfold reconnect_then_next, s2.
      destruct (wait_and_reconnect s1) as [[[]|e] s']; [reflexivity | discriminate]. }
    split; [exact (reaches_next _ _ _ k si s2 Hreach Hbody)|].
    destruct (client (self s2)) as [p'|] eqn:Hp'; [|congruence].
    exists p'. split; [reflexivity|]. apply op_attempt_first_call. exact Hp'.
  - intros Hno.
    assert (Hbody : op_attempt o req si
                    = (Raise (TException MSG_RECONNECTION_FAIL), s2)).
    { rewrite E. unfold reconnect_then_next, s2.
      destruct (wait_and_reconnect s1) as [[[]|e] s']; cbn [fst snd] in *;
        [congruence|].
      destruct R as [R|R]; [discriminate|]. injection R as ->. reflexivity. }
    split.
    + rewrite (op_run_reaches o req _ _ _ _ Hreach), op_run_S, Hbody. reflexivity.
    + destruct (frame_trace _ _ F) as [evs [Ht Hcalls]].
      rewrite Ht. unfold s1. cbn [lead called world trace].
      rewrite !calls_app, Hcalls. cbn. lia.
Qed.

(** ** The resolution step: round-robin, construction, invariants *)

Lemma opened_refusals (cur : Z) (nodes : list TEndPoint) (k : nat) :
  opened (refusals cur nodes k) = map (candidate_endpoint cur nodes) (seq 0 k).
Proof.
  unfold refusals. induction (seq 0 k) as [|j l IH]; [reflexivity|].
  cbn [map opened]. now rewrite IH.
Qed.

(** No presumed leader is reachable: there is none, or it refuses. *)
Definition leader_unreachable (s : State) : Prop :=
  match config_leader (self s) with
  | Some l => accepts net (clock (world s)) l = false
  | None => True
  end.

(** The state in which the round-robin loop starts. *)
Definition scan_start (s : State) : State :=
  match config_leader (self s) with
  | Some l => release (lead None (refused l s))
  | None => release s
  end.

Lemma scan_start_fields (s : State) :
  config_nodes (self (scan_start s)) = config_nodes (self s)
  /\ cursor (self (scan_start s)) = cursor (self s).
Proof.
  unfold scan_start, release.
  destruct (config_leader (self s)); cbn [lead refused self transport].
  - destruct (transport (self s)); split; reflexivity.
  - destruct (transport (self s)); split; reflexivity.
Qed.

Lemma try_to_connect_scan (s : State) :
  leader_unreachable s ->
  try_to_connect s = try_hosts (List.length (config_nodes (self s))) (scan_start s).
Proof.
  unfold leader_unreachable, scan_start. intros H. rewrite try_to_connect_run.
  destruct (config_leader (self s)) as [l|]; [rewrite H|]; reflexivity.
Qed.

(** C3: with [N >= 1] known members and no presumed leader reachable, the
    resolution step tries the members at indices [(cursor+1) mod N],
    [(cursor+2) mod N], ... in that order.  When candidate [k < N] is the
    first to accept, the step returns with the cursor at that member's
    index and the stub connected to it, after [k + 1] attempts.  When none
    of the [N] candidates accepts, the step raises the reconnection
    failure after exactly [N] attempts. *)
Theorem round_robin_resolution :
  forall (s : State),
    config_nodes (self s) <> [] ->
    leader_unreachable s ->
    let nodes := config_nodes (self s) in
    let cur := cursor (self s) in
    let N := Z.of_nat (List.length nodes) in
    let t0 := clock (world (scan_start s)) in
    let index := fun j : nat => (cur + 1 + Z.of_nat j) mod N in
    let member := fun j : nat => nth (Z.to_nat (index j)) nodes no_endpoint in
    (forall j, 0 <= index j < N /\ py_index nodes (index j) = Some (member j))
    /\ (forall k,
          (k < List.length nodes)%nat ->
          (forall j, (j < k)%nat -> accepts net (t0 + j)%nat (member j) = false) ->
          accepts net (t0 + k)%nat (member k) = true ->
          exists s',
            try_to_connect s = (Ok tt, s')
            /\ cursor (self s') = index k
            /\ client (self s') = Some (make_protocol (mkTransport (t0 + k)%nat (member k)))
            /\ config_nodes (self s') = nodes
            /\ opened (trace (world s'))
               = opened (trace (world (scan_start s))) ++ map member (seq 0 (S k)))
    /\ ((forall j, (j < List.length nodes)%nat ->
            accepts net (t0 + j)%nat (member j) = false) ->
        exists s',
          try_to_connect s = (Raise (TException MSG_RECONNECTION_FAIL), s')
          /\ opened (trace (world s'))
             = opened (trace (world (scan_start s)))
               ++ map member (seq 0 (List.length nodes))).
Proof.
  intros s Hne Hun nodes cur N t0 index member.
  destruct (scan_start_fields s) as [Hn Hc].
  assert (Hne' : config_nodes (self (scan_start s)) <> []) by (rewrite Hn; exact Hne).
  assert (Hmember : forall j,
             candidate_endpoint (cursor (self (scan_start s)))
                                (config_nodes (self (scan_start s))) j = member j).
  { intros j. rewrite Hn, Hc. reflexivity. }
  split; [|split].
  - intros j. pose proof (candidate_valid cur nodes j Hne) as Hv.
    split; [exact Hv|]. apply py_index_valid. exact Hv.
  - intros k Hk Hrej Hacc. eexists. split.
    + rewrite (try_to_connect_scan s Hun).
      apply (try_hosts_found k); [exact Hne' | exact Hk | |].
      * intros j Hj. rewrite Hmember. now apply Hrej.
      * rewrite Hmember. exact Hacc.
    + unfold scan_found. cbn [self world cursor client config_nodes trace].
      rewrite Hn, Hc. fold nodes cur.
      split; [reflexivity|]. split; [reflexivity|]. split; [reflexivity|].
      rewrite !opened_app, opened_refusals. cbn [opened].
      f_equal. rewrite seq_S, map_app. reflexivity.
  - intros Hrej. eexists. split.
    + rewrite (try_to_connect_scan s Hun). rewrite <- Hn.
      apply try_hosts_none; [right; exact Hne'|].
      intros j Hj. rewrite Hmember. apply Hrej. rewrite Hn in Hj. exact Hj.
    + unfold scan_failed. cbn [self world trace].
      rewrite opened_app, opened_refusals, Hn, Hc. reflexivity.
Qed.

(** C10: the constructor connects at once.  When the configured leader
    refuses, the member list is still empty, the round-robin has no
    candidate, and the constructor raises the reconnection failure: no
    client is returned, and nothing but the one connection attempt
    happened (no remote call, no wait). *)
Theorem constructor_raises_when_leader_refuses :
  forall (leader : TEndPoint) (w : World),
    accepts net (clock w) leader = false ->
    ConfigNodeClient_init (Some leader) w
    = (Raise (TException MSG_RECONNECTION_FAIL),
       mkWorld (S (clock w)) (open_transports w) (trace w ++ [EvOpen leader false]))
    /\ (forall m, config_node_endpoint m = leader ->
          borrow_config_node_client m w
          = (Raise (TException MSG_RECONNECTION_FAIL),
             mkWorld (S (clock w)) (open_transports w)
                     (trace w ++ [EvOpen leader false])))
    /\ String.prefix "Fail to connect to any config node" MSG_RECONNECTION_FAIL = true.
Proof.
  intros leader w H.
  assert (E : ConfigNodeClient_init (Some leader) w
              = (Raise (TException MSG_RECONNECTION_FAIL),
                 mkWorld (S (clock w)) (open_transports w)
                         (trace w ++ [EvOpen leader false]))).
  { unfold ConfigNodeClient_init. rewrite try_to_connect_run.
    cbn [self world config_leader config_nodes]. rewrite H. reflexivity. }
  split; [exact E|]. split; [|reflexivity].
  intros m Hm. unfold borrow_config_node_client. rewrite Hm. exact E.
Qed.

(** C7 (as amended): the factory hands the constructor the one resolved
    config-node endpoint.  When that endpoint accepts, the client starts
    with it as presumed leader, connected to it, with an empty member list
    and the cursor at 0. *)
Theorem borrow_config_node_client_initial_state :
  forall (w : World),
    accepts net (clock w) (get_ain_target_config_node_list descriptor) = true ->
    exists c w',
      borrow_config_node_client ClientManager_init w = (Ok c, w')
      /\ config_leader c = Some (get_ain_target_config_node_list descriptor)
      /\ config_nodes c = []
      /\ cursor c = 0
      /\ client c = Some (make_protocol
                            (mkTransport (clock w)
                               (get_ain_target_config_node_list descriptor)))
      /\ trace w' = trace w ++ [EvOpen (get_ain_target_config_node_list descriptor) true].
Proof.
  intros w H. unfold borrow_config_node_client, ClientManager_init, ConfigNodeClient_init.
  cbn [config_node_endpoint]. rewrite try_to_connect_run.
  cbn [self world config_leader]. rewrite H.
  eexists. eexists. split; [reflexivity|]. cbn. repeat split; reflexivity.
Qed.

(** The states a client can be in: a constructor that returned, then any
    sequence of operations, whether they return or raise. *)
Inductive reachable : State -> Prop :=
| reach_init (leader : option TEndPoint) (w w' : World) (c : ConfigNodeClient) :
    ConfigNodeClient_init leader w = (Ok c, w') -> reachable (mkState c w')
| reach_register (s : State) (cluster_name : string)
    (configuration : TAINodeConfiguration) (version_info : TNodeVersionInfo) :
    reachable s ->
    reachable (snd (node_register cluster_name configuration version_info s))
| reach_restart (s : State) (cluster_name : string)
    (configuration : TAINodeConfiguration) (version_info : TNodeVersionInfo) :
    reachable s ->
    reachable (snd (node_restart cluster_name configuration version_info s))
| reach_remove (s : State) (location : TAINodeLocation) :
    reachable s -> reachable (snd (node_remove location s))
| reach_configuration (s : State) (node_id : Z) :
    reachable s -> reachable (snd (get_ainode_configuration node_id s)).

(** In every reachable state the cursor is not negative, the [transport]
    field is still [None], and there is a stub. *)
Lemma reachable_invariant (s : State) :
  reachable s ->
  0 <= cursor (self s) /\ transport (self s) = None /\ client (self s) <> None.
Proof.
  induction 1 as [leader w w' c Hinit
                 | s cn cf vi _ IH | s cn cf vi _ IH | s loc _ IH | s id _ IH].
  - unfold ConfigNodeClient_init in Hinit.
    set (s0 := mkState (mkConfigNodeClient leader [] 0 None None) w) in *.
    destruct (try_to_connect_frame s0) as [F [_ C]].
    destruct (try_to_connect s0) as [[[]|e] s1]; [|discriminate].
    injection Hinit as <- <-. cbn [fst snd self] in *.
    split; [|split].
    + apply (frame_cursor _ _ F). cbn. lia.
    + rewrite (frame_transport _ _ F). reflexivity.
    + apply C. reflexivity.
  - rewrite node_register_as_op. destruct IH as (I1 & I2 & I3).
    destruct (op_run_progress register_op (mkRegisterReq cn cf vi) RETRY_NUM s).
    split; [auto|]. split; [congruence | auto].
  - rewrite node_restart_as_op. destruct IH as (I1 & I2 & I3).
    destruct (op_run_progress restart_op (mkRestartReq cn cf vi) RETRY_NUM s).
    split; [auto|]. split; [congruence | auto].
  - rewrite node_remove_as_op. destruct IH as (I1 & I2 & I3).
    destruct (op_run_progress remove_op (mkRemoveReq loc) RETRY_NUM s).
    split; [auto|]. split; [congruence | auto].
  - rewrite get_ainode_configuration_as_op. destruct IH as (I1 & I2 & I3).
    destruct (op_run_progress configuration_op id RETRY_NUM s).
    split; [auto|]. split; [congruence | auto].
Qed.

Lemma try_hosts_cursor :
  forall (left : nat) (s : State),
    config_nodes (self s) <> [] ->
    (0 <= cursor (self s) < Z.of_nat (List.length (config_nodes (self s)))
     \/ (0 < left)%nat) ->
    0 <= cursor (self (snd (try_hosts left s)))
      < Z.of_nat (List.length (config_nodes (self (snd (try_hosts left s))))).
Proof.
  induction left as [|left IH]; intros s Hne Hc.
  - destruct Hc as [Hc|Hc]; [|lia]. cbn. exact Hc.
  - rewrite try_hosts_step by exact Hne.
    assert (Hadv : 0 <= cursor (self (advance s))
                   < Z.of_nat (List.length (config_nodes (self (advance s))))).
    { cbn. apply Z.mod_pos_bound. now apply length_pos. }
    destruct (accepts net (clock (world s)) (current (advance s))).
    + cbn [snd]. exact Hadv.
    + apply IH; [exact Hne | left; exact Hadv].
Qed.

(** What the round-robin loop reads, whatever the members answer: it stops
    at some candidate [m], after [m] refusals, and the cursor it leaves is
    the index of that candidate. *)
Lemma try_hosts_reads :
  forall (left : nat) (s : State),
    config_nodes (self s) <> [] ->
    exists m b,
      (m <= left)%nat
      /\ trace (world (snd (try_hosts (S left) s)))
         = trace (world s)
           ++ refusals (cursor (self s)) (config_nodes (self s)) m
           ++ [EvOpen (candidate_endpoint (cursor (self s)) (config_nodes (self s)) m) b]
      /\ cursor (self (snd (try_hosts (S left) s)))
         = candidate (cursor (self s)) (config_nodes (self s)) m
      /\ config_nodes (self (snd (try_hosts (S left) s))) = config_nodes (self s).
Proof.
  induction left as [|left IH]; intros s Hne.
  - rewrite try_hosts_step by exact Hne. rewrite current_advance.
    exists 0%nat.
    destruct (accepts net (clock (world s))
                (candidate_endpoint (cursor (self s)) (config_nodes (self s)) 0)).
    + exists true. cbn [snd accepted advance self world trace cursor config_nodes].
      rewrite candidate_zero. repeat split; auto.
    + exists false. cbn [try_hosts]. unfold raise.
      cbn [snd refused advance self world trace cursor config_nodes].
      rewrite candidate_zero. repeat split; auto.
  - rewrite try_hosts_step by exact Hne. rewrite current_advance.
    set (e0 := candidate_endpoint (cursor (self s)) (config_nodes (self s)) 0).
    destruct (accepts net (clock (world s)) e0).
    + exists 0%nat, true.
      cbn [snd accepted advance self world trace cursor config_nodes].
      rewrite candidate_zero. repeat split; auto. lia.
    + destruct (IH (refused e0 (advance s)) Hne) as (m & b & Hm & Ht & Hc & Hn).
      exists (S m), b. split; [lia|].
      cbn [refused advance self world trace cursor config_nodes] in Ht, Hc, Hn.
      rewrite candidate_shift in Hc by exact Hne.
      rewrite candidate_endpoint_shift in Ht by exact Hne.
      split; [|split; [exact Hc | exact Hn]].
      rewrite Ht, (refusals_S _ _ m Hne). fold e0.
      rewrite <- !app_assoc. reflexivity.
Qed.

(** C8 (as amended): in every reachable state the cursor is not negative;
    and whenever a resolution step goes through the round-robin over a
    member list that is not empty, every index it reads is the cursor it
    has just reduced modulo the length: the members it tries are, in
    order, those at the indices [(cursor + 1 + j) mod N], each a valid
    index, and the cursor it leaves behind is the index of the last
    member it tried, a valid index into the member list. *)
Theorem cursor_valid_after_round_robin :
  (forall s, reachable s -> 0 <= cursor (self s))
  /\ (forall s,
        config_nodes (self s) <> [] ->
        leader_unreachable s ->
        0 <= cursor (self (snd (try_to_connect s)))
          < Z.of_nat (List.length (config_nodes (self (snd (try_to_connect s))))))
  /\ (forall s,
        config_nodes (self s) <> [] ->
        leader_unreachable s ->
        let nodes := config_nodes (self s) in
        let N := Z.of_nat (List.length nodes) in
        let index := fun j : nat => (cursor (self s) + 1 + Z.of_nat j) mod N in
        let member := fun j : nat => nth (Z.to_nat (index j)) nodes no_endpoint in
        (forall j, 0 <= index j < N /\ py_index nodes (index j) = Some (member j))
        /\ exists m b,
             (m < List.length nodes)%nat
             /\ trace (world (snd (try_to_connect s)))
                = trace (world (scan_start s))
                  ++ map (fun j => EvOpen (member j) false) (seq 0 m)
                  ++ [EvOpen (member m) b]
             /\ cursor (self (snd (try_to_connect s))) = index m
             /\ config_nodes (self (snd (try_to_connect s))) = nodes).
Proof.
  split; [|split].
  - intros s H. apply (reachable_invariant s H).
  - intros s Hne Hun. rewrite (try_to_connect_scan s Hun).
    destruct (scan_start_fields s) as [Hn _].
    rewrite <- Hn. apply try_hosts_cursor.
    + rewrite Hn. exact Hne.
    + right. rewrite Hn. destruct (config_nodes (self s)); [congruence|]. cbn. lia.
  - intros s Hne Hun nodes N index member. split.
    + intros j. pose proof (candidate_valid (cursor (self s)) nodes j Hne) as Hv.
      split; [exact Hv|]. apply py_index_valid. exact Hv.
    + rewrite (try_to_connect_scan s Hun).
      destruct (scan_start_fields s) as [Hn Hc].
      destruct (config_nodes (self s)) as [|a l] eqn:En; [congruence|].
      cbn [List.length].
      assert (Hne' : config_nodes (self (scan_start s)) <> [])
        by (rewrite Hn; discriminate).
      destruct (try_hosts_reads (List.length l) (scan_start s) Hne')
        as (m & b & Hm & Ht & Hcur & Hnodes).
      rewrite Hn, Hc in Ht, Hcur. rewrite Hn in Hnodes.
      exists m, b. split; [cbn; lia|].
      split; [exact Ht|]. split; [exact Hcur | exact Hnodes].
Qed.

(** ** The retry loop: success, redirects, exhaustion *)

Lemma peer_make_protocol (t : Transport) :
  peer (protocol_transport (make_protocol t)) = peer t.
Proof. unfold make_protocol. destruct (get_ain_thrift_compression_enabled descriptor); reflexivity. Qed.

Lemma op_run_first_success {Req Resp A : Type} (o : Operation Req Resp A) (req : Req)
    (n : nat) (s : State) (p : Protocol) (resp : Resp) :
  client (self s) = Some p ->
  op_rpc o (clock (world s)) (peer (protocol_transport p)) req = Reply resp ->
  definitive_success (op_status o resp) ->
  op_run (S n) o req s
  = (Ok (op_payload o resp), refreshed (op_members o) resp (called (op_method o) p s)).
Proof.
  intros Hp Hr [Hs Hn]. rewrite op_run_S, (op_attempt_run o req s p Hp). cbv zeta.
  rewrite Hr. apply Z.eqb_neq in Hn. rewrite Hn, Hs, Z.eqb_refl. reflexivity.
Qed.

Lemma update_config_node_leader_run (status : TSStatus) (s : State) :
  update_config_node_leader status s =
    if code status =? REDIRECTION_RECOMMEND
    then (Ok true, lead (redirectNode status) s)
    else (Ok false, s).
Proof.
  unfold update_config_node_leader.
  destruct (code status =? REDIRECTION_RECOMMEND); [|reflexivity].
  destruct (redirectNode status); reflexivity.
Qed.

(** The resolution step tries the presumed leader before anything else. *)
Lemma try_to_connect_leader_first (s : State) (l : TEndPoint) :
  config_leader (self s) = Some l ->
  exists evs,
    trace (world (snd (try_to_connect s)))
    = trace (world s) ++ EvOpen l (accepts net (clock (world s)) l) :: evs
    /\ calls evs = 0%nat.
Proof.
  intros Hl. rewrite try_to_connect_run, Hl.
  destruct (accepts net (clock (world s)) l) eqn:Ea.
  - exists []. split; reflexivity.
  - pose proof (Frame_release (lead None (refused l s))) as Fr.
    destruct (try_hosts_frame (List.length (config_nodes (self s)))
                (release (lead None (refused l s)))) as [F _].
    { rewrite (frame_nodes _ _ Fr). cbn [lead refused self config_nodes].
      apply nodes_empty_or_not. }
    destruct (frame_trace _ _ (Frame_trans _ _ _ Fr F)) as [evs [Ht Hc]].
    exists evs. split; [|exact Hc]. rewrite Ht. cbn [lead refused world trace].
    rewrite <- app_assoc. reflexivity.
Qed.

Lemma wait_and_reconnect_leader_first (s : State) (l : TEndPoint) :
  config_leader (self s) = Some l ->
  exists evs,
    trace (world (snd (wait_and_reconnect s)))
    = trace (world s) ++ EvSleep RETRY_INTERVAL_MS
        :: EvOpen l (accepts net (clock (world s)) l) :: evs
    /\ calls evs = 0%nat.
Proof.
  intros Hl. rewrite wait_and_reconnect_run.
  destruct (try_to_connect_leader_first (slept s) l Hl) as [evs [Ht Hc]].
  cbn [slept world log trace clock] in Ht. rewrite <- app_assoc in Ht. cbn [app] in Ht.
  destruct (try_to_connect (slept s)) as [[a|e] s'] eqn:E; cbn [snd] in *.
  - exists evs. split; assumption.
  - destruct (is_TException e); cbn [snd].
    + destruct (try_to_connect_frame s') as [F _].
      destruct (frame_trace _ _ F) as [evs' [Ht' Hc']].
      exists (evs ++ evs'). split.
      * rewrite Ht', Ht, <- app_assoc. reflexivity.
      * rewrite calls_app, Hc, Hc'. reflexivity.
    + exists evs. split; assumption.
Qed.

(** A redirect answered to an attempt is not a return: the leader is set
    to what the redirect names, then the client waits and reconnects, to
    the named leader first when one is named, and the loop goes on or the
    reconnection failure propagates. *)
Definition redirect_retried {Req Resp A : Type} (o : Operation Req Resp A)
    (req : Req) (attempt : M (Flow A)) : Prop :=
  forall (s : State) (p : Protocol) (resp : Resp),
    client (self s) = Some p ->
    op_rpc o (clock (world s)) (peer (protocol_transport p)) req = Reply resp ->
    code (op_status o resp) = REDIRECTION_RECOMMEND ->
    attempt s = reconnect_then_next
                  (lead (redirectNode (op_status o resp)) (called (op_method o) p s))
    /\ (forall a, fst (attempt s) <> Ok (Return a))
    /\ (fst (attempt s) = Ok Next
        \/ fst (attempt s) = Raise (TException MSG_RECONNECTION_FAIL))
    /\ (exists evs,
          trace (world (snd (attempt s)))
          = trace (world s) ++ EvCall (op_method o) (peer (protocol_transport p))
              :: EvSleep RETRY_INTERVAL_MS :: evs
          /\ calls evs = 0%nat
          /\ forall l, redirectNode (op_status o resp) = Some l ->
               exists evs', evs = EvOpen l (accepts net (S (clock (world s))) l) :: evs').

Lemma op_attempt_redirect_retried {Req Resp A : Type} (o : Operation Req Resp A)
    (req : Req) :
  redirect_retried o req (op_attempt o req).
Proof.
  intros s p resp Hp Hr Hc.
  assert (E : op_attempt o req s
              = reconnect_then_next
                  (lead (redirectNode (op_status o resp)) (called (op_method o) p s))).
  { rewrite (op_attempt_run o req s p Hp). cbv zeta. rewrite Hr, Hc, Z.eqb_refl.
    reflexivity. }
  split; [exact E|]. rewrite E.
  set (s1 := lead (redirectNode (op_status o resp)) (called (op_method o) p s)).
  destruct (@reconnect_then_next_spec A s1) as [F HS].
  split; [|split].
  - intros a H. destruct HS as [[HS _]|HS]; rewrite HS in H; discriminate.
  - destruct HS as [[HS _]|HS]; [left | right]; exact HS.
  - unfold reconnect_then_next.
    destruct (redirectNode (op_status o resp)) as [l|] eqn:El.
    + destruct (wait_and_reconnect_leader_first s1 l eq_refl) as [evs [Ht Hcalls]].
      exists (EvOpen l (accepts net (S (clock (world s))) l) :: evs).
      destruct (wait_and_reconnect s1) as [[[]|e] s']; cbn [snd] in *.
      * split; [|split].
        -- rewrite Ht. unfold s1. cbn [lead called world trace clock].
           rewrite <- app_assoc. reflexivity.
        -- exact Hcalls.
        -- intros l' H. injection H as <-. exists evs. reflexivity.
      * split; [|split].
        -- rewrite Ht. unfold s1. cbn [lead called world trace clock].
           rewrite <- app_assoc. reflexivity.
        -- exact Hcalls.
        -- intros l' H. injection H as <-. exists evs. reflexivity.
    + assert (Hw : exists evs,
                 trace (world (snd (wait_and_reconnect s1)))
                 = trace (world s1) ++ EvSleep RETRY_INTERVAL_MS :: evs
                 /\ calls evs = 0%nat).
      { rewrite wait_and_reconnect_run.
        destruct (try_to_connect_frame (slept s1)) as [F1 _].
        destruct (frame_trace _ _ F1) as [ev1 [T1 C1]].
        cbn [slept world log trace] in T1. rewrite <- app_assoc in T1. cbn [app] in T1.
        destruct (try_to_connect (slept s1)) as [[a|e] s'] eqn:E1; cbn [snd] in *.
        - exists ev1. split; assumption.
        - destruct (is_TException e); cbn [snd].
          + destruct (try_to_connect_frame s') as [F2 _].
            destruct (frame_trace _ _ F2) as [ev2 [T2 C2]].
            exists (ev1 ++ ev2). split.
            * rewrite T2, T1, <- app_assoc. reflexivity.
            * rewrite calls_app, C1, C2. reflexivity.
          + exists ev1. split; assumption. }
      destruct Hw as [evs [Ht Hcalls]]. exists evs.
      destruct (wait_and_reconnect s1) as [[[]|e] s']; cbn [snd] in *.
      * split; [|split; [exact Hcalls | discriminate]].
        rewrite Ht. unfold s1. cbn [lead called world trace].
        rewrite <- app_assoc. reflexivity.
      * split; [|split; [exact Hcalls | discriminate]].
        rewrite Ht. unfold s1. cbn [lead called world trace].
        rewrite <- app_assoc. reflexivity.
Qed.

(** The history of a chain of redirects that starts at [from] and names
    the endpoints [es] one after the other, each of which accepts. *)
Fixpoint redirect_events (method : Rpc) (from : TEndPoint) (es : list TEndPoint)
  : list Event :=
  match es with
  | [] => []
  | l :: es' =>
      EvCall method from :: EvSleep RETRY_INTERVAL_MS :: EvOpen l true
        :: redirect_events method l es'
  end.

(** The replies of a chain of redirects: the [i]-th call, sent at clock
    [t + 2 i] to the endpoint named just before (to [from] for the first),
    is answered by a redirect naming [es[i]], which accepts the connection
    at clock [t + 2 i + 1]. *)
Definition redirect_chain {Req Resp A : Type} (o : Operation Req Resp A) (req : Req)
    (t : nat) (from : TEndPoint) (es : list TEndPoint) : Prop :=
  forall (i : nat) (l : TEndPoint),
    nth_error es i = Some l ->
    accepts net (t + 2 * i + 1)%nat l = true
    /\ exists resp,
         op_rpc o (t + 2 * i)%nat (nth i (from :: es) no_endpoint) req = Reply resp
         /\ code (op_status o resp) = REDIRECTION_RECOMMEND
         /\ redirectNode (op_status o resp) = Some l.

Lemma op_run_redirect_step {Req Resp A : Type} (o : Operation Req Resp A) (req : Req)
    (n : nat) (s : State) (p : Protocol) (l : TEndPoint) (resp : Resp) :
  client (self s) = Some p ->
  op_rpc o (clock (world s)) (peer (protocol_transport p)) req = Reply resp ->
  code (op_status o resp) = REDIRECTION_RECOMMEND ->
  redirectNode (op_status o resp) = Some l ->
  accepts net (S (clock (world s))) l = true ->
  op_run (S n) o req s
  = op_run n o req (accepted l (slept (lead (Some l) (called (op_method o) p s)))).
Proof.
  intros Hp Hr Hc Hl Ha. rewrite op_run_S, (op_attempt_run o req s p Hp). cbv zeta.
  rewrite Hr, Hc, Z.eqb_refl, Hl. unfold reconnect_then_next.
  rewrite wait_and_reconnect_run, try_to_connect_run.
  cbn [slept lead called self world config_leader clock log]. rewrite Ha.
  reflexivity.
Qed.

Lemma last_nonempty_default {T : Type} (es : list T) (a d d' : T) :
  last (a :: es) d = last (a :: es) d'.
Proof.
  revert a. induction es as [|b es IH]; intros a; [reflexivity|].
  change (last (a :: b :: es) d) with (last (b :: es) d).
  change (last (a :: b :: es) d') with (last (b :: es) d').
  apply IH.
Qed.

Lemma op_run_chain {Req Resp A : Type} (o : Operation Req Resp A) (req : Req) :
  forall (es : list TEndPoint) (n : nat) (s : State) (p : Protocol),
    client (self s) = Some p ->
    redirect_chain o req (clock (world s)) (peer (protocol_transport p)) es ->
    exists s' p',
      op_run (List.length es + n) o req s = op_run n o req s'
      /\ client (self s') = Some p'
      /\ peer (protocol_transport p') = last es (peer (protocol_transport p))
      /\ clock (world s') = (clock (world s) + 2 * List.length es)%nat
      /\ config_leader (self s')
         = match es with
           | [] => config_leader (self s)
           | _ => Some (last es no_endpoint)
           end
      /\ config_nodes (self s') = config_nodes (self s)
      /\ trace (world s')
         = trace (world s)
           ++ redirect_events (op_method o) (peer (protocol_transport p)) es.
Proof.
  induction es as [|l es IH]; intros n s p Hp Hchain.
  - exists s, p. cbn [List.length last redirect_events Nat.add].
    rewrite app_nil_r, Nat.mul_0_r, Nat.add_0_r. repeat split; auto.
  - destruct (Hchain 0%nat l eq_refl) as [Ha [resp [Hr [Hc Hl]]]].
    rewrite Nat.mul_0_r, Nat.add_0_r in Hr, Ha. cbn [nth] in Hr.
    replace (clock (world s) + 1)%nat with (S (clock (world s))) in Ha by lia.
    cbn [List.length Nat.add].
    rewrite (op_run_redirect_step o req _ s p l resp Hp Hr Hc Hl Ha).
    set (s2 := accepted l (slept (lead (Some l) (called (op_method o) p s)))).
    set (p2 := make_protocol (mkTransport (S (clock (world s))) l)).
    assert (Hp2 : client (self s2) = Some p2) by reflexivity.
    assert (Hpeer : peer (protocol_transport p2) = l)
      by (unfold p2; rewrite peer_make_protocol; reflexivity).
    destruct (IH n s2 p2 Hp2) as (s' & p' & Hrun & Hc' & Hpe & Hk & Hld & Hnd & Htr).
    { intros i l' Hi. rewrite Hpeer.
      destruct (Hchain (S i) l' Hi) as [Ha' [resp' [Hr' H']]].
      cbn [s2 accepted slept lead called world clock log].
      replace (S (S (clock (world s))) + 2 * i)%nat
        with (clock (world s) + 2 * S i)%nat by lia.
      split; [exact Ha'|]. exists resp'. split; [|exact H'].
      cbn [nth] in Hr' |- *. exact Hr'. }
    exists s', p'. split; [exact Hrun|]. split; [exact Hc'|].
    split; [|split; [|split; [|split]]].
    + rewrite Hpe, Hpeer. destruct es as [|l2 es]; [reflexivity|].
      change (last (l :: l2 :: es) (peer (protocol_transport p)))
        with (last (l2 :: es) (peer (protocol_transport p))).
      apply last_nonempty_default.
    + rewrite Hk. cbn [s2 accepted slept lead called world clock log]. lia.
    + rewrite Hld. destruct es as [|l2 es]; [reflexivity|].
      change (last (l :: l2 :: es) no_endpoint) with (last (l2 :: es) no_endpoint).
      reflexivity.
    + rewrite Hnd. reflexivity.
    + rewrite Htr, Hpeer. cbn [s2 accepted slept lead called world trace log].
      cbn [redirect_events]. rewrite <- !app_assoc. reflexivity.
Qed.

(** A chain of fewer than [RETRY_NUM] redirects followed by a definitive
    success: the call returns the payload of that response, the presumed
    leader is the endpoint named last, and every call after a redirect
    went to the endpoint the redirect named. *)
Definition follows_redirects {Req Resp A : Type} (o : Operation Req Resp A)
    (req : Req) (run : M A) : Prop :=
  forall (s : State) (p : Protocol) (es : list TEndPoint) (final : Resp),
    client (self s) = Some p ->
    (List.length es < RETRY_NUM)%nat ->
    redirect_chain o req (clock (world s)) (peer (protocol_transport p)) es ->
    op_rpc o (clock (world s) + 2 * List.length es)%nat
           (last es (peer (protocol_transport p))) req = Reply final ->
    definitive_success (op_status o final) ->
    exists s',
      run s = (Ok (op_payload o final), s')
      /\ config_leader (self s')
         = match es with
           | [] => config_leader (self s)
           | _ => Some (last es no_endpoint)
           end
      /\ trace (world s')
         = trace (world s)
           ++ redirect_events (op_method o) (peer (protocol_transport p)) es
           ++ [EvCall (op_method o) (last es (peer (protocol_transport p)))].

Lemma op_run_follows_redirects {Req Resp A : Type} (o : Operation Req Resp A)
    (req : Req) :
  follows_redirects o req (op_run RETRY_NUM o req).
Proof.
  intros s p es final Hp Hlen Hchain Hfinal Hdef.
  destruct (op_run_chain o req es (RETRY_NUM - List.length es) s p Hp Hchain)
    as (s' & p' & Hrun & Hc' & Hpe & Hk & Hld & Hnd & Htr).
  replace (List.length es + (RETRY_NUM - List.length es))%nat with RETRY_NUM in Hrun by lia.
  rewrite Hrun.
  destruct (RETRY_NUM - List.length es)%nat as [|n] eqn:En; [lia|].
  rewrite <- Hk, <- Hpe in Hfinal.
  rewrite (op_run_first_success o req n s' p' final Hc' Hfinal Hdef).
  eexists. split; [reflexivity|]. split.
  - unfold refreshed. destruct (op_members o); cbn [called self config_leader]; exact Hld.
  - assert (Ht : trace (world (refreshed (op_members o) final (called (op_method o) p' s')))
                 = trace (world s') ++ [EvCall (op_method o) (peer (protocol_transport p'))]).
    { unfold refreshed. destruct (op_members o); reflexivity. }
    rewrite Ht, Htr, Hpe, <- app_assoc. reflexivity.
Qed.

Lemma op_run_budget {Req Resp A : Type} (o : Operation Req Resp A) (req : Req)
    (s : State) :
  client (self s) <> None ->
  (calls (trace (world (snd (op_run RETRY_NUM o req s))))
   <= calls (trace (world s)) + 5)%nat
  /\ ((forall t e, attempt_fails (op_status o) (op_rpc o t e req)) ->
      fst (op_run RETRY_NUM o req s) = Raise (TException MSG_RECONNECTION_FAIL))
  /\ (forall v, fst (op_run RETRY_NUM o req s) = Ok v ->
        exists t e resp,
          op_rpc o t e req = Reply resp
          /\ definitive_success (op_status o resp)
          /\ v = op_payload o resp).
Proof.
  intros Hc. split; [|split].
  - apply (prog_calls _ _ _ (op_run_progress o req RETRY_NUM s)).
  - intros Hfail. apply op_run_all_fail; assumption.
  - intros v Hv.
    destruct (op_run_success_origin o req RETRY_NUM s v Hv)
      as (t & e & resp & _ & Hr & Hd & Hp & _).
    exists t, e, resp. auto.
Qed.

(** C1: for each of the four operations, one call issues at most
    [RETRY_NUM] = 5 remote calls; when every attempt fails (the stub
    raises a thrift exception, or the node answers with a redirect), the
    call raises the reconnection failure, whose message starts with
    "Fail to connect to any config node"; and a value is returned only
    when some attempt was answered by a definitive success, of which it is
    the payload. *)
Theorem retry_budget_exhausted :
  forall (s : State),
    client (self s) <> None ->
    (forall cluster_name configuration version_info,
       let req := mkRegisterReq cluster_name configuration version_info in
       let run := node_register cluster_name configuration version_info in
       (calls (trace (world (snd (run s)))) <= calls (trace (world s)) + 5)%nat
       /\ ((forall t e, attempt_fails reg_status (registerAINode net t e req)) ->
           fst (run s) = Raise (TException MSG_RECONNECTION_FAIL))
       /\ (forall v, fst (run s) = Ok v ->
             exists t e resp,
               registerAINode net t e req = Reply resp
               /\ definitive_success (reg_status resp) /\ v = aiNodeId resp))
    /\ (forall cluster_name configuration version_info,
          let req := mkRestartReq cluster_name configuration version_info in
          let run := node_restart cluster_name configuration version_info in
          (calls (trace (world (snd (run s)))) <= calls (trace (world s)) + 5)%nat
          /\ ((forall t e, attempt_fails rst_status (restartAINode net t e req)) ->
              fst (run s) = Raise (TException MSG_RECONNECTION_FAIL))
          /\ (forall v, fst (run s) = Ok v ->
                exists t e resp,
                  restartAINode net t e req = Reply resp
                  /\ definitive_success (rst_status resp) /\ v = rst_status resp))
    /\ (forall location,
          let req := mkRemoveReq location in
          let run := node_remove location in
          (calls (trace (world (snd (run s)))) <= calls (trace (world s)) + 5)%nat
          /\ ((forall t e, attempt_fails (fun status => status) (removeAINode net t e req)) ->
              fst (run s) = Raise (TException MSG_RECONNECTION_FAIL))
          /\ (forall v, fst (run s) = Ok v ->
                exists t e status,
                  removeAINode net t e req = Reply status
                  /\ definitive_success status /\ v = status))
    /\ (forall node_id,
          let run := get_ainode_configuration node_id in
          (calls (trace (world (snd (run s)))) <= calls (trace (world s)) + 5)%nat
          /\ ((forall t e, attempt_fails cfg_status (getAINodeConfiguration net t e node_id)) ->
              fst (run s) = Raise (TException MSG_RECONNECTION_FAIL))
          /\ (forall v, fst (run s) = Ok v ->
                exists t e resp,
                  getAINodeConfiguration net t e node_id = Reply resp
                  /\ definitive_success (cfg_status resp)
                  /\ v = aiNodeConfigurationMap resp))
    /\ String.prefix "Fail to connect to any config node" MSG_RECONNECTION_FAIL = true.
Proof.
  intros s Hc. split; [|split; [|split; [|split]]].
  - intros cn cf vi. exact (op_run_budget register_op (mkRegisterReq cn cf vi) s Hc).
  - intros cn cf vi. exact (op_run_budget restart_op (mkRestartReq cn cf vi) s Hc).
  - intros loc. exact (op_run_budget remove_op (mkRemoveReq loc) s Hc).
  - intros id. exact (op_run_budget configuration_op id s Hc).
  - reflexivity.
Qed.

(** C2 (as amended): a redirect sets the presumed leader to the endpoint
    it names and clears it when it names none; the resolution step tries
    the presumed leader before any other endpoint; for each operation a
    redirect is never returned, it makes the client wait and resolve again
    (the named leader first).  At whatever attempt the redirect comes:
    when that resolution returns, the loop is at its next attempt, which
    starts with a call through the new stub, and when it does not (no
    endpoint accepts) the call raises the reconnection failure at once.
    After a chain of fewer than [RETRY_NUM] redirects, each naming an
    endpoint that accepts, the next call goes to the endpoint named last,
    which is the presumed leader when that call is answered by a
    definitive success. *)
Theorem redirects_update_leader_and_retry :
  (forall status s,
     code status = REDIRECTION_RECOMMEND ->
     fst (update_config_node_leader status s) = Ok true
     /\ config_leader (self (snd (update_config_node_leader status s)))
        = redirectNode status)
  /\ (forall status s,
        code status <> REDIRECTION_RECOMMEND ->
        update_config_node_leader status s = (Ok false, s))
  /\ (forall s l,
        config_leader (self s) = Some l ->
        exists evs,
          trace (world (snd (try_to_connect s)))
          = trace (world s) ++ EvOpen l (accepts net (clock (world s)) l) :: evs
          /\ calls evs = 0%nat)
  /\ (forall cluster_name configuration version_info,
        let req := mkRegisterReq cluster_name configuration version_info in
        redirect_retried register_op req (node_register_attempt req)
        /\ follows_redirects register_op req
             (node_register cluster_name configuration version_info)
        /\ redirect_then_next_attempt register_op req (node_register_attempt req)
             (node_register cluster_name configuration version_info))
  /\ (forall cluster_name configuration version_info,
        let req := mkRestartReq cluster_name configuration version_info in
        redirect_retried restart_op req (node_restart_attempt req)
        /\ follows_redirects restart_op req
             (node_restart cluster_name configuration version_info)
        /\ redirect_then_next_attempt restart_op req (node_restart_attempt req)
             (node_restart cluster_name configuration version_info))
  /\ (forall location,
        let req := mkRemoveReq location in
        redirect_retried remove_op req (node_remove_attempt req)
        /\ follows_redirects remove_op req (node_remove location)
        /\ redirect_then_next_attempt remove_op req (node_remove_attempt req)
             (node_remove location))
  /\ (forall node_id,
        redirect_retried configuration_op node_id
          (get_ainode_configuration_attempt node_id)
        /\ follows_redirects configuration_op node_id
             (get_ainode_configuration node_id)
        /\ redirect_then_next_attempt configuration_op node_id
             (get_ainode_configuration_attempt node_id)
             (get_ainode_configuration node_id)).
Proof.
  split; [|split; [|split; [|split; [|split; [|split]]]]].
  - intros status s H. rewrite update_config_node_leader_run, H, Z.eqb_refl.
    split; reflexivity.
  - intros status s H. rewrite update_config_node_leader_run.
    apply Z.eqb_neq in H. rewrite H. reflexivity.
  - intros s l H. apply try_to_connect_leader_first. exact H.
  - intros cn cf vi. split; [|split].
    + exact (op_attempt_redirect_retried register_op (mkRegisterReq cn cf vi)).
    + exact (op_run_follows_redirects register_op (mkRegisterReq cn cf vi)).
    + exact (op_redirect_then_next_attempt register_op (mkRegisterReq cn cf vi)).
  - intros cn cf vi. split; [|split].
    + exact (op_attempt_redirect_retried restart_op (mkRestartReq cn cf vi)).
    + exact (op_run_follows_redirects restart_op (mkRestartReq cn cf vi)).
    + exact (op_redirect_then_next_attempt restart_op (mkRestartReq cn cf vi)).
  - intros loc. split; [|split].
    + exact (op_attempt_redirect_retried remove_op (mkRemoveReq loc)).
    + exact (op_run_follows_redirects remove_op (mkRemoveReq loc)).
    + exact (op_redirect_then_next_attempt remove_op (mkRemoveReq loc)).
  - intros id. split; [|split].
    + exact (op_attempt_redirect_retried configuration_op id).
    + exact (op_run_follows_redirects configuration_op id).
    + exact (op_redirect_then_next_attempt configuration_op id).
Qed.

Lemma op_run_success {Req Resp A : Type} (o : Operation Req Resp A) (req : Req)
    (s s1 : State) (k : nat) (p : Protocol) (resp : Resp) :
  reaches (op_attempt o req) RETRY_NUM s (S k) s1 ->
  client (self s1) = Some p ->
  op_rpc o (clock (world s1)) (peer (protocol_transport p)) req = Reply resp ->
  definitive_success (op_status o resp) ->
  fst (op_run RETRY_NUM o req s) = Ok (op_payload o resp)
  /\ config_nodes (self (snd (op_run RETRY_NUM o req s)))
     = match op_members o with
       | Some members => members resp
       | None => config_nodes (self s)
       end.
Proof.
  intros Hreach Hp Hr Hd.
  pose proof (op_run_nodes_kept o req) as Hkept.
  rewrite (op_run_reaches o req _ _ _ _ Hreach).
  rewrite (op_run_first_success o req _ s1 p resp Hp Hr Hd). cbn [fst snd].
  split; [reflexivity|]. unfold refreshed.
  destruct (op_members o) as [f|] eqn:Hm; [reflexivity|].
  cbn [called self config_nodes].
  specialize (Hkept eq_refl RETRY_NUM s).
  rewrite (op_run_reaches o req _ _ _ _ Hreach) in Hkept.
  rewrite (op_run_first_success o req _ s1 p resp Hp Hr Hd) in Hkept.
  unfold refreshed in Hkept. rewrite Hm in Hkept. exact Hkept.
Qed.

(** C6 (as amended): at whatever attempt of a call the node answers with
    a definitive success, the operation returns the payload of that
    response; [node_register] and [node_restart] then hold the member
    list of that response, while [node_remove] and
    [get_ainode_configuration], whose responses carry no member list,
    leave the member list as it was when the call started.  Conversely a
    returned value is always the payload of such a response. *)
Theorem success_returns_payload :
  forall (s s1 : State) (k : nat) (p : Protocol),
    client (self s1) = Some p ->
    let t := clock (world s1) in
    let e := peer (protocol_transport p) in
    (forall cluster_name configuration version_info resp,
       let req := mkRegisterReq cluster_name configuration version_info in
       let run := node_register cluster_name configuration version_info in
       reaches (node_register_attempt req) RETRY_NUM s (S k) s1 ->
       registerAINode net t e req = Reply resp ->
       definitive_success (reg_status resp) ->
       fst (run s) = Ok (aiNodeId resp)
       /\ config_nodes (self (snd (run s))) = reg_configNodeList resp)
    /\ (forall cluster_name configuration version_info resp,
          let req := mkRestartReq cluster_name configuration version_info in
          let run := node_restart cluster_name configuration version_info in
          reaches (node_restart_attempt req) RETRY_NUM s (S k) s1 ->
          restartAINode net t e req = Reply resp ->
          definitive_success (rst_status resp) ->
          fst (run s) = Ok (rst_status resp)
          /\ config_nodes (self (snd (run s))) = rst_configNodeList resp)
    /\ (forall location status,
          let run := node_remove location in
          reaches (node_remove_attempt (mkRemoveReq location)) RETRY_NUM s (S k) s1 ->
          removeAINode net t e (mkRemoveReq location) = Reply status ->
          definitive_success status ->
          fst (run s) = Ok status
          /\ config_nodes (self (snd (run s))) = config_nodes (self s))
    /\ (forall node_id resp,
          let run := get_ainode_configuration node_id in
          reaches (get_ainode_configuration_attempt node_id) RETRY_NUM s (S k) s1 ->
          getAINodeConfiguration net t e node_id = Reply resp ->
          definitive_success (cfg_status resp) ->
          fst (run s) = Ok (aiNodeConfigurationMap resp)
          /\ config_nodes (self (snd (run s))) = config_nodes (self s))
    /\ (forall cluster_name configuration version_info v,
          let run := node_register cluster_name configuration version_info in
          fst (run s) = Ok v ->
          exists t' e' resp,
            registerAINode net t' e'
              (mkRegisterReq cluster_name configuration version_info) = Reply resp
            /\ definitive_success (reg_status resp)
            /\ v = aiNodeId resp
            /\ config_nodes (self (snd (run s))) = reg_configNodeList resp)
    /\ (forall cluster_name configuration version_info v,
          let run := node_restart cluster_name configuration version_info in
          fst (run s) = Ok v ->
          exists t' e' resp,
            restartAINode net t' e'
              (mkRestartReq cluster_name configuration version_info) = Reply resp
            /\ definitive_success (rst_status resp)
            /\ v = rst_status resp
            /\ config_nodes (self (snd (run s))) = rst_configNodeList resp)
    /\ (forall location,
          config_nodes (self (snd (node_remove location s))) = config_nodes (self s))
    /\ (forall node_id,
          config_nodes (self (snd (get_ainode_configuration node_id s)))
          = config_nodes (self s)).
Proof.
  intros s s1 k p Hp t e.
  split; [|split; [|split; [|split; [|split; [|split; [|split]]]]]].
  - intros cn cf vi resp req run Hreach Hr Hd.
    exact (op_run_success register_op (mkRegisterReq cn cf vi) s s1 k p resp
             Hreach Hp Hr Hd).
  - intros cn cf vi resp req run Hreach Hr Hd.
    exact (op_run_success restart_op (mkRestartReq cn cf vi) s s1 k p resp
             Hreach Hp Hr Hd).
  - intros loc status run Hreach Hr Hd.
    exact (op_run_success remove_op (mkRemoveReq loc) s s1 k p status
             Hreach Hp Hr Hd).
  - intros id resp run Hreach Hr Hd.
    exact (op_run_success configuration_op id s s1 k p resp Hreach Hp Hr Hd).
  - intros cn cf vi v run Hv.
    destruct (op_run_success_origin register_op (mkRegisterReq cn cf vi) RETRY_NUM s v Hv)
      as (t' & e' & resp & _ & Hr & Hd & Hpay & Hn).
    exists t', e', resp. auto.
  - intros cn cf vi v run Hv.
    destruct (op_run_success_origin restart_op (mkRestartReq cn cf vi) RETRY_NUM s v Hv)
      as (t' & e' & resp & _ & Hr & Hd & Hpay & Hn).
    exists t', e', resp. auto.
  - intros loc. exact (op_run_nodes_kept remove_op (mkRemoveReq loc) eq_refl RETRY_NUM s).
  - intros id. exact (op_run_nodes_kept configuration_op id eq_refl RETRY_NUM s).
Qed.

(** ** Further properties of [DataNodeClient] *)

(** The loop over a run of successful pages that all announce more data:
    it goes through them and is back at its head with the rows gathered. *)
Lemma fetch_more_loop_prefix (self : DataNodeClient) (qid fs : Z)
    (cn : list string) (ct : list ColumnType) (cm : list (string * Z)) :
  forall (pages : list TFetchMoreDataResp) (fuel : nat) (data : DataFrame) (w : World),
    (forall k p, nth_error pages k = Some p ->
       fetchMoreData net (clock w + k)%nat (dn_target self) (mkMoreReq qid fs) = Reply p
       /\ code (fmd_status p) = SUCCESS_STATUS
       /\ fmd_hasMoreData p = true) ->
    fetch_more_loop (List.length pages + fuel) self qid fs cn ct cm true data w
    = fetch_more_loop fuel self qid fs cn ct cm true
        (data ++ flat_map (fun p => convert_to_df cn ct cm (fmd_tsDataset p)) pages)
        (mkWorld (clock w + List.length pages)%nat (open_transports w)
                 (trace w ++ repeat (EvCall FetchMoreData (dn_target self))
                                    (List.length pages))).
Proof.
  induction pages as [|p ps IH]; intros fuel data w Hnet.
  - cbn [List.length flat_map repeat Nat.add].
    rewrite !app_nil_r, Nat.add_0_r, world_eta. reflexivity.
  - destruct (Hnet 0%nat p eq_refl) as (Hp & Hst & Hmore).
    rewrite Nat.add_0_r in Hp.
    cbn [List.length Nat.add fetch_more_loop]. unfold call. fold (dn_target self).
    rewrite Hp, (verify_success_ok _ _ Hst), Hmore.
    rewrite IH.
    + cbn [clock open_transports trace flat_map repeat]. unfold df_append.
      rewrite <- !app_assoc. cbn [app].
      replace (S (clock w) + List.length ps)%nat
        with (clock w + S (List.length ps))%nat by lia.
      reflexivity.
    + intros k q Hk. cbn [clock].
      replace (S (clock w) + k)%nat with (clock w + S k)%nat by lia.
      apply Hnet. exact Hk.
Qed.

(** X1: a page request that fails aborts the whole query.  After a first
    page and any number of later pages that all succeeded and announced
    more data, a fetch-more request on which the stub raises, or whose
    status [verify_success] rejects, makes [fetch_timeseries] raise that
    very exception: the rows gathered so far are not returned, and no
    further request is sent. *)
Theorem fetch_timeseries_page_failure_discards_rows :
  forall (self : DataNodeClient) (query_body : string) (fetch_size timeout : Z)
         (w : World) (first : TFetchTimeseriesResp)
         (pages : list TFetchMoreDataResp) (fuel : nat) (e : Exception),
    fetchTimeseries net (clock w) (dn_target self)
                    (mkFetchReq query_body fetch_size timeout) = Reply first ->
    code (fts_status first) = SUCCESS_STATUS ->
    fts_tsDataset first <> [] ->
    first_rows first <> [] ->
    fts_hasMoreData first = true ->
    (forall k p, nth_error pages k = Some p ->
       fetchMoreData net (S (clock w) + k)%nat (dn_target self)
                     (mkMoreReq (fts_queryId first) fetch_size) = Reply p
       /\ code (fmd_status p) = SUCCESS_STATUS
       /\ fmd_hasMoreData p = true) ->
    (fetchMoreData net (S (clock w) + List.length pages)%nat (dn_target self)
                   (mkMoreReq (fts_queryId first) fetch_size) = Throw e
     \/ exists p,
          fetchMoreData net (S (clock w) + List.length pages)%nat (dn_target self)
                        (mkMoreReq (fts_queryId first) fetch_size) = Reply p
          /\ verify_success (fmd_status p)
               "An error occurs when calling fetch_more_data()" = Some e) ->
    (List.length pages < fuel)%nat ->
    fetch_timeseries fuel self query_body fetch_size timeout w
    = Some (Raise e,
            mkWorld (S (S (clock w) + List.length pages)) (open_transports w)
                    (trace w ++ EvCall FetchTimeseries (dn_target self)
                             :: repeat (EvCall FetchMoreData (dn_target self))
                                       (S (List.length pages)))).
Proof.
  intros self q fs to w first pages fuel e Hfirst Hst Hblocks Hrows Hmore Hnet Hfail Hfuel.
  unfold fetch_timeseries, call. fold (dn_target self).
  rewrite Hfirst, (verify_success_ok _ _ Hst).
  destruct (fts_tsDataset first) as [|b bs] eqn:Eb; [congruence|].
  cbn [List.length]. rewrite Nat2Z.inj_succ.
  destruct (Z.succ (Z.of_nat (List.length bs)) =? 0) eqn:E0; [apply Z.eqb_eq in E0; lia|].
  rewrite <- Eb. fold (first_rows first).
  destruct (first_rows first) as [|r rs] eqn:Er; [congruence|].
  cbn [df_empty]. rewrite <- Er, Hmore.
  replace fuel with (List.length pages + S (fuel - S (List.length pages)))%nat by lia.
  rewrite fetch_more_loop_prefix by exact Hnet.
  cbn [fetch_more_loop]. unfold call. fold (dn_target self).
  cbn [clock open_transports trace].
  assert (Htr : forall tr : list Event,
            ((tr ++ [EvCall FetchTimeseries (dn_target self)])
               ++ repeat (EvCall FetchMoreData (dn_target self)) (List.length pages))
              ++ [EvCall FetchMoreData (dn_target self)]
            = tr ++ EvCall FetchTimeseries (dn_target self)
                 :: repeat (EvCall FetchMoreData (dn_target self))
                           (S (List.length pages))).
  { intros tr. rewrite <- !app_assoc. cbn [app]. f_equal. f_equal.
    change [EvCall FetchMoreData (dn_target self)]
      with (repeat (EvCall FetchMoreData (dn_target self)) 1).
    rewrite <- repeat_app. f_equal. lia. }
  destruct Hfail as [Hthrow | [p [Hp Hv]]].
  - rewrite Hthrow, Htr. reflexivity.
  - rewrite Hp, Hv, Htr. reflexivity.
Qed.

(** X2: the loop has no bound of its own.  When the first page is not
    empty and announces more data, and the data node answers every
    fetch-more request with a success that announces more data again,
    [fetch_timeseries] never returns: whatever the fuel, it is used up. *)
Theorem fetch_timeseries_never_returns_when_always_more :
  forall (self : DataNodeClient) (query_body : string) (fetch_size timeout : Z)
         (w : World) (first : TFetchTimeseriesResp),
    fetchTimeseries net (clock w) (dn_target self)
                    (mkFetchReq query_body fetch_size timeout) = Reply first ->
    code (fts_status first) = SUCCESS_STATUS ->
    fts_tsDataset first <> [] ->
    first_rows first <> [] ->
    fts_hasMoreData first = true ->
    (forall t, exists p,
       fetchMoreData net t (dn_target self)
                     (mkMoreReq (fts_queryId first) fetch_size) = Reply p
       /\ code (fmd_status p) = SUCCESS_STATUS
       /\ fmd_hasMoreData p = true) ->
    forall fuel,
      fetch_timeseries fuel self query_body fetch_size timeout w = None.
Proof.
  intros self q fs to w first Hfirst Hst Hblocks Hrows Hmore Hnet fuel.
  unfold fetch_timeseries, call. fold (dn_target self).
  rewrite Hfirst, (verify_success_ok _ _ Hst).
  destruct (fts_tsDataset first) as [|b bs] eqn:Eb; [congruence|].
  cbn [List.length]. rewrite Nat2Z.inj_succ.
  destruct (Z.succ (Z.of_nat (List.length bs)) =? 0) eqn:E0; [apply Z.eqb_eq in E0; lia|].
  rewrite <- Eb. fold (first_rows first).
  destruct (first_rows first) as [|r rs] eqn:Er; [congruence|].
  cbn [df_empty]. rewrite <- Er, Hmore.
  generalize (first_rows first) as data.
  generalize (mkWorld (S (clock w)) (open_transports w)
                      (trace w ++ [EvCall FetchTimeseries (dn_target self)])) as w1.
  induction fuel as [|fuel IH]; intros w1 data; [reflexivity|].
  cbn [fetch_more_loop]. unfold call. fold (dn_target self).
  destruct (Hnet (clock w1)) as (p & Hp & Hs & Hm).
  rewrite Hp, (verify_success_ok _ _ Hs), Hm. apply IH.
Qed.

(** The later calls of a query: only fetch-more requests to one node. *)
Lemma fetch_more_loop_trace (self : DataNodeClient) (qid fs : Z)
    (cn : list string) (ct : list ColumnType) (cm : list (string * Z)) :
  forall (fuel : nat) (more : bool) (data : DataFrame) (w w' : World)
         (r : Result DataFrame),
    fetch_more_loop fuel self qid fs cn ct cm more data w = Some (r, w') ->
    open_transports w' = open_transports w
    /\ exists n, (n <= fuel)%nat
         /\ trace w' = trace w ++ repeat (EvCall FetchMoreData (dn_target self)) n
         /\ clock w' = (clock w + n)%nat.
Proof.
  induction fuel as [|fuel IH]; intros more data w w' r H.
  - cbn [fetch_more_loop] in H. destruct more; [discriminate|].
    injection H as _ <-. split; [reflexivity|]. exists 0%nat.
    cbn [repeat]. rewrite app_nil_r, Nat.add_0_r. auto.
  - cbn [fetch_more_loop] in H. destruct more.
    2:{ injection H as _ <-. split; [reflexivity|]. exists 0%nat.
        cbn [repeat]. rewrite app_nil_r, Nat.add_0_r. split; [lia | auto]. }
    unfold call in H. fold (dn_target self) in H.
    set (w1 := mkWorld (S (clock w)) (open_transports w)
                       (trace w ++ [EvCall FetchMoreData (dn_target self)])) in *.
    assert (Hone : open_transports w1 = open_transports w
                   /\ exists n, (n <= S fuel)%nat
                        /\ trace w1 = trace w
                                      ++ repeat (EvCall FetchMoreData (dn_target self)) n
                        /\ clock w1 = (clock w + n)%nat).
    { split; [reflexivity|]. exists 1%nat. cbn. split; [lia|]. split; [reflexivity | lia]. }
    destruct (fetchMoreData net (clock w) (dn_target self) (mkMoreReq qid fs)) as [p|e].
    + destruct (verify_success (fmd_status p) _) as [e|].
      * injection H as _ <-. exact Hone.
      * destruct (IH _ _ _ _ _ H) as [Ho (n & Hn & Ht & Hc)].
        split; [rewrite Ho; reflexivity|]. exists (S n). split; [lia|].
        rewrite Ht, Hc. cbn [w1 trace clock repeat]. rewrite <- app_assoc.
        split; [reflexivity | lia].
    + injection H as _ <-. exact Hone.
Qed.

(** X3: a query talks to one node only.  The client the factory builds
    targets the configured data node, and whatever a call of
    [fetch_timeseries] on a client ends with, what it did is one
    open-query call followed by fetch-more calls, all to the node of that
    client: it opens no connection, closes none, and never turns to
    another node. *)
Theorem fetch_timeseries_single_endpoint :
  (forall (w w' : World) (c : DataNodeClient),
     borrow_data_node_client ClientManager_init w = (Ok c, w') ->
     dn_target c = get_mn_target_data_node descriptor
     /\ accepts net (clock w) (get_mn_target_data_node descriptor) = true)
  /\ (forall (fuel : nat) (self : DataNodeClient) (query_body : string)
             (fetch_size timeout : Z) (w w' : World) (r : Result DataFrame),
        fetch_timeseries fuel self query_body fetch_size timeout w = Some (r, w') ->
        open_transports w' = open_transports w
        /\ exists n,
             trace w' = trace w ++ EvCall FetchTimeseries (dn_target self)
                                :: repeat (EvCall FetchMoreData (dn_target self)) n).
Proof.
  split.
  - intros w w' c H.
    unfold borrow_data_node_client, ClientManager_init, DataNodeClient_init in H.
    cbn [data_node_endpoint] in H. unfold transport_open in H.
    assert (Heta : mkEndPoint (ip (get_mn_target_data_node descriptor))
                              (port (get_mn_target_data_node descriptor))
                   = get_mn_target_data_node descriptor)
      by (destruct (get_mn_target_data_node descriptor); reflexivity).
    rewrite Heta in H.
    destruct (accepts net (clock w) (get_mn_target_data_node descriptor));
      [|discriminate].
    injection H as <- _. split; [|reflexivity].
    unfold dn_target. cbn [dn_client]. apply peer_make_protocol.
  - intros fuel self q fs to w w' r H.
    unfold fetch_timeseries, call in H. fold (dn_target self) in H.
    set (w1 := mkWorld (S (clock w)) (open_transports w)
                       (trace w ++ [EvCall FetchTimeseries (dn_target self)])) in *.
    assert (Hone : open_transports w1 = open_transports w
                   /\ exists n,
                        trace w1 = trace w ++ EvCall FetchTimeseries (dn_target self)
                                     :: repeat (EvCall FetchMoreData (dn_target self)) n).
    { split; [reflexivity|]. exists 0%nat. reflexivity. }
    destruct (fetchTimeseries net (clock w) (dn_target self) (mkFetchReq q fs to))
      as [first|e].
    2:{ injection H as _ <-. exact Hone. }
    destruct (verify_success (fts_status first) _) as [e|].
    { injection H as _ <-. exact Hone. }
    destruct (Z.of_nat (List.length (fts_tsDataset first)) =? 0).
    { injection H as _ <-. exact Hone. }
    destruct (df_empty _).
    { injection H as _ <-. exact Hone. }
    destruct (fetch_more_loop_trace _ _ _ _ _ _ _ _ _ _ _ _ H) as [Ho (n & _ & Ht & _)].
    split; [rewrite Ho; reflexivity|]. exists n.
    rewrite Ht. cbn [w1 trace]. rewrite <- app_assoc. reflexivity.
Qed.

(** ** Invariants of [ConfigNodeClient] *)

(** A property of states that every elementary step keeps is kept by the
    resolution step, by the wait-and-reconnect step and by every
    operation. *)
Section Preservation.

Variable P : State -> Prop.
Hypothesis P_accepted : forall e s, P s -> P (accepted e s).
Hypothesis P_refused : forall e s, P s -> P (refused e s).
Hypothesis P_lead : forall v s, P s -> P (lead v s).
Hypothesis P_release : forall s, P s -> P (release s).
Hypothesis P_advance : forall s, config_nodes (self s) <> [] -> P s -> P (advance s).
Hypothesis P_slept : forall s, P s -> P (slept s).
Hypothesis P_called : forall m p s, P s -> P (called m p s).
Hypothesis P_refreshed :
  forall (Resp : Type) (members : option (Resp -> list TEndPoint)) (resp : Resp) s,
    P s -> P (refreshed members resp s).

Lemma try_hosts_preserves :
  forall (left : nat) (s : State),
    (left = 0%nat \/ config_nodes (self s) <> []) ->
    P s -> P (snd (try_hosts left s)).
Proof.
  induction left as [|left IH]; intros s Hne Hs.
  - exact Hs.
  - destruct Hne as [Hne|Hne]; [discriminate|].
    rewrite try_hosts_step by exact Hne.
    destruct (accepts net (clock (world s)) (current (advance s))).
    + cbn [snd]. apply P_accepted, P_advance; assumption.
    + apply IH; [right; exact Hne|]. apply P_refused, P_advance; assumption.
Qed.

Lemma try_to_connect_preserves (s : State) : P s -> P (snd (try_to_connect s)).
Proof.
  intros Hs. rewrite try_to_connect_run.
  destruct (config_leader (self s)) as [l|].
  - destruct (accepts net (clock (world s)) l).
    + cbn [snd]. now apply P_accepted.
    + pose proof (Frame_release (lead None (refused l s))) as Fr.
      apply try_hosts_preserves.
      * rewrite (frame_nodes _ _ Fr). cbn [lead refused self config_nodes].
        apply nodes_empty_or_not.
      * apply P_release, P_lead, P_refused. exact Hs.
  - pose proof (Frame_release s) as Fr.
    apply try_hosts_preserves.
    + rewrite (frame_nodes _ _ Fr). apply nodes_empty_or_not.
    + apply P_release. exact Hs.
Qed.

Lemma wait_and_reconnect_preserves (s : State) :
  P s -> P (snd (wait_and_reconnect s)).
Proof.
  intros Hs. rewrite wait_and_reconnect_run.
  pose proof (try_to_connect_preserves (slept s) (P_slept s Hs)) as H1.
  destruct (try_to_connect (slept s)) as [[a|e] s']; cbn [snd] in *; [exact H1|].
  destruct (is_TException e); [|exact H1].
  now apply try_to_connect_preserves.
Qed.

Lemma op_attempt_preserves {Req Resp A : Type} (o : Operation Req Resp A)
    (req : Req) (s : State) :
  P s -> P (snd (op_attempt o req s)).
Proof.
  intros Hs. destruct (client (self s)) as [p|] eqn:Hp.
  - rewrite (op_attempt_run o req s p Hp). cbv zeta.
    assert (Hrec : forall v,
              P (snd (@reconnect_then_next A (lead v (called (op_method o) p s))))).
    { intros v. unfold reconnect_then_next.
      pose proof (wait_and_reconnect_preserves
                    (lead v (called (op_method o) p s))
                    (P_lead v _ (P_called (op_method o) p s Hs))) as H.
      destruct (wait_and_reconnect _) as [[[]|e] s']; exact H. }
    destruct (op_rpc o (clock (world s)) (peer (protocol_transport p)) req) as [resp|e].
    + destruct (code (op_status o resp) =? REDIRECTION_RECOMMEND); [apply Hrec|].
      destruct (code (op_status o resp) =? SUCCESS_STATUS); cbn [snd].
      * apply P_refreshed, P_called. exact Hs.
      * apply P_called. exact Hs.
    + destruct (is_TException e); [apply Hrec|]. cbn [snd]. apply P_called. exact Hs.
  - rewrite (op_attempt_no_client o req s Hp). exact Hs.
Qed.

Lemma op_run_preserves {Req Resp A : Type} (o : Operation Req Resp A) (req : Req) :
  forall (n : nat) (s : State), P s -> P (snd (op_run n o req s)).
Proof.
  induction n as [|n IH]; intros s Hs.
  - exact Hs.
  - rewrite op_run_S.
    pose proof (op_attempt_preserves o req s Hs) as H1.
    destruct (op_attempt o req s) as [[[a|]|e] s']; cbn [snd] in *.
    + exact H1.
    + apply IH. exact H1.
    + exact H1.
Qed.

End Preservation.

Lemma release_without_transport (s : State) :
  transport (self s) = None -> release s = s.
Proof. intros H. unfold release. rewrite H. reflexivity. Qed.

(** What the constructor returns, when it returns. *)
Lemma ConfigNodeClient_init_ok (leader : option TEndPoint) (w w' : World)
    (c : ConfigNodeClient) :
  ConfigNodeClient_init leader w = (Ok c, w') ->
  exists l,
    leader = Some l
    /\ accepts net (clock w) l = true
    /\ mkState c w' = accepted l (mkState (mkConfigNodeClient (Some l) [] 0 None None) w).
Proof.
  unfold ConfigNodeClient_init. rewrite try_to_connect_run.
  cbn [self world config_leader config_nodes List.length].
  destruct leader as [l|].
  - destruct (accepts net (clock w) l) eqn:Ea.
    + intros H. injection H as <- <-. exists l. auto.
    + cbn [try_hosts]. unfold raise. discriminate.
  - cbn [try_hosts]. unfold raise. discriminate.
Qed.

Definition is_close (ev : Event) : bool :=
  match ev with EvClose _ => true | _ => false end.

(** Number of calls of [close()] in a history. *)
Definition closes (l : list Event) : nat := List.length (filter is_close l).

Lemma closes_app (l1 l2 : list Event) : closes (l1 ++ l2) = (closes l1 + closes l2)%nat.
Proof. unfold closes. rewrite filter_app, length_app. reflexivity. Qed.

(** Since [s0], [close()] was not called. *)
Definition Unclosed (s0 s : State) : Prop :=
  transport (self s) = None
  /\ closes (trace (world s)) = closes (trace (world s0)).

Lemma op_run_unclosed {Req Resp A : Type} (o : Operation Req Resp A) (req : Req)
    (n : nat) (s0 : State) :
  transport (self s0) = None -> Unclosed s0 (snd (op_run n o req s0)).
Proof.
  intros H0. apply (op_run_preserves (Unclosed s0)).
  - intros e s [Ht Hc]. split; [exact Ht|].
    cbn [accepted world trace]. rewrite closes_app, Hc. cbn. lia.
  - intros e s [Ht Hc]. split; [exact Ht|].
    cbn [refused world trace]. rewrite closes_app, Hc. cbn. lia.
  - intros v s H. exact H.
  - intros s H. rewrite release_without_transport; [exact H | apply H].
  - intros s _ H. exact H.
  - intros s [Ht Hc]. split; [exact Ht|].
    cbn [slept log world trace]. rewrite closes_app, Hc. cbn. lia.
  - intros m p s [Ht Hc]. split; [exact Ht|].
    cbn [called world trace]. rewrite closes_app, Hc. cbn. lia.
  - intros Resp0 members resp s H. unfold refreshed. destruct members; exact H.
  - split; [exact H0 | reflexivity].
Qed.

(** X5: the client never calls [close()].  In every reachable state the
    [transport] field is still [None], so the guarded close of the
    resolution step never runs, and over any operation started in a
    reachable state the history gains no close: a connection is given up
    only by replacing the stub that holds it. *)
Theorem close_is_never_called :
  forall (s : State),
    reachable s ->
    transport (self s) = None
    /\ (forall cluster_name configuration version_info,
          Unclosed s (snd (node_register cluster_name configuration version_info s)))
    /\ (forall cluster_name configuration version_info,
          Unclosed s (snd (node_restart cluster_name configuration version_info s)))
    /\ (forall location, Unclosed s (snd (node_remove location s)))
    /\ (forall node_id, Unclosed s (snd (get_ainode_configuration node_id s))).
Proof.
  intros s Hr. destruct (reachable_invariant s Hr) as (_ & Ht & _).
  split; [exact Ht|]. split; [|split; [|split]].
  - intros cn cf vi.
    exact (op_run_unclosed register_op (mkRegisterReq cn cf vi) RETRY_NUM s Ht).
  - intros cn cf vi.
    exact (op_run_unclosed restart_op (mkRestartReq cn cf vi) RETRY_NUM s Ht).
  - intros loc. exact (op_run_unclosed remove_op (mkRemoveReq loc) RETRY_NUM s Ht).
  - intros id. exact (op_run_unclosed configuration_op id RETRY_NUM s Ht).
Qed.

Lemma Transport_eqb_refl (t : Transport) : Transport_eqb t t = true.
Proof.
  unfold Transport_eqb, TEndPoint_eqb.
  rewrite Nat.eqb_refl, String.eqb_refl, Z.eqb_refl. reflexivity.
Qed.

Lemma Transport_eqb_eq (a b : Transport) : Transport_eqb a b = true -> a = b.
Proof.
  destruct a as [ta [ia pa]], b as [tb [ib pb]].
  unfold Transport_eqb, TEndPoint_eqb. cbn [tid peer ip port].
  intros H. apply andb_prop in H. destruct H as [H1 H2].
  apply andb_prop in H2. destruct H2 as [H2 H3].
  apply Nat.eqb_eq in H1. apply String.eqb_eq in H2. apply Z.eqb_eq in H3.
  subst. reflexivity.
Qed.

Lemma protocol_transport_make_protocol (t : Transport) :
  protocol_transport (make_protocol t) = t.
Proof.
  unfold make_protocol.
  destruct (get_ain_thrift_compression_enabled descriptor); reflexivity.
Qed.

(** The stub is built on a transport that is open, with the encoding the
    configuration selects. *)
Definition Wired (s : State) : Prop :=
  transport (self s) = None
  /\ exists t, client (self s) = Some (make_protocol t)
               /\ In t (open_transports (world s)).

Lemma Wired_kept_by_steps :
  (forall e s, Wired s -> Wired (accepted e s))
  /\ (forall e s, Wired s -> Wired (refused e s))
  /\ (forall v s, Wired s -> Wired (lead v s))
  /\ (forall s, Wired s -> Wired (release s))
  /\ (forall s, config_nodes (self s) <> [] -> Wired s -> Wired (advance s))
  /\ (forall s, Wired s -> Wired (slept s))
  /\ (forall m p s, Wired s -> Wired (called m p s))
  /\ (forall (Resp : Type) (members : option (Resp -> list TEndPoint)) (resp : Resp) s,
        Wired s -> Wired (refreshed members resp s)).
Proof.
  split; [|split; [|split; [|split; [|split; [|split; [|split]]]]]].
  - intros e s [Ht [t0 [Hc Hin]]]. split; [exact Ht|].
    eexists. split; [reflexivity|].
    cbn [accepted world open_transports]. unfold replaced. rewrite Hc.
    rewrite protocol_transport_make_protocol. cbn [remove_first].
    destruct (Transport_eqb t0 (mkTransport (clock (world s)) e)) eqn:E.
    + apply Transport_eqb_eq in E. rewrite <- E. exact Hin.
    + left. reflexivity.
  - intros e s H. exact H.
  - intros v s H. exact H.
  - intros s H. rewrite release_without_transport; [exact H | apply H].
  - intros s _ H. exact H.
  - intros s H. exact H.
  - intros m p s H. exact H.
  - intros Resp0 members resp s H. unfold refreshed. destruct members; exact H.
Qed.

(** X6: in every reachable state the client holds a stub, the transport
    under it is one of the open transports, and its encoding is the
    compact one exactly when the configuration enables compression. *)
Theorem stub_is_on_an_open_transport :
  forall (s : State),
    reachable s ->
    exists t,
      In t (open_transports (world s))
      /\ client (self s)
         = Some (if get_ain_thrift_compression_enabled descriptor
                 then TCompactProtocol t else TBinaryProtocol t).
Proof.
  intros s Hr.
  assert (Hw : Wired s).
  { destruct Wired_kept_by_steps as (W1 & W2 & W3 & W4 & W5 & W6 & W7 & W8).
    induction Hr as [leader w w' c Hinit
                    | s cn cf vi _ IH | s cn cf vi _ IH | s loc _ IH | s id _ IH].
    - destruct (ConfigNodeClient_init_ok leader w w' c Hinit) as (l & _ & _ & E).
      rewrite E. split; [reflexivity|].
      eexists. split; [reflexivity|]. left. reflexivity.
    - rewrite node_register_as_op. now apply (op_run_preserves Wired).
    - rewrite node_restart_as_op. now apply (op_run_preserves Wired).
    - rewrite node_remove_as_op. now apply (op_run_preserves Wired).
    - rewrite get_ainode_configuration_as_op. now apply (op_run_preserves Wired). }
  destruct Hw as [_ [t [Hc Hin]]]. exists t. split; [exact Hin|]. exact Hc.
Qed.

(** X4: the resolution step is safe for any state of the client, whatever
    the cursor, the member list (empty or not) and the presumed leader.
    It returns, or it raises the reconnection failure and nothing else (no
    index out of range, no division by zero); it leaves the member list
    as it is and issues no remote call; when it returns there is a stub.
    The same holds of the wait-and-reconnect step. *)
Theorem resolution_returns_or_raises_unreachable :
  forall (s : State),
    ((fst (try_to_connect s) = Ok tt
      \/ fst (try_to_connect s) = Raise (TException MSG_RECONNECTION_FAIL))
     /\ config_nodes (self (snd (try_to_connect s))) = config_nodes (self s)
     /\ calls (trace (world (snd (try_to_connect s)))) = calls (trace (world s))
     /\ (fst (try_to_connect s) = Ok tt ->
         client (self (snd (try_to_connect s))) <> None))
    /\ ((fst (wait_and_reconnect s) = Ok tt
         \/ fst (wait_and_reconnect s) = Raise (TException MSG_RECONNECTION_FAIL))
        /\ config_nodes (self (snd (wait_and_reconnect s))) = config_nodes (self s)
        /\ calls (trace (world (snd (wait_and_reconnect s)))) = calls (trace (world s))
        /\ (fst (wait_and_reconnect s) = Ok tt ->
            client (self (snd (wait_and_reconnect s))) <> None)).
Proof.
  intros s. split.
  - destruct (try_to_connect_frame s) as [F [R C]].
    split; [exact R|]. split; [apply (frame_nodes _ _ F)|]. split; [|exact C].
    destruct (frame_trace _ _ F) as [evs [Ht Hc]]. rewrite Ht, calls_app, Hc. lia.
  - destruct (wait_and_reconnect_frame s) as [F [R C]].
    split; [exact R|]. split; [apply (frame_nodes _ _ F)|]. split; [|exact C].
    destruct (frame_trace _ _ F) as [evs [Ht Hc]]. rewrite Ht, calls_app, Hc. lia.
Qed.

(** ** One connection at a time *)

(** Besides the transports [rest], the one transport that is open is the
    one the stub is built on. *)
Definition Single (rest : list Transport) (s : State) : Prop :=
  transport (self s) = None
  /\ exists t, client (self s) = Some (make_protocol t)
               /\ open_transports (world s) = t :: rest.

Lemma replaced_single (t t' : Transport) (rest : list Transport) (s : State) :
  client (self s) = Some (make_protocol t) ->
  open_transports (world s) = t :: rest ->
  replaced t' s = t' :: rest.
Proof.
  intros Hc Ho. unfold replaced. rewrite Hc, Ho, protocol_transport_make_protocol.
  cbn [remove_first].
  destruct (Transport_eqb t t') eqn:E.
  - apply Transport_eqb_eq in E. rewrite E. reflexivity.
  - rewrite Transport_eqb_refl. reflexivity.
Qed.

Lemma Single_kept_by_steps (rest : list Transport) :
  (forall e s, Single rest s -> Single rest (accepted e s))
  /\ (forall e s, Single rest s -> Single rest (refused e s))
  /\ (forall v s, Single rest s -> Single rest (lead v s))
  /\ (forall s, Single rest s -> Single rest (release s))
  /\ (forall s, config_nodes (self s) <> [] -> Single rest s -> Single rest (advance s))
  /\ (forall s, Single rest s -> Single rest (slept s))
  /\ (forall m p s, Single rest s -> Single rest (called m p s))
  /\ (forall (Resp : Type) (members : option (Resp -> list TEndPoint)) (resp : Resp) s,
        Single rest s -> Single rest (refreshed members resp s)).
Proof.
  split; [|split; [|split; [|split; [|split; [|split; [|split]]]]]].
  - intros e s [Ht [t0 [Hc Ho]]]. split; [exact Ht|].
    eexists. split; [reflexivity|].
    cbn [accepted world open_transports]. exact (replaced_single _ _ _ _ Hc Ho).
  - intros e s H. exact H.
  - intros v s H. exact H.
  - intros s H. rewrite release_without_transport; [exact H | apply H].
  - intros s _ H. exact H.
  - intros s H. exact H.
  - intros m p s H. exact H.
  - intros Resp0 members resp s H. unfold refreshed. destruct members; exact H.
Qed.

(** The states of a client that was built in the world [w0]. *)
Inductive reachable_from (w0 : World) : State -> Prop :=
| from_init (leader : option TEndPoint) (w' : World) (c : ConfigNodeClient) :
    ConfigNodeClient_init leader w0 = (Ok c, w') -> reachable_from w0 (mkState c w')
| from_register (s : State) (cluster_name : string)
    (configuration : TAINodeConfiguration) (version_info : TNodeVersionInfo) :
    reachable_from w0 s ->
    reachable_from w0 (snd (node_register cluster_name configuration version_info s))
| from_restart (s : State) (cluster_name : string)
    (configuration : TAINodeConfiguration) (version_info : TNodeVersionInfo) :
    reachable_from w0 s ->
    reachable_from w0 (snd (node_restart cluster_name configuration version_info s))
| from_remove (s : State) (location : TAINodeLocation) :
    reachable_from w0 s -> reachable_from w0 (snd (node_remove location s))
| from_configuration (s : State) (node_id : Z) :
    reachable_from w0 s -> reachable_from w0 (snd (get_ainode_configuration node_id s)).

Lemma reachable_from_single (w0 : World) (s : State) :
  reachable_from w0 s -> Single (open_transports w0) s.
Proof.
  destruct (Single_kept_by_steps (open_transports w0))
    as (W1 & W2 & W3 & W4 & W5 & W6 & W7 & W8).
  induction 1 as [leader w' c Hinit
                 | s cn cf vi _ IH | s cn cf vi _ IH | s loc _ IH | s id _ IH].
  - destruct (ConfigNodeClient_init_ok leader w0 w' c Hinit) as (l & _ & _ & E).
    rewrite E. split; [reflexivity|].
    eexists. split; reflexivity.
  - rewrite node_register_as_op.
    now apply (op_run_preserves (Single (open_transports w0))).
  - rewrite node_restart_as_op.
    now apply (op_run_preserves (Single (open_transports w0))).
  - rewrite node_remove_as_op.
    now apply (op_run_preserves (Single (open_transports w0))).
  - rewrite get_ainode_configuration_as_op.
    now apply (op_run_preserves (Single (open_transports w0))).
Qed.

(** C9: a client holds one open connection at a time.  In every state a
    client built in the world [w0] can reach, the open transports are
    those that were open before it was built and exactly one more, the
    one its stub is on.  Whenever it connects to a new endpoint, the
    transport of the stub it replaces is gone once the new stub is bound,
    and a refused connection leaves the open transports as they were. *)
Theorem one_open_transport_at_a_time :
  forall (w0 : World) (s : State),
    reachable_from w0 s ->
    (exists t,
       client (self s) = Some (make_protocol t)
       /\ open_transports (world s) = t :: open_transports w0)
    /\ (forall target,
          accepts net (clock (world s)) target = true ->
          fst (connect target s) = Ok tt
          /\ client (self (snd (connect target s)))
             = Some (make_protocol (mkTransport (clock (world s)) target))
          /\ open_transports (world (snd (connect target s)))
             = mkTransport (clock (world s)) target :: open_transports w0)
    /\ (forall target,
          accepts net (clock (world s)) target = false ->
          client (self (snd (connect target s))) = client (self s)
          /\ open_transports (world (snd (connect target s)))
             = open_transports (world s)).
Proof.
  intros w0 s Hr. destruct (reachable_from_single w0 s Hr) as [Ht [t [Hc Ho]]].
  split; [exists t; split; assumption|]. split.
  - intros target Ha. rewrite connect_run, Ha. cbn [fst snd accepted self world client
      open_transports].
    split; [reflexivity|]. split; [reflexivity|].
    exact (replaced_single _ _ _ _ Hc Ho).
  - intros target Ha. rewrite connect_run, Ha. split; reflexivity.
Qed.

(** ** Further properties of the operations *)

(** X10: the constructor returns a client exactly when a leader is given
    and accepts the connection; the client then has that leader, no
    member, the cursor at 0 and a stub on the one transport it opened.  In
    every other case it raises the reconnection failure and leaves no
    transport open; without a leader it does not even try to connect. *)
Theorem constructor_outcomes :
  forall (leader : option TEndPoint) (w : World),
    (forall c w',
       ConfigNodeClient_init leader w = (Ok c, w') <->
       exists l,
         leader = Some l
         /\ accepts net (clock w) l = true
         /\ c = mkConfigNodeClient (Some l) [] 0 None
                  (Some (make_protocol (mkTransport (clock w) l)))
         /\ w' = mkWorld (S (clock w)) (mkTransport (clock w) l :: open_transports w)
                         (trace w ++ [EvOpen l true]))
    /\ (forall e w',
          ConfigNodeClient_init leader w = (Raise e, w') ->
          e = TException MSG_RECONNECTION_FAIL
          /\ open_transports w' = open_transports w)
    /\ (leader = None ->
        ConfigNodeClient_init leader w = (Raise (TException MSG_RECONNECTION_FAIL), w)).
Proof.
  intros leader w. split; [|split].
  - intros c w'. split.
    + intros H. destruct (ConfigNodeClient_init_ok leader w w' c H) as (l & Hl & Ha & E).
      exists l. split; [exact Hl|]. split; [exact Ha|].
      unfold accepted in E. cbn [self world config_leader config_nodes cursor transport
        clock open_transports trace] in E.
      injection E as -> ->. split; reflexivity.
    + intros (l & -> & Ha & -> & ->).
      unfold ConfigNodeClient_init. rewrite try_to_connect_run.
      cbn [self world config_leader]. rewrite Ha. reflexivity.
  - intros e w'. unfold ConfigNodeClient_init. rewrite try_to_connect_run.
    cbn [self world config_leader config_nodes List.length].
    destruct leader as [l|].
    + destruct (accepts net (clock w) l); [discriminate|].
      cbn. intros H. injection H as <- <-. split; reflexivity.
    + cbn. intros H. injection H as <- <-. split; reflexivity.
  - intros ->. unfold ConfigNodeClient_init. rewrite try_to_connect_run.
    reflexivity.
Qed.

(** What an operation can raise. *)
Definition raises_only {Req Resp A : Type} (o : Operation Req Resp A) (req : Req)
    (run : M A) : Prop :=
  forall (s : State) (e : Exception),
    client (self s) <> None ->
    fst (run s) = Raise e ->
    e = TException MSG_RECONNECTION_FAIL
    \/ (exists t ep, op_rpc o t ep req = Throw e /\ is_TException e = false)
    \/ (exists t ep resp,
          op_rpc o t ep req = Reply resp
          /\ code (op_status o resp) <> REDIRECTION_RECOMMEND
          /\ verify_success (op_status o resp) (op_err_msg o) = Some e).

Lemma op_run_raises_only {Req Resp A : Type} (o : Operation Req Resp A) (req : Req) :
  forall (n : nat), raises_only o req (op_run n o req).
Proof.
  induction n as [|n IH]; intros s e Hc He.
  - rewrite op_run_0 in He. injection He as <-. left. reflexivity.
  - rewrite op_run_S in He.
    destruct (client (self s)) as [p|] eqn:Hp; [clear Hc | congruence].
    rewrite (op_attempt_run o req s p Hp) in He. cbv zeta in He.
    set (s1 := called (op_method o) p s) in *.
    assert (Hrec : forall v,
              fst (match @reconnect_then_next A (lead v s1) with
                   | (Ok (Return a), s') => (Ok a, s')
                   | (Ok Next, s') => op_run n o req s'
                   | (Raise e0, s') => (Raise e0, s')
                   end) = Raise e ->
              e = TException MSG_RECONNECTION_FAIL
              \/ (exists t ep, op_rpc o t ep req = Throw e /\ is_TException e = false)
              \/ (exists t ep resp,
                    op_rpc o t ep req = Reply resp
                    /\ code (op_status o resp) <> REDIRECTION_RECOMMEND
                    /\ verify_success (op_status o resp) (op_err_msg o) = Some e)).
    { intros v H. destruct (@reconnect_then_next_spec A (lead v s1)) as [_ HS].
      destruct (@reconnect_then_next A (lead v s1)) as [[[a|]|e0] s']; cbn [fst snd] in *.
      - discriminate.
      - destruct HS as [[_ HS]|HS]; [|discriminate]. exact (IH s' e HS H).
      - destruct HS as [[HS _]|HS]; [discriminate|].
        injection HS as ->. injection H as <-. left. reflexivity. }
    destruct (op_rpc o (clock (world s)) (peer (protocol_transport p)) req)
      as [resp|e0] eqn:Hrpc.
    + destruct (code (op_status o resp) =? REDIRECTION_RECOMMEND) eqn:Er;
        [exact (Hrec _ He)|].
      destruct (code (op_status o resp) =? SUCCESS_STATUS) eqn:Es;
        cbn [fst] in He; [discriminate|].
      injection He as <-. right. right.
      exists (clock (world s)), (peer (protocol_transport p)), resp.
      split; [exact Hrpc|]. split; [now apply Z.eqb_neq|].
      unfold verify_success. rewrite Es. reflexivity.
    + destruct (is_TException e0) eqn:Et; [exact (Hrec _ He)|].
      cbn [fst] in He. injection He as <-. right. left.
      exists (clock (world s)), (peer (protocol_transport p)). auto.
Qed.

(** X11: what an operation raises is one of three things: the
    reconnection failure; an exception of the stub that is not a thrift
    exception; or what [verify_success] raises on the status of a response
    that is not a redirect.  In particular no operation of a client that
    has a stub raises an index, division or attribute error. *)
Theorem operations_raise_only_three_kinds :
  (forall cluster_name configuration version_info,
     raises_only register_op
       (mkRegisterReq cluster_name configuration version_info)
       (node_register cluster_name configuration version_info))
  /\ (forall cluster_name configuration version_info,
        raises_only restart_op
          (mkRestartReq cluster_name configuration version_info)
          (node_restart cluster_name configuration version_info))
  /\ (forall location,
        raises_only remove_op (mkRemoveReq location) (node_remove location))
  /\ (forall node_id,
        raises_only configuration_op node_id (get_ainode_configuration node_id)).
Proof.
  split; [|split; [|split]].
  - intros cn cf vi. exact (op_run_raises_only register_op _ RETRY_NUM).
  - intros cn cf vi. exact (op_run_raises_only restart_op _ RETRY_NUM).
  - intros loc. exact (op_run_raises_only remove_op _ RETRY_NUM).
  - intros id. exact (op_run_raises_only configuration_op _ RETRY_NUM).
Qed.

(** An attempt answered at once by a definitive success. *)
Definition answered_at_once {Req Resp A : Type} (o : Operation Req Resp A) (req : Req)
    (run : M A) : Prop :=
  forall (s : State) (p : Protocol) (resp : Resp),
    client (self s) = Some p ->
    op_rpc o (clock (world s)) (peer (protocol_transport p)) req = Reply resp ->
    definitive_success (op_status o resp) ->
    trace (world (snd (run s)))
    = trace (world s) ++ [EvCall (op_method o) (peer (protocol_transport p))]
    /\ open_transports (world (snd (run s))) = open_transports (world s)
    /\ clock (world (snd (run s))) = S (clock (world s))
    /\ config_leader (self (snd (run s))) = config_leader (self s)
    /\ cursor (self (snd (run s))) = cursor (self s)
    /\ client (self (snd (run s))) = client (self s).

Lemma op_run_answered_at_once {Req Resp A : Type} (o : Operation Req Resp A)
    (req : Req) :
  answered_at_once o req (op_run RETRY_NUM o req).
Proof.
  intros s p resp Hp Hr Hd. unfold RETRY_NUM.
  rewrite (op_run_first_success o req _ s p resp Hp Hr Hd). cbn [snd].
  unfold refreshed.
  destruct (op_members o); repeat (split; [reflexivity|]); reflexivity.
Qed.

(** X12: a call that is answered at once by a definitive success costs
    one remote call and nothing else: no wait, no connection opened or
    closed, and the presumed leader, the cursor and the stub are what they
    were. *)
Theorem success_at_once_touches_nothing :
  (forall cluster_name configuration version_info,
     answered_at_once register_op
       (mkRegisterReq cluster_name configuration version_info)
       (node_register cluster_name configuration version_info))
  /\ (forall cluster_name configuration version_info,
        answered_at_once restart_op
          (mkRestartReq cluster_name configuration version_info)
          (node_restart cluster_name configuration version_info))
  /\ (forall location,
        answered_at_once remove_op (mkRemoveReq location) (node_remove location))
  /\ (forall node_id,
        answered_at_once configuration_op node_id (get_ainode_configuration node_id)).
Proof.
  split; [|split; [|split]].
  - intros cn cf vi. exact (op_run_answered_at_once register_op _).
  - intros cn cf vi. exact (op_run_answered_at_once restart_op _).
  - intros loc. exact (op_run_answered_at_once remove_op _).
  - intros id. exact (op_run_answered_at_once configuration_op _).
Qed.

(** A chain of exactly [RETRY_NUM] redirects, each naming an endpoint that
    accepts. *)
Definition exhausted_at_last_leader {Req Resp A : Type} (o : Operation Req Resp A)
    (req : Req) (run : M A) : Prop :=
  forall (s : State) (p : Protocol) (es : list TEndPoint),
    client (self s) = Some p ->
    List.length es = RETRY_NUM ->
    redirect_chain o req (clock (world s)) (peer (protocol_transport p)) es ->
    exists s' p',
      run s = (Raise (TException MSG_RECONNECTION_FAIL), s')
      /\ config_leader (self s') = Some (last es no_endpoint)
      /\ client (self s') = Some p'
      /\ peer (protocol_transport p') = last es no_endpoint
      /\ config_nodes (self s') = config_nodes (self s)
      /\ trace (world s')
         = trace (world s)
           ++ redirect_events (op_method o) (peer (protocol_transport p)) es.

Lemma op_run_exhausted_at_last_leader {Req Resp A : Type} (o : Operation Req Resp A)
    (req : Req) :
  exhausted_at_last_leader o req (op_run RETRY_NUM o req).
Proof.
  intros s p es Hp Hlen Hchain.
  destruct (op_run_chain o req es 0 s p Hp Hchain)
    as (s' & p' & Hrun & Hc' & Hpe & _ & Hld & Hnd & Htr).
  rewrite Nat.add_0_r, Hlen in Hrun. rewrite op_run_0 in Hrun.
  exists s', p'. split; [exact Hrun|].
  destruct es as [|l es]; [discriminate|].
  split; [exact Hld|]. split; [exact Hc'|].
  split; [rewrite Hpe; apply last_nonempty_default|].
  split; [exact Hnd | exact Htr].
Qed.

(** X9: when a call uses up its budget on redirects, each naming an
    endpoint that accepts, it raises the reconnection failure after
    [RETRY_NUM] calls, and the client is left with the endpoint named last
    as presumed leader and connected to it (the reconnection after the
    last attempt was made too), with its member list as it was. *)
Theorem exhausted_by_redirects_keeps_last_leader :
  (forall cluster_name configuration version_info,
     exhausted_at_last_leader register_op
       (mkRegisterReq cluster_name configuration version_info)
       (node_register cluster_name configuration version_info))
  /\ (forall cluster_name configuration version_info,
        exhausted_at_last_leader restart_op
          (mkRestartReq cluster_name configuration version_info)
          (node_restart cluster_name configuration version_info))
  /\ (forall location,
        exhausted_at_last_leader remove_op (mkRemoveReq location)
          (node_remove location))
  /\ (forall node_id,
        exhausted_at_last_leader configuration_op node_id
          (get_ainode_configuration node_id)).
Proof.
  split; [|split; [|split]].
  - intros cn cf vi. exact (op_run_exhausted_at_last_leader register_op _).
  - intros cn cf vi. exact (op_run_exhausted_at_last_leader restart_op _).
  - intros loc. exact (op_run_exhausted_at_last_leader remove_op _).
  - intros id. exact (op_run_exhausted_at_last_leader configuration_op _).
Qed.

(** ** Failover *)

Lemma self_release (s : State) : self (release s) = self s.
Proof. unfold release. destruct (transport (self s)); reflexivity. Qed.

Lemma cursor_after_full_cycle (cur : Z) (nodes : list TEndPoint) :
  nodes <> [] ->
  cursor_after cur nodes (List.length nodes) = cur mod Z.of_nat (List.length nodes).
Proof.
  destruct nodes as [|a l]; [congruence|]. intros _.
  cbn [List.length cursor_after]. unfold candidate. cbn [List.length].
  rewrite Nat2Z.inj_succ.
  replace (cur + 1 + Z.of_nat (List.length l))
    with (cur + 1 * Z.succ (Z.of_nat (List.length l))) by lia.
  apply Z_mod_plus_full.
Qed.

Lemma candidate_mod (cur : Z) (nodes : list TEndPoint) (j : nat) :
  nodes <> [] ->
  candidate (cur mod Z.of_nat (List.length nodes)) nodes j = candidate cur nodes j.
Proof.
  intros H. pose proof (length_pos nodes H) as Hn. unfold candidate.
  rewrite <- !Z.add_assoc. rewrite Z.add_mod_idemp_l by lia. reflexivity.
Qed.

(** X13: when no member accepts, the wait-and-reconnect step makes a second
    pass at once.  With no presumed leader and [N >= 1] members that all
    refuse, the first pass brings the cursor back to [cursor mod N], so the
    second pass probes the members in the same order; it stops at the
    first member that accepts then, and raises the reconnection failure
    after [2 N] refusals when none does. *)
Theorem wait_and_reconnect_makes_two_passes :
  forall (s : State),
    config_leader (self s) = None ->
    transport (self s) = None ->
    config_nodes (self s) <> [] ->
    let nodes := config_nodes (self s) in
    let cur := cursor (self s) in
    let N := List.length nodes in
    let t0 := clock (world s) in
    (forall j, (j < N)%nat ->
       accepts net (t0 + j)%nat (candidate_endpoint cur nodes j) = false) ->
    (forall k,
       (k < N)%nat ->
       (forall j, (j < k)%nat ->
          accepts net (t0 + N + j)%nat (candidate_endpoint cur nodes j) = false) ->
       accepts net (t0 + N + k)%nat (candidate_endpoint cur nodes k) = true ->
       exists s',
         wait_and_reconnect s = (Ok tt, s')
         /\ cursor (self s') = candidate cur nodes k
         /\ client (self s')
            = Some (make_protocol
                      (mkTransport (t0 + N + k)%nat (candidate_endpoint cur nodes k)))
         /\ trace (world s')
            = trace (world s) ++ EvSleep RETRY_INTERVAL_MS
                :: refusals cur nodes N ++ refusals cur nodes k
                ++ [EvOpen (candidate_endpoint cur nodes k) true])
    /\ ((forall j, (j < N)%nat ->
           accepts net (t0 + N + j)%nat (candidate_endpoint cur nodes j) = false) ->
        exists s',
          wait_and_reconnect s = (Raise (TException MSG_RECONNECTION_FAIL), s')
          /\ cursor (self s') = cur mod Z.of_nat N
          /\ trace (world s')
             = trace (world s) ++ EvSleep RETRY_INTERVAL_MS
                 :: refusals cur nodes N ++ refusals cur nodes N).
Proof.
  intros s Hl Ht Hne nodes cur N t0 Hfirst.
  set (s2 := slept s).
  set (s3 := scan_failed s2 N).
  assert (E1 : try_to_connect s2 = (Raise (TException MSG_RECONNECTION_FAIL), s3)).
  { rewrite try_to_connect_run.
    change (config_leader (self s2)) with (config_leader (self s)). rewrite Hl.
    rewrite release_without_transport by exact Ht.
    apply try_hosts_none; [right; exact Hne|]. exact Hfirst. }
  assert (Hcur3 : cursor (self s3) = cur mod Z.of_nat N).
  { unfold s3, scan_failed. cbn [self cursor]. apply cursor_after_full_cycle. exact Hne. }
  assert (Hend : forall j,
             candidate_endpoint (cursor (self s3)) (config_nodes (self s3)) j
             = candidate_endpoint cur nodes j).
  { intros j. rewrite Hcur3. unfold candidate_endpoint.
    change (config_nodes (self s3)) with nodes.
    unfold N. rewrite candidate_mod by exact Hne. reflexivity. }
  assert (Hrefusals : forall k,
             refusals (cursor (self s3)) (config_nodes (self s3)) k
             = refusals cur nodes k).
  { intros k. unfold refusals. apply map_ext. intros j.
    rewrite Hend. reflexivity. }
  assert (E2 : try_to_connect s3
               = try_hosts (List.length (config_nodes (self s3))) s3).
  { rewrite try_to_connect_run.
    change (config_leader (self s3)) with (config_leader (self s)). rewrite Hl.
    rewrite release_without_transport by exact Ht. reflexivity. }
  assert (Hrun : wait_and_reconnect s
                 = try_hosts (List.length (config_nodes (self s3))) s3).
  { rewrite wait_and_reconnect_run. fold s2. rewrite E1. cbn [is_TException].
    exact E2. }
  split.
  - intros k Hk Hrej Hacc. eexists. split.
    + rewrite Hrun. apply (try_hosts_found k).
      * exact Hne.
      * exact Hk.
      * intros j Hj. rewrite Hend. apply Hrej. exact Hj.
      * rewrite Hend. exact Hacc.
    + unfold scan_found. cbn [self world cursor client trace].
      rewrite Hrefusals, Hend.
      split; [|split].
      * rewrite Hcur3. unfold N. apply candidate_mod. exact Hne.
      * reflexivity.
      * unfold s3, scan_failed, s2, slept. cbn [world trace log self cursor config_nodes].
        rewrite <- !app_assoc. reflexivity.
  - intros Hrej. eexists. split.
    + rewrite Hrun. apply try_hosts_none; [right; exact Hne|].
      intros j Hj. rewrite Hend. apply Hrej. exact Hj.
    + unfold scan_failed at 1 2. cbn [self world cursor trace].
      rewrite Hrefusals. split.
      * change (List.length (config_nodes (self s3))) with N.
        rewrite Hcur3. fold nodes.
        rewrite (cursor_after_full_cycle _ nodes Hne). fold N.
        apply Z.mod_mod. pose proof (length_pos nodes Hne). unfold N. lia.
      * unfold s3, scan_failed, s2, slept. cbn [world trace log self cursor config_nodes].
        rewrite <- !app_assoc. reflexivity.
Qed.

(** The connection breaks during a call, the round-robin finds a member,
    and that member answers the retry with a definitive success. *)
Definition fails_over {Req Resp A : Type} (o : Operation Req Resp A) (req : Req)
    (run : M A) : Prop :=
  forall (s : State) (p : Protocol) (e : Exception) (k : nat) (resp : Resp),
    client (self s) = Some p ->
    transport (self s) = None ->
    config_nodes (self s) <> [] ->
    op_rpc o (clock (world s)) (peer (protocol_transport p)) req = Throw e ->
    is_TException e = true ->
    let nodes := config_nodes (self s) in
    let cur := cursor (self s) in
    let t1 := S (clock (world s)) in
    (k < List.length nodes)%nat ->
    (forall j, (j < k)%nat ->
       accepts net (t1 + j)%nat (candidate_endpoint cur nodes j) = false) ->
    accepts net (t1 + k)%nat (candidate_endpoint cur nodes k) = true ->
    op_rpc o (S (t1 + k)) (candidate_endpoint cur nodes k) req = Reply resp ->
    definitive_success (op_status o resp) ->
    exists s',
      run s = (Ok (op_payload o resp), s')
      /\ config_leader (self s') = None
      /\ cursor (self s') = candidate cur nodes k
      /\ client (self s')
         = Some (make_protocol (mkTransport (t1 + k)%nat (candidate_endpoint cur nodes k)))
      /\ config_nodes (self s')
         = match op_members o with
           | Some members => members resp
           | None => nodes
           end
      /\ trace (world s')
         = trace (world s)
           ++ EvCall (op_method o) (peer (protocol_transport p))
           :: EvSleep RETRY_INTERVAL_MS
           :: refusals cur nodes k
           ++ [EvOpen (candidate_endpoint cur nodes k) true;
               EvCall (op_method o) (candidate_endpoint cur nodes k)].

Lemma op_run_fails_over {Req Resp A : Type} (o : Operation Req Resp A) (req : Req) :
  fails_over o req (op_run RETRY_NUM o req).
Proof.
  intros s p e k resp Hp Ht Hne Hthrow Hthrift nodes cur t1 Hk Hrej Hacc Hreply Hdef.
  set (s2 := slept (lead None (called (op_method o) p s))).
  set (ek := candidate_endpoint cur nodes k).
  set (pk := make_protocol (mkTransport (t1 + k)%nat ek)).
  assert (E1 : wait_and_reconnect (lead None (called (op_method o) p s))
               = (Ok tt, scan_found s2 k)).
  { rewrite wait_and_reconnect_run. fold s2.
    assert (E : try_to_connect s2 = (Ok tt, scan_found s2 k)).
    { rewrite try_to_connect_run. cbn [s2 slept lead called self config_leader].
      rewrite release_without_transport by exact Ht.
      apply (try_hosts_found k); [exact Hne | exact Hk | exact Hrej | exact Hacc]. }
    rewrite E. reflexivity. }
  unfold RETRY_NUM. rewrite op_run_S, (op_attempt_run o req s p Hp). cbv zeta.
  rewrite Hthrow, Hthrift. unfold reconnect_then_next. rewrite E1.
  assert (Hpk : client (self (scan_found s2 k)) = Some pk) by reflexivity.
  assert (Hpeer : peer (protocol_transport pk) = ek)
    by (unfold pk; rewrite peer_make_protocol; reflexivity).
  assert (Hr : op_rpc o (clock (world (scan_found s2 k)))
                      (peer (protocol_transport pk)) req = Reply resp).
  { rewrite Hpeer. exact Hreply. }
  rewrite (op_run_first_success o req _ (scan_found s2 k) pk resp Hpk Hr Hdef).
  eexists. split; [reflexivity|].
  assert (Htr : trace (world (called (op_method o) pk (scan_found s2 k)))
                = trace (world s)
                  ++ EvCall (op_method o) (peer (protocol_transport p))
                  :: EvSleep RETRY_INTERVAL_MS
                  :: refusals cur nodes k
                  ++ [EvOpen ek true; EvCall (op_method o) ek]).
  { cbn [called world trace]. rewrite Hpeer.
    unfold scan_found, s2, slept, lead, called.
    cbn [world trace log self cursor config_nodes].
    fold nodes cur ek. rewrite <- !app_assoc. reflexivity. }
  unfold refreshed. destruct (op_members o);
    (split; [reflexivity|]); (split; [reflexivity|]); (split; [reflexivity|]);
    (split; [reflexivity | exact Htr]).
Qed.

(** X7: failover through the member list.  When the stub raises a thrift
    exception during a call, the presumed leader is cleared and the
    members are probed in round-robin order; when the first member that
    accepts answers the retry with a definitive success, the call returns
    its payload.  The client is then connected to that member with the
    cursor on it, and it has no presumed leader. *)
Theorem transport_failure_fails_over :
  (forall cluster_name configuration version_info,
     fails_over register_op
       (mkRegisterReq cluster_name configuration version_info)
       (node_register cluster_name configuration version_info))
  /\ (forall cluster_name configuration version_info,
        fails_over restart_op
          (mkRestartReq cluster_name configuration version_info)
          (node_restart cluster_name configuration version_info))
  /\ (forall location,
        fails_over remove_op (mkRemoveReq location) (node_remove location))
  /\ (forall node_id,
        fails_over configuration_op node_id (get_ainode_configuration node_id)).
Proof.
  split; [|split; [|split]].
  - intros cn cf vi. exact (op_run_fails_over register_op _).
  - intros cn cf vi. exact (op_run_fails_over restart_op _).
  - intros loc. exact (op_run_fails_over remove_op _).
  - intros id. exact (op_run_fails_over configuration_op _).
Qed.

Lemma wait_and_reconnect_no_members (s : State) :
  config_nodes (self s) = [] ->
  match config_leader (self s) with
  | Some l => accepts net (clock (world s)) l = false
  | None => True
  end ->
  fst (wait_and_reconnect s) = Raise (TException MSG_RECONNECTION_FAIL).
Proof.
  intros Hn Hl. rewrite wait_and_reconnect_run, try_to_connect_run.
  change (config_leader (self (slept s))) with (config_leader (self s)).
  change (config_nodes (self (slept s))) with (config_nodes (self s)).
  change (clock (world (slept s))) with (clock (world s)).
  rewrite Hn. cbn [List.length try_hosts]. unfold raise.
  assert (Hagain : forall x,
            config_leader (self x) = None -> config_nodes (self x) = [] ->
            fst (try_to_connect x) = Raise (TException MSG_RECONNECTION_FAIL)).
  { intros x Hx Hnx. rewrite try_to_connect_run, Hx, Hnx. reflexivity. }
  destruct (config_leader (self s)) as [l|] eqn:El.
  - rewrite Hl. cbn [is_TException]. apply Hagain.
    + rewrite self_release. reflexivity.
    + rewrite self_release. exact Hn.
  - cbn [is_TException]. apply Hagain.
    + rewrite self_release. exact El.
    + rewrite self_release. exact Hn.
Qed.

(** A failed attempt on a client that knows no member. *)
Definition gives_up_without_members {Req Resp A : Type} (o : Operation Req Resp A)
    (req : Req) (run : M A) : Prop :=
  forall (s : State) (p : Protocol),
    client (self s) = Some p ->
    config_nodes (self s) = [] ->
    match op_rpc o (clock (world s)) (peer (protocol_transport p)) req with
    | Throw e => is_TException e = true
    | Reply resp =>
        code (op_status o resp) = REDIRECTION_RECOMMEND
        /\ match redirectNode (op_status o resp) with
           | Some l => accepts net (S (clock (world s))) l = false
           | None => True
           end
    end ->
    fst (run s) = Raise (TException MSG_RECONNECTION_FAIL)
    /\ calls (trace (world (snd (run s)))) = S (calls (trace (world s)))
    /\ config_nodes (self (snd (run s))) = [].

Lemma op_run_gives_up_without_members {Req Resp A : Type} (o : Operation Req Resp A)
    (req : Req) :
  gives_up_without_members o req (op_run RETRY_NUM o req).
Proof.
  intros s p Hp Hn Hout.
  unfold RETRY_NUM. rewrite op_run_S, (op_attempt_run o req s p Hp). cbv zeta.
  set (s1 := called (op_method o) p s).
  assert (Hrec : forall v,
            match v with
            | Some l => accepts net (S (clock (world s))) l = false
            | None => True
            end ->
            let r := match @reconnect_then_next A (lead v s1) with
                     | (Ok (Return a), s') => (Ok a, s')
                     | (Ok Next, s') => op_run 4 o req s'
                     | (Raise e0, s') => (Raise e0, s')
                     end in
            fst r = Raise (TException MSG_RECONNECTION_FAIL)
            /\ calls (trace (world (snd r))) = S (calls (trace (world s)))
            /\ config_nodes (self (snd r)) = []).
  { intros v Hv. cbv zeta.
    pose proof (wait_and_reconnect_no_members (lead v s1) Hn) as Hw.
    cbn [lead self config_leader world] in Hw. specialize (Hw Hv).
    destruct (wait_and_reconnect_frame (lead v s1)) as [F _].
    unfold reconnect_then_next.
    destruct (wait_and_reconnect (lead v s1)) as [[[]|e0] s']; cbn [fst snd] in *;
      [discriminate|].
    injection Hw as ->. split; [reflexivity|].
    destruct (frame_trace _ _ F) as [evs [Htr Hc]].
    split.
    - rewrite Htr. cbn [lead s1 called world trace].
      rewrite !calls_app, Hc. cbn. lia.
    - rewrite (frame_nodes _ _ F). exact Hn. }
  destruct (op_rpc o (clock (world s)) (peer (protocol_transport p)) req) as [resp|e].
  - destruct Hout as [Hc Hv]. rewrite Hc, Z.eqb_refl. apply Hrec. exact Hv.
  - rewrite Hout. apply (Hrec None). exact I.
Qed.

(** X8: a client that knows no member cannot fail over.  As long as no
    registration or restart has succeeded the member list is empty, and
    then one failed attempt ends the call: when the stub raises a thrift
    exception, or the node answers with a redirect that names no endpoint
    or one that refuses, the call raises the reconnection failure after
    that single remote call, whatever is left of the budget. *)
Theorem no_members_no_second_attempt :
  (forall cluster_name configuration version_info,
     gives_up_without_members register_op
       (mkRegisterReq cluster_name configuration version_info)
       (node_register cluster_name configuration version_info))
  /\ (forall cluster_name configuration version_info,
        gives_up_without_members restart_op
          (mkRestartReq cluster_name configuration version_info)
          (node_restart cluster_name configuration version_info))
  /\ (forall location,
        gives_up_without_members remove_op (mkRemoveReq location)
          (node_remove location))
  /\ (forall node_id,
        gives_up_without_members configuration_op node_id
          (get_ainode_configuration node_id)).
Proof.
  split; [|split; [|split]].
  - intros cn cf vi. exact (op_run_gives_up_without_members register_op _).
  - intros cn cf vi. exact (op_run_gives_up_without_members restart_op _).
  - intros loc. exact (op_run_gives_up_without_members remove_op _).
  - intros id. exact (op_run_gives_up_without_members configuration_op _).
Qed.

End Client.

(** ** Scripted clusters *)

Definition node (n : Z) : TEndPoint := mkEndPoint "127.0.0.1" n.

Definition success : TSStatus := mkStatus 200 None.
Definition redirect (to : option TEndPoint) : TSStatus := mkStatus 400 to.
Definition broken : Exception := TTransportException "Connection reset by peer".

(** The resolved configuration of the scenarios. *)
Definition conf : Config := mkConfig (node 6667) (node 10710) false.

(** Opaque payloads are [unit]; a block is the list of the rows it holds. *)
Definition Cluster : Type := @Network unit unit unit unit (list nat) unit.

Definition decode (_ : list string) (_ : list unit) (_ : list (string * Z))
    (blocks : list (list nat)) : list nat :=
  List.concat blocks.

(** Every node is down: nothing accepts, every call breaks. *)
Definition down : Cluster :=
  mkNetwork (fun _ _ => false)
            (fun _ _ _ => Throw broken) (fun _ _ _ => Throw broken)
            (fun _ _ _ => Throw broken) (fun _ _ _ => Throw broken)
            (fun _ _ _ => Throw broken) (fun _ _ _ => Throw broken).

(** A client that has just been built against node 10710, and its world. *)
Definition fresh_client : ConfigNodeClient :=
  mkConfigNodeClient (Some (node 10710)) [] 0 None
                     (Some (TBinaryProtocol (mkTransport 0 (node 10710)))).
Definition fresh_world : World :=
  mkWorld 1 [mkTransport 0 (node 10710)] [EvOpen (node 10710) true].
Definition fresh : State := mkState fresh_client fresh_world.

(** Every node accepts, every call is answered by a redirect to 10711. *)
Definition redirecting : Cluster :=
  mkNetwork (fun _ _ => true)
            (fun _ _ _ => Reply (mkRegisterResp (redirect (Some (node 10711))) [] 0))
            (fun _ _ _ => Reply (mkRestartResp (redirect (Some (node 10711))) []))
            (fun _ _ _ => Reply (redirect (Some (node 10711))))
            (fun _ _ _ => Reply (mkConfigurationResp (redirect (Some (node 10711))) tt))
            (fun _ _ _ => Throw broken) (fun _ _ _ => Throw broken).

(** The members a successful registration announces. *)
Definition members3 : list TEndPoint := [node 10710; node 10711; node 10712].

(** Three redirects 10711 -> 10712 -> 10713, then a success with id 7. *)
Definition chained : Cluster :=
  mkNetwork (fun _ _ => true)
            (fun t _ _ =>
               match t with
               | 1%nat => Reply (mkRegisterResp (redirect (Some (node 10711))) [] 0)
               | 3%nat => Reply (mkRegisterResp (redirect (Some (node 10712))) [] 0)
               | 5%nat => Reply (mkRegisterResp (redirect (Some (node 10713))) [] 0)
               | 7%nat => Reply (mkRegisterResp success members3 7)
               | _ => Throw broken
               end)
            (fun _ _ _ => Throw broken) (fun _ _ _ => Throw broken)
            (fun _ _ _ => Throw broken)
            (fun _ _ _ => Throw broken) (fun _ _ _ => Throw broken).

(** Only node 10712 accepts connections. *)
Definition only_third : Cluster :=
  mkNetwork (fun _ e => Z.eqb (port e) 10712)
            (fun _ _ _ => Throw broken) (fun _ _ _ => Throw broken)
            (fun _ _ _ => Throw broken) (fun _ _ _ => Throw broken)
            (fun _ _ _ => Throw broken) (fun _ _ _ => Throw broken).

(** A client that knows three members and no leader. *)
Definition leaderless : State :=
  mkState (mkConfigNodeClient None members3 0 None
                              (Some (TBinaryProtocol (mkTransport 0 (node 10710)))))
          fresh_world.

(** Every node accepts and answers with a success; a registration answers
    with id 7 and the three members. *)
Definition healthy : Cluster :=
  mkNetwork (fun _ _ => true)
            (fun _ _ _ => Reply (mkRegisterResp success members3 7))
            (fun _ _ _ => Reply (mkRestartResp success members3))
            (fun _ _ _ => Reply success)
            (fun _ _ _ => Reply (mkConfigurationResp success tt))
            (fun _ _ _ => Throw broken) (fun _ _ _ => Throw broken).

(** The member list shrinks: the first registration announces three
    members; the second call breaks, the round-robin skips 10711 and
    reaches 10712; the retry is answered with a single member. *)
Definition shrinking : Cluster :=
  mkNetwork (fun t _ => match t with 0%nat | 4%nat => true | _ => false end)
            (fun t _ _ =>
               match t with
               | 1%nat => Reply (mkRegisterResp success members3 7)
               | 5%nat => Reply (mkRegisterResp success [node 10710] 7)
               | _ => Throw broken
               end)
            (fun _ _ _ => Throw broken) (fun _ _ _ => Throw broken)
            (fun _ _ _ => Throw broken)
            (fun _ _ _ => Throw broken) (fun _ _ _ => Throw broken).

(** One redirect to 10711, then a success. *)
Definition moved : Cluster :=
  mkNetwork (fun _ _ => true)
            (fun t _ _ =>
               match t with
               | 1%nat => Reply (mkRegisterResp (redirect (Some (node 10711))) [] 0)
               | _ => Reply (mkRegisterResp success members3 7)
               end)
            (fun _ _ _ => Throw broken) (fun _ _ _ => Throw broken)
            (fun _ _ _ => Throw broken)
            (fun _ _ _ => Throw broken) (fun _ _ _ => Throw broken).

(** A data-node client built against node 6667, and its world. *)
Definition data_client : DataNodeClient :=
  mkDataNodeClient "127.0.0.1" 6667 (TBinaryProtocol (mkTransport 0 (node 6667))).
Definition data_world : World :=
  mkWorld 1 [mkTransport 0 (node 6667)] [EvOpen (node 6667) true].

Definition page0 : @TFetchTimeseriesResp (list nat) unit :=
  mkFetchResp success 42 ["Time"; "s1"] [tt; tt] [("s1", 0)] [[1; 2; 3; 4; 5]%nat] true.
Definition page1 : @TFetchMoreDataResp (list nat) :=
  mkMoreResp success [[6; 7; 8]%nat] true.
Definition page2 : @TFetchMoreDataResp (list nat) :=
  mkMoreResp success [] false.

(** Pages of 5 rows, 3 rows and 0 rows. *)
Definition paged : Cluster :=
  mkNetwork (fun _ _ => true)
            (fun _ _ _ => Throw broken) (fun _ _ _ => Throw broken)
            (fun _ _ _ => Throw broken) (fun _ _ _ => Throw broken)
            (fun _ _ _ => Reply page0)
            (fun t _ _ =>
               match t with
               | 2%nat => Reply page1
               | 3%nat => Reply page2
               | _ => Throw broken
               end).

Definition empty_page : @TFetchTimeseriesResp (list nat) unit :=
  mkFetchResp success 42 ["Time"; "s1"] [tt; tt] [("s1", 0)] [] false.

(** The query runs and finds nothing. *)
Definition nothing_found : Cluster :=
  mkNetwork (fun _ _ => true)
            (fun _ _ _ => Throw broken) (fun _ _ _ => Throw broken)
            (fun _ _ _ => Throw broken) (fun _ _ _ => Throw broken)
            (fun _ _ _ => Reply empty_page)
            (fun _ _ _ => Throw broken).

Definition empty_then_more : @TFetchTimeseriesResp (list nat) unit :=
  mkFetchResp success 42 ["Time"; "s1"] [tt; tt] [("s1", 0)] [] true.

(** A first page without rows that announces more, then 3 rows. *)
Definition late_rows : Cluster :=
  mkNetwork (fun _ _ => true)
            (fun _ _ _ => Throw broken) (fun _ _ _ => Throw broken)
            (fun _ _ _ => Throw broken) (fun _ _ _ => Throw broken)
            (fun _ _ _ => Reply empty_then_more)
            (fun _ _ _ => Reply (mkMoreResp success [[6; 7; 8]%nat] false)).

(** Nothing accepts any more, and a registration is answered by a redirect
    to 10711. *)
Definition dead_end : Cluster :=
  mkNetwork (fun _ _ => false)
            (fun _ _ _ => Reply (mkRegisterResp (redirect (Some (node 10711))) [] 0))
            (fun _ _ _ => Throw broken) (fun _ _ _ => Throw broken)
            (fun _ _ _ => Throw broken)
            (fun _ _ _ => Throw broken) (fun _ _ _ => Throw broken).

(** A client connected to 10710 that knows the three members. *)
Definition known3 : State :=
  mkState (mkConfigNodeClient (Some (node 10710)) members3 0 None
                              (Some (TBinaryProtocol (mkTransport 0 (node 10710)))))
          fresh_world.

(** Only 10712 accepts; the call at clock 1 breaks, later calls succeed. *)
Definition third_alive : Cluster :=
  mkNetwork (fun _ e => Z.eqb (port e) 10712)
            (fun t _ _ =>
               match t with
               | 1%nat => Throw broken
               | _ => Reply (mkRegisterResp success members3 7)
               end)
            (fun _ _ _ => Throw broken) (fun _ _ _ => Throw broken)
            (fun _ _ _ => Throw broken)
            (fun _ _ _ => Throw broken) (fun _ _ _ => Throw broken).

(** ** The properties on the scripted clusters *)

(** C1 on [redirecting]: five redirects exhaust the budget. *)
Lemma redirecting_register_exhausts :
  fst (node_register redirecting conf 200 400 "ainode" tt tt fresh)
  = Raise (TException MSG_RECONNECTION_FAIL)
  /\ (calls (trace (world (snd (node_register redirecting conf 200 400
                                               "ainode" tt tt fresh))))
      <= calls (trace (world fresh)) + 5)%nat.
Proof.
  assert (Hc : client (self fresh) <> None) by discriminate.
  destruct (retry_budget_exhausted redirecting conf 200 400 fresh Hc) as [Hreg _].
  destruct (Hreg "ainode" tt tt) as [Hb [Hf _]].
  split; [|exact Hb].
  apply Hf. intros t e. reflexivity.
Defined.

(** C2 on [chained]: 10711, 10712, 10713 are named one after the other,
    each call goes to the endpoint named just before, and the leader is
    10713 when the registration returns 7. *)
Lemma chained_register_follows :
  exists s',
    node_register chained conf 200 400 "ainode" tt tt fresh = (Ok 7, s')
    /\ config_leader (self s') = Some (node 10713)
    /\ trace (world s')
       = trace (world fresh)
         ++ [EvCall RegisterAINode (node 10710); EvSleep 1; EvOpen (node 10711) true;
             EvCall RegisterAINode (node 10711); EvSleep 1; EvOpen (node 10712) true;
             EvCall RegisterAINode (node 10712); EvSleep 1; EvOpen (node 10713) true]
         ++ [EvCall RegisterAINode (node 10713)].
Proof.
  destruct (redirects_update_leader_and_retry chained conf 200 400)
    as (_ & _ & _ & Hreg & _).
  destruct (Hreg "ainode" tt tt) as [_ [Hfollow _]].
  apply (Hfollow fresh (TBinaryProtocol (mkTransport 0 (node 10710)))
                 [node 10711; node 10712; node 10713]
                 (mkRegisterResp success members3 7)).
  - reflexivity.
  - unfold RETRY_NUM. cbn. lia.
  - intros i l Hi.
    destruct i as [|[|[|i]]]; cbn in Hi.
    + injection Hi as <-. split; [reflexivity|]. eexists. repeat split; reflexivity.
    + injection Hi as <-. split; [reflexivity|]. eexists. repeat split; reflexivity.
    + injection Hi as <-. split; [reflexivity|]. eexists. repeat split; reflexivity.
    + destruct i; discriminate.
  - reflexivity.
  - split; [reflexivity | discriminate].
Defined.

(** C3 on [only_third]: with the cursor at 0 and three members, 10711 is
    tried first and refuses, 10712 is tried next and accepts. *)
Lemma leaderless_round_robin :
  exists s',
    try_to_connect only_third conf leaderless = (Ok tt, s')
    /\ cursor (self s') = 2
    /\ client (self s') = Some (TBinaryProtocol (mkTransport 2 (node 10712)))
    /\ config_nodes (self s') = members3
    /\ opened (trace (world s')) = [node 10710; node 10711; node 10712].
Proof.
  assert (Hne : config_nodes (self leaderless) <> []) by discriminate.
  assert (Hun : leader_unreachable only_third leaderless) by exact I.
  destruct (round_robin_resolution only_third conf leaderless Hne Hun)
    as (_ & Hfound & _).
  apply (Hfound 1%nat).
  - cbn. lia.
  - intros j Hj. assert (j = 0%nat) as -> by lia. reflexivity.
  - reflexivity.
Defined.

(** C4 on [paged]: pages of 5, 3 and 0 rows give 8 rows, after two
    fetch-more requests. *)
Lemma paged_fetch_has_eight_rows :
  exists w',
    fetch_timeseries paged 200 decode 2 data_client "select" 10000 60000 data_world
    = Some (Ok [1; 2; 3; 4; 5; 6; 7; 8]%nat, w')
    /\ List.length [1; 2; 3; 4; 5; 6; 7; 8]%nat = 8%nat
    /\ trace w' = trace data_world
                  ++ [EvCall FetchTimeseries (node 6667);
                      EvCall FetchMoreData (node 6667);
                      EvCall FetchMoreData (node 6667)].
Proof.
  destruct (fetch_timeseries_concatenates_pages paged 200 decode data_client
              "select" 10000 60000 data_world page0 [page1; page2] 2)
    as [w' [Hrun [Htrace _]]].
  - reflexivity.
  - reflexivity.
  - discriminate.
  - discriminate.
  - intros k p Hk. destruct k as [|[|k]]; cbn in Hk.
    + injection Hk as <-. split; reflexivity.
    + injection Hk as <-. split; reflexivity.
    + destruct k; discriminate.
  - reflexivity.
  - cbn. lia.
  - exists w'. split; [exact Hrun|]. split; [reflexivity | exact Htrace].
Defined.

(** C5 on [nothing_found]: the empty result is raised after the one
    open-query call. *)
Lemma nothing_found_raises_empty_result :
  exists msg w',
    fetch_timeseries nothing_found 200 decode 2 data_client "select" 10000 60000
                     data_world
    = Some (Raise (RuntimeError msg), w')
    /\ (msg = String.append "No data fetched with sql: " "select"
        \/ msg = String.append "Fetched empty data with sql: " "select")
    /\ (forall st m, verify_success 200 st m <> Some (RuntimeError msg))
    /\ trace w' = trace data_world ++ [EvCall FetchTimeseries (node 6667)].
Proof.
  apply (fetch_timeseries_empty_first_page nothing_found 200 decode data_client
           "select" 10000 60000 data_world empty_page 2).
  - reflexivity.
  - reflexivity.
  - left. reflexivity.
Defined.

(** C6 on [third_alive]: the first attempt breaks and the client fails
    over to 10712; the success that answers the second attempt is
    returned, with its id and its members. *)
Lemma second_attempt_success_returns_id :
  fst (node_register third_alive conf 200 400 "ainode" tt tt known3) = Ok 7
  /\ config_nodes (self (snd (node_register third_alive conf 200 400
                                            "ainode" tt tt known3)))
     = members3.
Proof.
  set (s1 := snd (node_register_attempt third_alive conf 200 400
                    (mkRegisterReq "ainode" tt tt) known3)).
  assert (Hreach : reaches (node_register_attempt third_alive conf 200 400
                              (mkRegisterReq "ainode" tt tt))
                           RETRY_NUM known3 4 s1).
  { apply (reaches_next _ _ _ 4%nat known3 s1); [apply reaches_start | reflexivity]. }
  destruct (success_returns_payload third_alive conf 200 400 known3 s1 3%nat
              (TBinaryProtocol (mkTransport 3 (node 10712))) eq_refl)
    as [Hreg _].
  apply (Hreg "ainode" tt tt (mkRegisterResp success members3 7) Hreach).
  - reflexivity.
  - split; [reflexivity | discriminate].
Defined.

(** C6, the claim as stated, fails on [node_remove]: the same response
    leaves two clients with two different member lists, each the one it
    had before the call, so the list is not taken from the response. *)
Lemma remove_does_not_refresh_members :
  let registered := snd (node_register healthy conf 200 400 "ainode" tt tt fresh) in
  fst (node_remove healthy conf 200 400 tt fresh) = Ok success
  /\ fst (node_remove healthy conf 200 400 tt registered) = Ok success
  /\ config_nodes (self (snd (node_remove healthy conf 200 400 tt fresh))) = []
  /\ config_nodes (self (snd (node_remove healthy conf 200 400 tt registered))) = members3
  /\ ~ (exists members_of : TSStatus -> list TEndPoint,
          config_nodes (self (snd (node_remove healthy conf 200 400 tt fresh)))
          = members_of success
          /\ config_nodes (self (snd (node_remove healthy conf 200 400 tt registered)))
             = members_of success).
Proof.
  cbv zeta. repeat split; try reflexivity.
  intros [members_of [Ha Hb]].
  assert (Hfresh : config_nodes (self (snd (node_remove healthy conf 200 400 tt fresh)))
                   = []) by reflexivity.
  assert (Hreg : config_nodes
                   (self (snd (node_remove healthy conf 200 400 tt
                                 (snd (node_register healthy conf 200 400
                                                     "ainode" tt tt fresh)))))
                 = members3) by reflexivity.
  rewrite Hfresh in Ha. rewrite Hreg in Hb. rewrite <- Ha in Hb. discriminate.
Qed.

(** C7 on [healthy]: the client starts with the one configured endpoint as
    leader and no member. *)
Lemma healthy_borrow_initial_state :
  exists c w',
    borrow_config_node_client healthy conf (ClientManager_init conf) initial_world
    = (Ok c, w')
    /\ config_leader c = Some (node 10710)
    /\ config_nodes c = []
    /\ cursor c = 0
    /\ client c = Some (TBinaryProtocol (mkTransport 0 (node 10710)))
    /\ trace w' = [EvOpen (node 10710) true].
Proof.
  apply (borrow_config_node_client_initial_state healthy conf initial_world).
  reflexivity.
Defined.

(** C7, the claim as stated, fails: the client the factory builds holds no
    list of endpoints whose first entry is its presumed leader. *)
Lemma borrowed_client_has_no_member_list :
  exists c w',
    borrow_config_node_client healthy conf (ClientManager_init conf) initial_world
    = (Ok c, w')
    /\ config_nodes c = []
    /\ ~ (exists l, config_nodes c = l /\ hd_error l = config_leader c).
Proof.
  eexists. eexists. split; [reflexivity|]. split; [reflexivity|].
  intros [l [Hl Hh]]. cbn in Hl. subst l. discriminate.
Qed.

(** The state [shrinking] leads to: two registrations after the
    constructor. *)
Definition shrunk : State :=
  snd (node_register shrinking conf 200 400 "ainode" tt tt
         (snd (node_register shrinking conf 200 400 "ainode" tt tt fresh))).

Lemma shrunk_reachable : reachable shrinking conf 200 400 shrunk.
Proof.
  unfold shrunk. apply reach_register. apply reach_register.
  apply (reach_init shrinking conf 200 400 (Some (node 10710)) initial_world).
  reflexivity.
Qed.

(** C8 on the scripted clusters: the cursor of [shrunk] is not negative,
    and the round-robin of [leaderless] reads the members at indices 1
    and 2 and leaves the cursor at 2. *)
Lemma cursor_after_round_robin_in_range :
  0 <= cursor (self shrunk)
  /\ 0 <= cursor (self (snd (try_to_connect only_third conf leaderless)))
       < Z.of_nat (List.length
                     (config_nodes (self (snd (try_to_connect only_third conf
                                                              leaderless)))))
  /\ exists m b,
       (m < 3)%nat
       /\ trace (world (snd (try_to_connect only_third conf leaderless)))
          = trace (world leaderless)
            ++ map (fun j => EvOpen (nth (Z.to_nat ((0 + 1 + Z.of_nat j) mod 3))
                                         members3 no_endpoint) false)
                   (seq 0 m)
            ++ [EvOpen (nth (Z.to_nat ((0 + 1 + Z.of_nat m) mod 3))
                            members3 no_endpoint) b]
       /\ cursor (self (snd (try_to_connect only_third conf leaderless)))
          = (0 + 1 + Z.of_nat m) mod 3
       /\ config_nodes (self (snd (try_to_connect only_third conf leaderless)))
          = members3.
Proof.
  destruct (cursor_valid_after_round_robin shrinking conf 200 400) as (H1 & _ & _).
  destruct (cursor_valid_after_round_robin only_third conf 200 400) as (_ & H2 & H3).
  split; [apply H1; exact shrunk_reachable|].
  split.
  - apply H2; [discriminate | exact I].
  - apply (H3 leaderless); [discriminate | exact I].
Defined.

(** C8, the claim as stated, fails: [shrunk] is reachable, its member list
    has one entry, and its cursor is 2. *)
Lemma cursor_out_of_range_after_refresh :
  reachable shrinking conf 200 400 shrunk
  /\ config_nodes (self shrunk) = [node 10710]
  /\ cursor (self shrunk) = 2
  /\ ~ (0 <= cursor (self shrunk)
          < Z.of_nat (List.length (config_nodes (self shrunk)))).
Proof.
  split; [exact shrunk_reachable|].
  split; [reflexivity|]. split; [reflexivity|].
  assert (Hc : cursor (self shrunk) = 2) by reflexivity.
  assert (Hn : config_nodes (self shrunk) = [node 10710]) by reflexivity.
  rewrite Hc, Hn. cbn. lia.
Qed.

(** C9 on [moved]: the client is built against 10710, a registration is
    redirected to 10711 and succeeds there.  Once it has returned, the one
    open transport is the one to 10711. *)
Lemma redirected_client_holds_one_transport :
  exists t,
    client (self (snd (node_register moved conf 200 400 "ainode" tt tt fresh)))
    = Some (make_protocol conf t)
    /\ open_transports
         (world (snd (node_register moved conf 200 400 "ainode" tt tt fresh)))
       = t :: open_transports initial_world.
Proof.
  apply (one_open_transport_at_a_time moved conf 200 400 initial_world).
  apply from_register.
  apply (from_init moved conf 200 400 initial_world (Some (node 10710))).
  reflexivity.
Defined.

(** C10 on [down]: building a client against a node that refuses raises,
    and the only thing that happened is the refused connection. *)
Lemma down_constructor_raises :
  ConfigNodeClient_init down conf (Some (node 10710)) initial_world
  = (Raise (TException MSG_RECONNECTION_FAIL),
     mkWorld 1 [] [EvOpen (node 10710) false]).
Proof.
  apply (constructor_raises_when_leader_refuses down conf (node 10710) initial_world).
  reflexivity.
Defined.

(** C4, the claim as stated, fails when the first page has no rows: on
    [late_rows] the first page announces more data and the next page has 3
    rows, yet no fetch-more request is issued and nothing is returned. *)
Lemma empty_first_page_is_not_drained :
  fetchTimeseries late_rows 1 (node 6667) (mkFetchReq "select" 10000 60000)
  = Reply empty_then_more
  /\ code (fts_status empty_then_more) = 200
  /\ fts_hasMoreData empty_then_more = true
  /\ fetch_timeseries late_rows 200 decode 2 data_client "select" 10000 60000 data_world
     = Some (Raise (RuntimeError "No data fetched with sql: select"),
             mkWorld 2 [mkTransport 0 (node 6667)]
                     [EvOpen (node 6667) true; EvCall FetchTimeseries (node 6667)])
  /\ ~ (exists w',
          fetch_timeseries late_rows 200 decode 2 data_client "select" 10000 60000
                           data_world
          = Some (Ok [6; 7; 8]%nat, w')).
Proof.
  split; [reflexivity|]. split; [reflexivity|]. split; [reflexivity|].
  split; [reflexivity|].
  intros [w' H].
  assert (E : fetch_timeseries late_rows 200 decode 2 data_client "select" 10000 60000
                               data_world
              = Some (Raise (RuntimeError "No data fetched with sql: select"),
                      mkWorld 2 [mkTransport 0 (node 6667)]
                              [EvOpen (node 6667) true;
                               EvCall FetchTimeseries (node 6667)]))
    by reflexivity.
  rewrite E in H. discriminate.
Qed.

(** C2, the claim as stated, fails: on [dead_end] the registration of a
    fresh client is answered by a redirect, the named endpoint refuses,
    and the call raises after that one remote call, with four turns of
    its budget unused. *)
Lemma redirect_to_dead_end_is_not_retried :
  registerAINode dead_end 1 (node 10710) (mkRegisterReq "ainode" tt tt)
  = Reply (mkRegisterResp (redirect (Some (node 10711))) [] 0)
  /\ code (redirect (Some (node 10711))) = 400
  /\ node_register dead_end conf 200 400 "ainode" tt tt fresh
     = (Raise (TException MSG_RECONNECTION_FAIL),
        mkState (mkConfigNodeClient None [] 0 None
                   (Some (TBinaryProtocol (mkTransport 0 (node 10710)))))
                (mkWorld 3 [mkTransport 0 (node 10710)]
                   [EvOpen (node 10710) true; EvCall RegisterAINode (node 10710);
                    EvSleep 1; EvOpen (node 10711) false]))
  /\ calls (trace (world (snd (node_register dead_end conf 200 400
                                              "ainode" tt tt fresh))))
     = 1%nat
  /\ ~ (2 <= calls (trace (world (snd (node_register dead_end conf 200 400
                                                     "ainode" tt tt fresh)))))%nat.
Proof.
  split; [reflexivity|]. split; [reflexivity|]. split; [reflexivity|].
  assert (E : calls (trace (world (snd (node_register dead_end conf 200 400
                                                      "ainode" tt tt fresh))))
              = 1%nat) by reflexivity.
  split; [exact E|]. rewrite E. lia.
Qed.

(** ** Further scripted clusters *)

(** The second fetch-more request breaks. *)
Definition breaking : Cluster :=
  mkNetwork (fun _ _ => true)
            (fun _ _ _ => Throw broken) (fun _ _ _ => Throw broken)
            (fun _ _ _ => Throw broken) (fun _ _ _ => Throw broken)
            (fun _ _ _ => Reply page0)
            (fun t _ _ =>
               match t with
               | 2%nat => Reply page1
               | _ => Throw broken
               end).

(** Every fetch-more request is answered with 3 rows and more to come. *)
Definition endless : Cluster :=
  mkNetwork (fun _ _ => true)
            (fun _ _ _ => Throw broken) (fun _ _ _ => Throw broken)
            (fun _ _ _ => Throw broken) (fun _ _ _ => Throw broken)
            (fun _ _ _ => Reply page0)
            (fun _ _ _ => Reply page1).

(** 10712 accepts, but only from clock 4 on. *)
Definition late : Cluster :=
  mkNetwork (fun t e => (4 <=? t)%nat && Z.eqb (port e) 10712)
            (fun _ _ _ => Throw broken) (fun _ _ _ => Throw broken)
            (fun _ _ _ => Throw broken) (fun _ _ _ => Throw broken)
            (fun _ _ _ => Throw broken) (fun _ _ _ => Throw broken).

(** The state after the redirected registration on [moved]. *)
Definition relocated : State :=
  snd (node_register moved conf 200 400 "ainode" tt tt fresh).

Lemma relocated_reachable : reachable moved conf 200 400 relocated.
Proof.
  unfold relocated. apply reach_register.
  apply (reach_init moved conf 200 400 (Some (node 10710)) initial_world).
  reflexivity.
Qed.

(** ** The further properties on the scripted clusters *)

(** X1 on [breaking]: 8 rows were gathered when the second fetch-more
    request breaks; the call raises and returns none of them. *)
Lemma breaking_fetch_raises :
  fetch_timeseries breaking 200 decode 5 data_client "select" 10000 60000 data_world
  = Some (Raise broken,
          mkWorld 4 [mkTransport 0 (node 6667)]
                  [EvOpen (node 6667) true; EvCall FetchTimeseries (node 6667);
                   EvCall FetchMoreData (node 6667); EvCall FetchMoreData (node 6667)]).
Proof.
  apply (fetch_timeseries_page_failure_discards_rows breaking 200 decode data_client
           "select" 10000 60000 data_world page0 [page1] 5 broken).
  - reflexivity.
  - reflexivity.
  - discriminate.
  - discriminate.
  - reflexivity.
  - intros k p Hk. destruct k as [|k]; cbn in Hk.
    + injection Hk as <-. repeat split; reflexivity.
    + destruct k; discriminate.
  - left. reflexivity.
  - cbn. lia.
Defined.

(** X2 on [endless]: a thousand turns of the loop are not enough. *)
Lemma endless_fetch_runs_out :
  fetch_timeseries endless 200 decode 1000 data_client "select" 10000 60000 data_world
  = None.
Proof.
  apply (fetch_timeseries_never_returns_when_always_more endless 200 decode data_client
           "select" 10000 60000 data_world page0).
  - reflexivity.
  - reflexivity.
  - discriminate.
  - discriminate.
  - reflexivity.
  - intros t. exists page1. repeat split; reflexivity.
Defined.

(** X3 on [paged]: the client of the factory targets 6667, and the three
    calls of the query all went there. *)
Lemma paged_query_stays_on_data_node :
  dn_target data_client = node 6667
  /\ exists n,
       trace (mkWorld 4 [mkTransport 0 (node 6667)]
                      [EvOpen (node 6667) true; EvCall FetchTimeseries (node 6667);
                       EvCall FetchMoreData (node 6667);
                       EvCall FetchMoreData (node 6667)])
       = trace data_world ++ EvCall FetchTimeseries (dn_target data_client)
                          :: repeat (EvCall FetchMoreData (dn_target data_client)) n.
Proof.
  destruct (fetch_timeseries_single_endpoint paged conf 200 decode) as [Hborrow Hfetch].
  split.
  - apply (Hborrow initial_world data_world data_client). reflexivity.
  - apply (Hfetch 2%nat data_client "select" 10000 60000 data_world _
                  (Ok [1; 2; 3; 4; 5; 6; 7; 8]%nat)).
    reflexivity.
Defined.

(** X5 on [moved]: a further registration from [relocated] calls no
    [close()]. *)
Lemma relocated_calls_no_close :
  transport (self relocated) = None
  /\ Unclosed relocated
       (snd (node_register moved conf 200 400 "ainode" tt tt relocated)).
Proof.
  destruct (close_is_never_called moved conf 200 400 relocated
              relocated_reachable) as (Ht & Hreg & _).
  split; [exact Ht|]. apply Hreg.
Defined.

(** X6 on [moved]: the stub of [relocated] is on an open transport. *)
Lemma relocated_stub_is_wired :
  exists t,
    In t (open_transports (world relocated))
    /\ client (self relocated)
       = Some (if get_ain_thrift_compression_enabled conf
               then TCompactProtocol t else TBinaryProtocol t).
Proof.
  apply (stub_is_on_an_open_transport moved conf 200 400 relocated).
  exact relocated_reachable.
Defined.

(** X7 on [third_alive]: the call to 10710 breaks, 10711 refuses, 10712
    accepts and answers with id 7. *)
Lemma third_alive_register_fails_over :
  exists s',
    node_register third_alive conf 200 400 "ainode" tt tt known3 = (Ok 7, s')
    /\ config_leader (self s') = None
    /\ cursor (self s') = 2
    /\ client (self s') = Some (TBinaryProtocol (mkTransport 3 (node 10712)))
    /\ config_nodes (self s') = members3
    /\ trace (world s')
       = trace (world known3)
         ++ EvCall RegisterAINode (node 10710) :: EvSleep 1
         :: [EvOpen (node 10711) false]
         ++ [EvOpen (node 10712) true; EvCall RegisterAINode (node 10712)].
Proof.
  destruct (transport_failure_fails_over third_alive conf 200 400) as [Hreg _].
  apply (Hreg "ainode" tt tt known3 (TBinaryProtocol (mkTransport 0 (node 10710)))
              broken 1%nat (mkRegisterResp success members3 7)).
  - reflexivity.
  - reflexivity.
  - discriminate.
  - reflexivity.
  - reflexivity.
  - cbn. lia.
  - intros j Hj. assert (j = 0%nat) as -> by lia. reflexivity.
  - reflexivity.
  - reflexivity.
  - split; [reflexivity | discriminate].
Defined.

(** X8 on [down]: a fresh client whose call breaks gives up at once. *)
Lemma fresh_client_gives_up :
  fst (node_register down conf 200 400 "ainode" tt tt fresh)
  = Raise (TException MSG_RECONNECTION_FAIL)
  /\ calls (trace (world (snd (node_register down conf 200 400 "ainode" tt tt fresh))))
     = S (calls (trace (world fresh)))
  /\ config_nodes (self (snd (node_register down conf 200 400 "ainode" tt tt fresh)))
     = [].
Proof.
  destruct (no_members_no_second_attempt down conf 200 400) as [Hreg _].
  apply (Hreg "ainode" tt tt fresh (TBinaryProtocol (mkTransport 0 (node 10710)))).
  - reflexivity.
  - reflexivity.
  - reflexivity.
Defined.

(** X9 on [redirecting]: five redirects to 10711 leave the client
    connected to 10711. *)
Lemma redirecting_leaves_last_leader :
  exists s' p',
    node_register redirecting conf 200 400 "ainode" tt tt fresh
    = (Raise (TException MSG_RECONNECTION_FAIL), s')
    /\ config_leader (self s') = Some (node 10711)
    /\ client (self s') = Some p'
    /\ peer (protocol_transport p') = node 10711
    /\ config_nodes (self s') = []
    /\ trace (world s')
       = trace (world fresh)
         ++ redirect_events RegisterAINode (node 10710)
              [node 10711; node 10711; node 10711; node 10711; node 10711].
Proof.
  destruct (exhausted_by_redirects_keeps_last_leader redirecting conf 200 400)
    as [Hreg _].
  apply (Hreg "ainode" tt tt fresh (TBinaryProtocol (mkTransport 0 (node 10710)))
              [node 10711; node 10711; node 10711; node 10711; node 10711]).
  - reflexivity.
  - reflexivity.
  - intros i l Hi. split; [reflexivity|].
    eexists. split; [reflexivity|]. split; [reflexivity|].
    destruct i as [|[|[|[|[|i]]]]]; cbn in Hi;
      try (injection Hi as <-; reflexivity).
    destruct i; discriminate.
Defined.

(** X10 on [down] and [healthy]: no leader, no client and no connection
    attempt; a leader that accepts, a client. *)
Lemma constructor_without_leader_raises :
  ConfigNodeClient_init down conf None initial_world
  = (Raise (TException MSG_RECONNECTION_FAIL), initial_world)
  /\ ConfigNodeClient_init healthy conf (Some (node 10710)) initial_world
     = (Ok fresh_client, fresh_world).
Proof.
  split.
  - apply (constructor_outcomes down conf None initial_world). reflexivity.
  - apply (proj1 (constructor_outcomes healthy conf (Some (node 10710)) initial_world)).
    exists (node 10710). repeat split; reflexivity.
Defined.

(** X11 on [redirecting]: what the exhausted registration raises is one of
    the three kinds. *)
Lemma redirecting_raises_one_of_three :
  TException MSG_RECONNECTION_FAIL = TException MSG_RECONNECTION_FAIL
  \/ (exists t ep,
        registerAINode redirecting t ep (mkRegisterReq "ainode" tt tt)
        = Throw (TException MSG_RECONNECTION_FAIL)
        /\ is_TException (TException MSG_RECONNECTION_FAIL) = false)
  \/ (exists t ep resp,
        registerAINode redirecting t ep (mkRegisterReq "ainode" tt tt) = Reply resp
        /\ code (reg_status resp) <> 400
        /\ verify_success 200 (reg_status resp)
             "An error occurs when calling node_register()"
           = Some (TException MSG_RECONNECTION_FAIL)).
Proof.
  destruct (operations_raise_only_three_kinds redirecting conf 200 400) as [Hreg _].
  apply (Hreg "ainode" tt tt fresh (TException MSG_RECONNECTION_FAIL)).
  - discriminate.
  - reflexivity.
Defined.

(** X12 on [healthy]: a registration answered at once is one call. *)
Lemma healthy_register_is_one_call :
  let s' := snd (node_register healthy conf 200 400 "ainode" tt tt fresh) in
  trace (world s') = trace (world fresh) ++ [EvCall RegisterAINode (node 10710)]
  /\ open_transports (world s') = open_transports (world fresh)
  /\ clock (world s') = S (clock (world fresh))
  /\ config_leader (self s') = config_leader (self fresh)
  /\ cursor (self s') = cursor (self fresh)
  /\ client (self s') = client (self fresh).
Proof.
  destruct (success_at_once_touches_nothing healthy conf 200 400) as [Hreg _].
  apply (Hreg "ainode" tt tt fresh (TBinaryProtocol (mkTransport 0 (node 10710)))
              (mkRegisterResp success members3 7)).
  - reflexivity.
  - reflexivity.
  - split; [reflexivity | discriminate].
Defined.

(** X13 on [late]: the first pass (clocks 1 to 3) finds every member
    refusing; the second pass reaches 10712 at clock 5. *)
Lemma late_second_pass_connects :
  exists s',
    wait_and_reconnect late conf leaderless = (Ok tt, s')
    /\ cursor (self s') = 2
    /\ client (self s') = Some (TBinaryProtocol (mkTransport 5 (node 10712)))
    /\ trace (world s')
       = trace (world leaderless) ++ EvSleep 1
           :: [EvOpen (node 10711) false; EvOpen (node 10712) false;
               EvOpen (node 10710) false]
           ++ [EvOpen (node 10711) false] ++ [EvOpen (node 10712) true].
Proof.
  assert (Hfirst : forall j, (j < 3)%nat ->
            accepts late (1 + j)%nat (candidate_endpoint 0 members3 j) = false).
  { intros j Hj. destruct j as [|[|[|j]]]; try reflexivity. lia. }
  destruct (wait_and_reconnect_makes_two_passes late conf leaderless
              eq_refl eq_refl ltac:(discriminate) Hfirst) as [Hfound _].
  apply (Hfound 1%nat).
  - cbn. lia.
  - intros j Hj. assert (j = 0%nat) as -> by lia. reflexivity.
  - reflexivity.
Defined.
